(** * PropScraper: the Bayut (Algolia) and PropertyFinder scrapers

    A shallow embedding of the two scripts of the repository:

    - [Bayut]: the class [MagnoliaScraper] of "Bayut-Scraper -ETL -RENT ONLY.py"
      (transport with retries, page loop per price band, the pandas
      normalisation block, consolidation of the per-band CSV files), with
      its entry point [Entry.main];
    - [PropertyFinder]: "PropertyFinder-Scraper.py" (page fetch, the
      [while True] pagination loop with its retry counter, the
      [property.id] filter), with the page URL in [Url].

    Python values are modelled by [Py.json], exceptions by [Py.exn], pandas
    frames column-major by [Pandas.frame].  The network, the clock and the
    file system are explicit: an oracle answers each HTTP call, and the
    state records the calls made, the sleeps, the log and the files. *)

From Stdlib Require Import List String Ascii ZArith Lia Bool Arith DecimalString.
From Stdlib Require DecimalZ.
Import ListNotations.
Local Open Scope string_scope.
Local Open Scope Z_scope.
Local Set Warnings "-register-all".

(* ===================================================================== *)
(** * Python values and exceptions *)
(* ===================================================================== *)

Module Py.

(** A decoded JSON document, as [json.loads] / [response.json()] build it.
    A finite float is kept exactly, as [m * 2 ^ e]. *)
Inductive json : Type :=
| JNull
| JBool (b : bool)
| JInt (z : Z)
| JFloat (m e : Z)
| JStr (s : string)
| JList (l : list json)
| JDict (d : list (string * json)).

(** A Python [dict] with string keys, in insertion order (keys are unique
    in a real dict; [dict_get] reads the first binding). *)
Definition dict := list (string * json).

Inductive exn : Type :=
| KeyError (key : string)
| AttributeError (attr : string)
| TypeError (msg : string)
| ValueError (msg : string)
| OutOfBoundsDatetime
| RequestException (msg : string)
| EmptyDataError
| IOError (path : string).

(** Fallible computations: [inl e] is a raised exception. *)
Definition result (A : Type) : Type := (exn + A)%type.

Definition bind {A B} (r : result A) (k : A -> result B) : result B :=
  match r with
  | inl e => inl e
  | inr a => k a
  end.

Fixpoint mapM {A B} (f : A -> result B) (l : list A) : result (list B) :=
  match l with
  | [] => inr []
  | x :: xs =>
      bind (f x) (fun y => bind (mapM f xs) (fun ys => inr (y :: ys)))
  end.

Fixpoint dict_get (d : dict) (k : string) : option json :=
  match d with
  | [] => None
  | (k', v) :: d' => if String.eqb k' k then Some v else dict_get d' k
  end.

(** [k in d] *)
Definition dict_mem (d : dict) (k : string) : bool :=
  match dict_get d k with Some _ => true | None => false end.

(** [d.get(k)]: [None] when the key is missing. *)
Definition get (d : dict) (k : string) : json :=
  match dict_get d k with Some v => v | None => JNull end.

(** [d.get(k, default)] *)
Definition get_default (d : dict) (k : string) (default : json) : json :=
  match dict_get d k with Some v => v | None => default end.

(** [x.get(k, default)] on an arbitrary value: only a mapping has [get]. *)
Definition attr_get (x : json) (k : string) (default : json) : result json :=
  match x with
  | JDict d => inr (get_default d k default)
  | _ => inl (AttributeError "get")
  end.

(** [x[k]] with a string key. *)
Definition getitem_str (x : json) (k : string) : result json :=
  match x with
  | JDict d =>
      match dict_get d k with
      | Some v => inr v
      | None => inl (KeyError k)
      end
  | _ => inl (TypeError "indices must be integers")
  end.

(** Exact test [m * 2 ^ e = n] for a float against an integer. *)
Definition float_eq_int (m e n : Z) : bool :=
  if 0 <=? e then m * 2 ^ e =? n else m =? n * 2 ^ (- e).

(** [x == n] for an integer literal [n]: [True == 1] and [1.0 == 1] hold
    in Python. *)
Definition eq_int (x : json) (n : Z) : bool :=
  match x with
  | JInt z => z =? n
  | JBool b => (if b then 1 else 0) =? n
  | JFloat m e => float_eq_int m e n
  | _ => false
  end.

(** [isinstance(x, dict)] *)
Definition is_mapping (v : json) : bool :=
  match v with JDict _ => true | _ => false end.

(** Truth value, as tested by [if not x]. *)
Definition truthy (x : json) : bool :=
  match x with
  | JNull => false
  | JBool b => b
  | JInt z => negb (z =? 0)
  | JFloat m _ => negb (m =? 0)
  | JStr s => negb (String.eqb s "")
  | JList l => match l with [] => false | _ => true end
  | JDict d => match d with [] => false | _ => true end
  end.

Fixpoint chars (s : string) : list json :=
  match s with
  | EmptyString => []
  | String c s' => JStr (String c EmptyString) :: chars s'
  end.

(** The items [list.extend(x)] appends: the elements of a list, the keys of
    a mapping, the characters of a string; anything else is not iterable. *)
Definition iter (x : json) : result (list json) :=
  match x with
  | JList l => inr l
  | JDict d => inr (map (fun kv => JStr (fst kv)) d)
  | JStr s => inr (chars s)
  | _ => inl (TypeError "object is not iterable")
  end.

(** Decimal rendering of an integer, as an f-string prints it. *)
Definition str_of_Z (z : Z) : string :=
  NilZero.string_of_int (Z.to_int z).

Definition str_of_nat (n : nat) : string := str_of_Z (Z.of_nat n).

End Py.

Notation "x <- c1 ;; c2" := (Py.bind c1 (fun x => c2))
  (at level 61, c1 at next level, right associativity).

(* ===================================================================== *)
(** * Bayut: the partition plan *)
(* ===================================================================== *)

Module Plan.

Inductive cmp : Type := Lt | Ge.

(** One comparison of an Algolia numeric filter, ["price < 20000"]. *)
Record atom : Type := { op : cmp; bound : Z }.

(** A price band: a label and the conjunction (["AND"]) of its atoms. *)
Record price_range : Type := { label : string; filter : list atom }.

Definition render_atom (a : atom) : string :=
  "price " ++ (match op a with Lt => "<" | Ge => ">=" end) ++ " "
  ++ Py.str_of_Z (bound a).

Fixpoint render_filter (f : list atom) : string :=
  match f with
  | [] => ""
  | [a] => render_atom a
  | a :: f' => render_atom a ++ " AND " ++ render_filter f'
  end.

Definition below (hi : Z) : list atom := [ {| op := Lt; bound := hi |} ].
Definition between (lo hi : Z) : list atom :=
  [ {| op := Ge; bound := lo |}; {| op := Lt; bound := hi |} ].
Definition from (lo : Z) : list atom := [ {| op := Ge; bound := lo |} ].

(** The list [price_ranges] of [price_range_scrape], in declaration order. *)
Definition price_ranges : list price_range :=
  [ {| label := "budget";       filter := below 20000 |};
    {| label := "budget2";      filter := between 20001 35000 |};
    {| label := "budget3";      filter := between 35001 50000 |};
    {| label := "mid_range";    filter := between 50001 75000 |};
    {| label := "mid_range2";   filter := between 75001 100000 |};
    {| label := "mid_range22";  filter := between 100001 120000 |};
    {| label := "mid_range3";   filter := between 120001 150001 |};
    {| label := "mid_range4";   filter := between 150001 200000 |};
    {| label := "mid_range5";   filter := between 200001 250000 |};
    {| label := "mid_range6";   filter := between 250001 275000 |};
    {| label := "mid_range7";   filter := between 275001 300000 |};
    {| label := "mid_range8";   filter := between 300001 400000 |};
    {| label := "mid_range9";   filter := between 400001 500000 |};
    {| label := "mid_range10";  filter := between 500001 600000 |};
    {| label := "ultra_luxury"; filter := from 600001 |} ].

(** Meaning of a filter on a listing whose [price] attribute is [p]. *)
Definition atom_holds (p : Z) (a : atom) : bool :=
  match op a with
  | Lt => p <? bound a
  | Ge => bound a <=? p
  end.

Definition satisfies (p : Z) (r : price_range) : bool :=
  forallb (atom_holds p) (filter r).

(** The bands of the plan that a listing of price [p] falls into. *)
Definition matching (p : Z) : list price_range :=
  List.filter (satisfies p) price_ranges.

(** The thresholds at which one band ends without the next one starting. *)
Definition uncovered_prices : list Z :=
  [20000; 35000; 50000; 75000; 100000; 120000; 200000; 250000; 275000;
   300000; 400000; 500000; 600000].

End Plan.

(* ===================================================================== *)
(** * pandas frames *)
(* ===================================================================== *)

Module Pandas.
Import Py.

(** One entry of a frame.  [NaN] is the filler pandas puts where a record
    has no value for a column; [Obj JNull] is Python's [None]; both are
    null for [pd.notnull] and print as an empty CSV field. *)
Inductive cell : Type :=
| NaN
| Obj (v : json)
| Timestamp (m e : Z)   (* [m * 2 ^ e] seconds since the epoch *)
| NaT.

Definition series := list cell.

(** A frame, column-major: the ordered columns with their names. *)
Definition frame := list (string * series).

Definition is_null (c : cell) : bool :=
  match c with
  | NaN | NaT | Obj JNull => true
  | _ => false
  end.

Definition columns (df : frame) : list string := map fst df.

Definition nrows (df : frame) : nat :=
  match df with
  | [] => 0%nat
  | c :: _ => List.length (snd c)
  end.

Definition mem (k : string) (l : list string) : bool :=
  existsb (String.eqb k) l.

(** Keys in order of first appearance. *)
Fixpoint first_seen (seen l : list string) : list string :=
  match l with
  | [] => []
  | k :: l' =>
      if mem k seen then first_seen seen l' else k :: first_seen (k :: seen) l'
  end.

Definition entry (k : string) (d : dict) : cell :=
  match dict_get d k with
  | Some v => Obj v
  | None => NaN
  end.

(** [pd.DataFrame(records)] for a list of mappings: one column per key,
    one row per record, [NaN] where a record lacks the key.  A cell is the
    Python object the record holds: the dtype that pandas infers for a
    column is not represented (it holds an integer column that has a
    missing entry as floats).  The statements made on frames are
    therefore about rows, nulls, strings and column names, not about the
    way a number is held or printed. *)
Definition DataFrame (records : list dict) : frame :=
  map (fun k => (k, map (entry k) records))
      (first_seen [] (flat_map (map fst) records)).

(** Does some record of the batch carry the key? *)
Definition has_column (records : list dict) (k : string) : bool :=
  existsb (fun d => dict_mem d k) records.

(** [df[k]] *)
Fixpoint getitem (df : frame) (k : string) : result series :=
  match df with
  | [] => inl (KeyError k)
  | (k', s) :: df' => if String.eqb k' k then inr s else getitem df' k
  end.

(** [df[k] = s]: replaces the column, or appends it as the last one. *)
Fixpoint setitem (df : frame) (k : string) (s : series) : frame :=
  match df with
  | [] => [(k, s)]
  | (k', s') :: df' =>
      if String.eqb k' k then (k, s) :: df' else (k', s') :: setitem df' k s
  end.

(** [df.rename(columns={old: new}, inplace=True)]; a missing [old] is
    ignored. *)
Definition rename (df : frame) (old new : string) : frame :=
  map (fun c => (if String.eqb (fst c) old then new else fst c, snd c)) df.

Definition named (k : string) (c : string * series) : bool :=
  String.eqb (fst c) k.

(** [df[names]]: the named columns in the order asked (every column that
    bears the name, should a rename have produced two); a name borne by no
    column is a [KeyError]. *)
Fixpoint select (df : frame) (names : list string) : result frame :=
  match names with
  | [] => inr []
  | k :: names' =>
      match List.filter (named k) df with
      | [] => inl (KeyError k)
      | cs => rest <- select df names' ;; inr (cs ++ rest)%list
      end
  end.

Fixpoint keep (mask : list bool) (s : series) : series :=
  match mask, s with
  | b :: mask', c :: s' => if b then c :: keep mask' s' else keep mask' s'
  | _, _ => []
  end.

(** [df[mask]] for a boolean mask. *)
Definition filter_rows (df : frame) (mask : list bool) : frame :=
  map (fun c => (fst c, keep mask (snd c))) df.

(** [cell == text] *)
Definition eq_str (text : string) (c : cell) : bool :=
  match c with
  | Obj (JStr s) => String.eqb s text
  | _ => false
  end.

Definition notnull (c : cell) : bool := negb (is_null c).

(** Nanosecond timestamps span about 292 years around the epoch. *)
Definition max_seconds : Z := 9223372036.

Definition in_bounds (m e : Z) : bool :=
  if 0 <=? e
  then (- max_seconds <=? m * 2 ^ e) && (m * 2 ^ e <=? max_seconds)
  else (- max_seconds * 2 ^ (- e) <=? m) && (m <=? max_seconds * 2 ^ (- e)).

(** [pd.to_datetime(cell, unit='s')], entry by entry: a number is an epoch
    in seconds, a null becomes [NaT]; only numbers are taken as epochs
    here, any other object is refused.  This is narrower than the library,
    which also parses some strings, accepts fractions of the last second
    of the range and rounds to nanoseconds: a conversion that succeeds
    here succeeds there, and the statements rely on nothing else. *)
Definition to_datetime (c : cell) : result cell :=
  match c with
  | NaN | NaT | Obj JNull => inr NaT
  | Timestamp m e => inr (Timestamp m e)
  | Obj (JInt z) =>
      if in_bounds z 0 then inr (Timestamp z 0) else inl OutOfBoundsDatetime
  | Obj (JFloat m e) =>
      if in_bounds m e then inr (Timestamp m e) else inl OutOfBoundsDatetime
  | Obj (JBool _) => inl (TypeError "bool is not convertible to datetime")
  | Obj _ => inl (ValueError "not convertible to datetime")
  end.

(** [pd.concat(frames, ignore_index=True)]: the union of the columns in
    order of first appearance; a frame lacking a column contributes [NaN]
    for each of its rows. *)
Definition column_or_nan (k : string) (df : frame) : series :=
  match getitem df k with
  | inr s => s
  | inl _ => repeat NaN (nrows df)
  end.

Definition concat (frames : list frame) : frame :=
  map (fun k => (k, flat_map (column_or_nan k) frames))
      (first_seen [] (flat_map columns frames)).

(** The entry of column [k] at row [i]. *)
Definition at_ (df : frame) (k : string) (i : nat) : option cell :=
  match getitem df k with
  | inr s => nth_error s i
  | inl _ => None
  end.

End Pandas.

(* ===================================================================== *)
(** * Bayut: MagnoliaScraper *)
(* ===================================================================== *)

Module Bayut.
Import Py Pandas Plan.

(** The JSON body posted to the Algolia index. *)
Record payload : Type := {
  query : string;
  filters : string;
  page : nat;
  hitsPerPage : nat
}.

(** [datetime.now()] *)
Record datetime : Type := {
  year : nat; month : nat; day : nat;
  hour : nat; minute : nat; second : nat; microsecond : nat
}.

Definition pad2 (n : nat) : string :=
  if (n <? 10)%nat then "0" ++ str_of_nat n else str_of_nat n.

Definition pad4 (n : nat) : string :=
  if (n <? 10)%nat then "000" ++ str_of_nat n
  else if (n <? 100)%nat then "00" ++ str_of_nat n
  else if (n <? 1000)%nat then "0" ++ str_of_nat n
  else str_of_nat n.

(** [t.strftime('%Y-%m-%d %H:%M:%S')] *)
Definition strftime (t : datetime) : string :=
  pad4 (year t) ++ "-" ++ pad2 (month t) ++ "-" ++ pad2 (day t) ++ " "
  ++ pad2 (hour t) ++ ":" ++ pad2 (minute t) ++ ":" ++ pad2 (second t).

(** What the logger receives. *)
Inductive event : Type :=
| RequestFailed (attempt max : nat) (msg : string)
| FailedToScrape (e : exn)
| ScrapingRange (label : string)
| ScrapingPage (page max_pages : nat) (label : string)
| NoMoreListings (label : string) (page : nat)
| Saved (count : nat) (file : string)
| NoListingsFound (label : string)
| ErrorScraping (label : string) (e : exn)
| NoCsvFiles (folder : string)
| FoundFiles (count : nat)
| Combined (file : string)
| FailedToCombine (e : exn).

(** What a run has done so far: the requests posted, the sleeps taken
    (seconds), the log, the files on disk in directory order, the number
    of clock readings. *)
Record state : Type := {
  sent : list payload;
  slept : list Z;
  log : list event;
  files : list (string * frame);
  clock_reads : nat
}.

Definition initial : state :=
  {| sent := []; slept := []; log := []; files := []; clock_reads := 0 |}.

(** Stateful, fallible computations; the state survives an exception. *)
Definition M (A : Type) : Type := state -> result A * state.

Definition ret {A} (a : A) : M A := fun s => (inr a, s).

Definition raise {A} (e : exn) : M A := fun s => (inl e, s).

Definition mbind {A B} (c : M A) (k : A -> M B) : M B :=
  fun s =>
    match c s with
    | (inl e, s') => (inl e, s')
    | (inr a, s') => k a s'
    end.

Definition lift {A} (r : result A) : M A := fun s => (r, s).

(** [try: c except Exception as e: h(e)] *)
Definition try_except {A} (c : M A) (h : exn -> M A) : M A :=
  fun s =>
    match c s with
    | (inl e, s') => h e s'
    | (inr a, s') => (inr a, s')
    end.

Definition info (ev : event) : M unit :=
  fun s => (inr tt, {| sent := sent s; slept := slept s; log := (log s ++ [ev])%list;
                       files := files s; clock_reads := clock_reads s |}).

Definition sleep (secs : Z) : M unit :=
  fun s => (inr tt, {| sent := sent s; slept := (slept s ++ [secs])%list; log := log s;
                       files := files s; clock_reads := clock_reads s |}).

Definition record_sent (p : payload) (s : state) : state :=
  {| sent := (sent s ++ [p])%list; slept := slept s; log := log s;
     files := files s; clock_reads := clock_reads s |}.

Notation "x <-- c1 ;;; c2" := (mbind c1 (fun x => c2))
  (at level 61, c1 at next level, right associativity).
Notation "c1 >>> c2" := (mbind c1 (fun _ => c2))
  (at level 61, right associativity).

(** ** The normalisation block of [price_range_scrape] *)

Definition none : cell := Obj JNull.

(** [x[key] if isinstance(x, dict) and key in x else None] *)
Definition project (key : string) (x : cell) : cell :=
  match x with
  | Obj (JDict d) =>
      match dict_get d key with
      | Some v => Obj v
      | None => none
      end
  | _ => none
  end.

(** The loop of [extract_location_details]: the first node whose [level]
    equals the one asked decides; a node that is not a mapping has no
    [get]. *)
Fixpoint first_at_level (nodes : list json) (level : Z) : result (cell * cell) :=
  match nodes with
  | [] => inr (none, none)
  | JDict loc :: rest =>
      if eq_int (get loc "level") level
      then inr (Obj (get loc "externalID"), Obj (get loc "name"))
      else first_at_level rest level
  | _ :: _ => inl (AttributeError "get")
  end.

Definition extract_location_details (location : cell) (level : Z)
  : result (cell * cell) :=
  match location with
  | Obj (JList nodes) => first_at_level nodes level
  | _ => inr (none, none)
  end.

Definition extract_category_details (category : cell) (level : Z)
  : result (cell * cell) :=
  match category with
  | Obj (JList nodes) => first_at_level nodes level
  | _ => inr (none, none)
  end.

Definition desired_columns : list string :=
  [ "objectID"; "DldPropertySK"; "referenceNumber"; "permitNumber"; "title";
    "BayutLink"; "purpose"; "price"; "rentFrequency"; "rooms";
    "baths"; "area (sqm)"; "plotArea (sqm)"; "furnishingStatus"; "amenities";
    "CategoryTypeName"; "CategorySubtypeName";
    "CityName"; "DistrictID"; "DistrictName"; "NeighborhoodName";
    "BuildingName"; "DldBuildingNK"; "latitude"; "longitude"; "createdAt";
    "updatedAt";
    "contactName"; "phoneNumber"; "AgencyName";
    "completionStatus"; "scrape_date" ].

(** The records handed to [pd.DataFrame].  The frame the block expects
    exists only when every hit is a mapping; with any other hit pandas
    either refuses the list or builds a frame without the named columns,
    and the block fails: that failure is raised here, as one exception
    that stands for whichever the library raises. *)
Fixpoint as_records (hits : list json) : result (list dict) :=
  match hits with
  | [] => inr []
  | JDict d :: rest => ds <- as_records rest ;; inr (d :: ds)
  | _ :: _ => inl (TypeError "listing is not a mapping")
  end.

Section Normalizer.

(** [str(x)], as the f-string of the link interpolates it. *)
Variable py_str : json -> string.

(** The link lambda: [f"...details-{x}.html" if pd.notnull(x) else None].
    On a list [pd.notnull] answers with an array, whose truth value is an
    error as soon as it has two entries; list values are counted as that
    error. *)
Definition BayutLink (x : cell) : result cell :=
  match x with
  | Obj (JList _) => inl (ValueError "truth value of an array is ambiguous")
  | Obj v =>
      if notnull x
      then inr (Obj (JStr ("https://www.bayut.com/property/details-"
                           ++ py_str v ++ ".html")))
      else inr none
  | _ => inr none
  end.

(** [df[a], df[b]] assigned from the pairs [extract(v, level)] computed
    over the column [df[src]], unzipped. *)
Definition unzip_into (extract : cell -> Z -> result (cell * cell))
    (src : string) (level : Z) (a b : string) (df : frame) : result frame :=
  col <- getitem df src ;;
  pairs <- mapM (fun v => extract v level) col ;;
  inr (setitem (setitem df a (map fst pairs)) b (map snd pairs)).

(** [df[dst] = df[src].apply(f)] *)
Definition apply_into (f : cell -> cell) (src dst : string) (df : frame)
  : result frame :=
  col <- getitem df src ;;
  inr (setitem df dst (map f col)).

(** [df[dst] = df[src].apply(f)] for an [f] that may raise. *)
Definition try_apply_into (f : cell -> result cell) (src dst : string)
    (df : frame) : result frame :=
  col <- getitem df src ;;
  col' <- mapM f col ;;
  inr (setitem df dst col').

(** Lines 161 to 238: from the raw hits to the frame of the desired
    columns, one row per hit. *)
Definition flatten (scrape_date : string) (all_listings : list json)
  : result frame :=
  records <- as_records all_listings ;;
  let df := DataFrame records in
  let df := setitem df "scrape_date"
              (map (fun _ => Obj (JStr scrape_date)) records) in
  df <- apply_into (project "lat") "geography" "latitude" df ;;
  df <- apply_into (project "lng") "geography" "longitude" df ;;
  df <- unzip_into extract_location_details "location" 1
          "CityCode" "CityName" df ;;
  df <- unzip_into extract_location_details "location" 2
          "DistrictID" "DistrictName" df ;;
  df <- unzip_into extract_location_details "location" 3
          "NeighborhoodID" "NeighborhoodName" df ;;
  df <- unzip_into extract_location_details "location" 4
          "BuildingID" "BuildingName" df ;;
  df <- unzip_into extract_category_details "category" 0
          "CategoryTypeCode" "CategoryTypeName" df ;;
  df <- unzip_into extract_category_details "category" 1
          "CategorySubtypeCode" "CategorySubtypeName" df ;;
  df <- apply_into (project "name") "agency" "AgencyName" df ;;
  df <- apply_into (project "dldBuildingNK") "extraFields" "DldBuildingNK" df ;;
  df <- apply_into (project "dldPropertySK") "extraFields" "DldPropertySK" df ;;
  df <- try_apply_into to_datetime "createdAt" "createdAt" df ;;
  df <- try_apply_into to_datetime "updatedAt" "updatedAt" df ;;
  df <- try_apply_into BayutLink "externalID" "BayutLink" df ;;
  let df := rename df "area" "area (sqm)" in
  let df := rename df "plotArea" "plotArea (sqm)" in
  select df desired_columns.

(** Line 240: [df = df[df['CityName'] == 'Dubai']]. *)
Definition only_dubai (df : frame) : result frame :=
  city <- getitem df "CityName" ;;
  inr (filter_rows df (map (eq_str "Dubai") city)).

(** The whole block, with the clock reading it stamps the rows with. *)
Definition normalize (now : datetime) (all_listings : list json)
  : result frame :=
  df <- flatten (strftime now) all_listings ;;
  only_dubai df.

End Normalizer.

(** The price bands a log shows as started, in order. *)
Fixpoint started (evs : list event) : list string :=
  match evs with
  | [] => []
  | ScrapingRange label :: evs' => label :: started evs'
  | _ :: evs' => started evs'
  end.

(** A computation that only adds to the log, and starts no band. *)
Definition quiet {A} (c : M A) : Prop :=
  forall s, exists evs,
    log (snd (c s)) = (log s ++ evs)%list /\ started evs = [].

(** ** Transport, page loop and orchestration *)

Definition max_retries : nat := 3.
Definition retry_delay : Z := 2.

Definition ends_with (suffix s : string) : bool :=
  let n := String.length s in
  let m := String.length suffix in
  (m <=? n)%nat && String.eqb (substring (n - m) m s) suffix.

(** [os.path.join(a, b)] for a relative [b]. *)
Definition path_join (a b : string) : string :=
  if String.eqb a "" then b
  else if ends_with "/" a then a ++ b
  else a ++ "/" ++ b.

(** Does [path] match [os.path.join(folder, "*.csv")]?  The star stands
    for a file name: no separator in it, and not a hidden file. *)
Definition matches_csv (folder path : string) : bool :=
  let dir := path_join folder "" in
  let name := substring (String.length dir)
                (String.length path - String.length dir) path in
  prefix dir path
  && match index 0 "/" name with Some _ => false | None => true end
  && negb (prefix "." name)
  && ends_with ".csv" name.

Fixpoint lookup_file (fs : list (string * frame)) (path : string)
  : option frame :=
  match fs with
  | [] => None
  | (p, df) :: fs' => if String.eqb p path then Some df else lookup_file fs' path
  end.

(** Writing a file replaces it in place or adds it to the directory.  The
    place a new file takes among the others is a choice of the model: a
    real directory lists its files in an order of its own. *)
Fixpoint store (fs : list (string * frame)) (path : string) (df : frame)
  : list (string * frame) :=
  match fs with
  | [] => [(path, df)]
  | (p, d) :: fs' =>
      if String.eqb p path then (path, df) :: fs'
      else (p, d) :: store fs' path df
  end.

(** The [payload] that [scrape_listings] builds. *)
Definition request (filters : string) (page hits_per_page : nat) : payload :=
  {| query := ""; filters := filters; page := page;
     hitsPerPage := hits_per_page |}.

Section Run.

(** The outcome of the [n]-th HTTP call of the run ([requests.post],
    [raise_for_status], [response.json()]): a decoded body, or the message
    of the [RequestException] raised. *)
Variable post : nat -> payload -> string + json.

(** The [n]-th reading of the clock. *)
Variable now : nat -> datetime.

(** Can the sink be written at this path? *)
Variable writable : string -> bool.

Variable py_str : json -> string.

(** The [for attempt in range(max_retries)] loop of [_make_request], over
    the attempt numbers still to run; leaving the loop returns [None]. *)
Fixpoint attempts (todo : list nat) (p : payload) : M json :=
  match todo with
  | [] => ret JNull
  | attempt :: todo' =>
      fun s =>
        let s1 := record_sent p s in
        match post (List.length (sent s)) p with
        | inr body => (inr body, s1)
        | inl msg =>
            (info (RequestFailed (attempt + 1) max_retries msg) >>>
             if (attempt <? max_retries - 1)%nat
             then sleep (retry_delay * (Z.of_nat attempt + 1)) >>>
                  attempts todo' p
             else raise (RequestException msg)) s1
        end
  end.

Definition _make_request (p : payload) : M json :=
  attempts (seq 0 max_retries) p.

(** [scrape_listings]: the hits of one page; any exception is logged and
    answered with the empty list. *)
Definition scrape_listings (filters : string) (page hits_per_page : nat)
  : M json :=
  let p := request filters page hits_per_page in
  try_except
    (result <-- _make_request p ;;;
     lift (attr_get result "hits" (JList [])))
    (fun e => info (FailedToScrape e) >>> ret (JList [])).

(** The [for page in range(max_pages)] loop of [price_range_scrape], over
    the pages still to request. *)
Fixpoint page_loop (label combined_filter : string)
    (max_pages hits_per_page : nat) (pages : list nat)
    (all_listings : list json) : M (list json) :=
  match pages with
  | [] => ret all_listings
  | page :: pages' =>
      info (ScrapingPage (page + 1) max_pages label) >>>
      listings <-- scrape_listings combined_filter page hits_per_page ;;;
      if negb (truthy listings)
      then info (NoMoreListings label (page + 1)) >>> ret all_listings
      else
        items <-- lift (iter listings) ;;;
        sleep 1 >>>
        page_loop label combined_filter max_pages hits_per_page pages'
          (all_listings ++ items)%list
  end.

Definition read_clock : M datetime :=
  fun s => (inr (now (clock_reads s)),
            {| sent := sent s; slept := slept s; log := log s;
               files := files s; clock_reads := S (clock_reads s) |}).

(** [df.to_csv(path, index=False)] *)
Definition to_csv (path : string) (df : frame) : M unit :=
  fun s =>
    if writable path
    then (inr tt, {| sent := sent s; slept := slept s; log := log s;
                     files := store (files s) path df;
                     clock_reads := clock_reads s |})
    else (inl (IOError path), s).

Definition output_path (label : string) (max_pages : nat) : string :=
  path_join "output/Bayut"
    ("bayut_listings_" ++ label ++ "_pages_" ++ str_of_nat max_pages ++ ".csv").

(** The body of the [try] for one price band.  The clock is read on the
    line that follows the construction of the frame; for listings that
    are mappings, for which that construction succeeds, this is the one
    reading made here. *)
Definition scrape_range (base_filters : string) (max_pages hits_per_page : nat)
    (price_range : Plan.price_range) : M unit :=
  let combined_filter :=
    base_filters ++ " AND " ++ render_filter (Plan.filter price_range) in
  let output_file := output_path (label price_range) max_pages in
  info (ScrapingRange (label price_range)) >>>
  all_listings <-- page_loop (label price_range) combined_filter
                     max_pages hits_per_page (seq 0 max_pages) [] ;;;
  match all_listings with
  | _ :: _ =>
      t <-- read_clock ;;;
      df <-- lift (normalize py_str t all_listings) ;;;
      to_csv output_file df >>>
      info (Saved (List.length all_listings) output_file)
  | [] => info (NoListingsFound (label price_range))
  end.

(** One iteration of [for price_range in price_ranges], with its
    [except Exception]. *)
Definition scrape_range_guarded (base_filters : string)
    (max_pages hits_per_page : nat) (price_range : Plan.price_range)
  : M unit :=
  try_except (scrape_range base_filters max_pages hits_per_page price_range)
    (fun e => info (ErrorScraping (label price_range) e)).

Fixpoint scrape_ranges (base_filters : string) (max_pages hits_per_page : nat)
    (ranges : list Plan.price_range) : M unit :=
  match ranges with
  | [] => ret tt
  | r :: ranges' =>
      scrape_range_guarded base_filters max_pages hits_per_page r >>>
      scrape_ranges base_filters max_pages hits_per_page ranges'
  end.

Definition price_range_scrape (base_filters : string)
    (max_pages hits_per_page : nat) : M unit :=
  scrape_ranges base_filters max_pages hits_per_page price_ranges.

(** ** Consolidation *)

(** [glob.glob(os.path.join(input_folder, "*.csv"))], in directory order. *)
Definition glob_csv (input_folder : string) : M (list string) :=
  fun s => (inr (List.filter (matches_csv input_folder) (map fst (files s))), s).

(** [pd.read_csv(file)]; a file without a header line cannot be parsed.
    A file is held as the frame written into it: the text of the file and
    the types that parsing it again would infer are not represented. *)
Definition read_csv (file : string) : M frame :=
  fun s =>
    match lookup_file (files s) file with
    | None => (inl (IOError file), s)
    | Some [] => (inl EmptyDataError, s)
    | Some df => (inr df, s)
    end.

Fixpoint read_all (csv_files : list string) : M (list frame) :=
  match csv_files with
  | [] => ret []
  | file :: rest =>
      df <-- read_csv file ;;;
      dfs <-- read_all rest ;;;
      ret (df :: dfs)
  end.

Definition combine_csv_files (input_folder output_file : string) : M unit :=
  try_except
    (csv_files <-- glob_csv input_folder ;;;
     match csv_files with
     | [] => info (NoCsvFiles input_folder)
     | _ :: _ =>
         info (FoundFiles (List.length csv_files)) >>>
         frames <-- read_all csv_files ;;;
         to_csv output_file (Pandas.concat frames) >>>
         info (Combined output_file)
     end)
    (fun e => info (FailedToCombine e)).

End Run.

End Bayut.

(* ===================================================================== *)
(** * PropertyFinder *)
(* ===================================================================== *)

Module PropertyFinder.
Import Py Pandas.

(** What [requests.get] returned: the status, and the text of the
    [__NEXT_DATA__] script as [json.loads] decodes it ([None] when the
    page has no such tag, an exception when the text does not decode). *)
Record response : Type := {
  status_code : Z;
  next_data : option (result json)
}.

(** What the script prints. *)
Inductive output : Type :=
| FailedToRetrieve (page : nat)
| NoListingsOnPage (page : nat)
| Stopping (page : nat)
| Retrying (page count : nat)
| PageScraped (page count : nat)
| TotalSoFar (total : nat)
| Filtered (rows : nat)
| DataSaved (path : string)
| NoDataScraped.

(** The variables of [scrape_properties], with the pages requested so far
    (in order), the sleeps taken and the lines printed. *)
Record state : Type := {
  page_number : nat;
  retry_count : nat;
  all_listings : list json;
  total_properties : nat;
  requested : list nat;
  slept : list Z;
  printed : list output
}.

Definition initial : state :=
  {| page_number := 1; retry_count := 0; all_listings := [];
     total_properties := 0; requested := []; slept := []; printed := [] |}.

(** How one pass through the body of [while True] ends. *)
Inductive status : Type :=
| Continue
| Break
| Raised (e : exn).

Definition csv_file_path : string :=
  "Output/PropertyFinder/property_listings-rent-300plus.csv".

(** [pd.json_normalize]: a nested mapping is flattened into dotted
    names. *)
Fixpoint flat (name : string) (v : json) {struct v} : dict :=
  match v with
  | JDict d =>
      (fix go (d : list (string * json)) : dict :=
         match d with
         | [] => []
         | (k, v') :: d' => (flat (name ++ "." ++ k) v' ++ go d')%list
         end) d
  | _ => [(name, v)]
  end.

(** One record: its plain entries first, then the nested ones,
    flattened.  Should a plain entry bear the very name a nested one
    flattens to, the library keeps the nested value where a lookup here
    finds the plain one: the statements exclude such records. *)
Definition normalise_record (d : dict) : dict :=
  (List.filter (fun kv => negb (is_mapping (snd kv))) d
   ++ flat_map (fun kv => flat (fst kv) (snd kv))
        (List.filter (fun kv => is_mapping (snd kv)) d))%list.

Fixpoint as_records (listings : list json) : result (list dict) :=
  match listings with
  | [] => inr []
  | JDict d :: rest => ds <- as_records rest ;; inr (d :: ds)
  | _ :: _ => inl (AttributeError "values")
  end.

Definition json_normalize (listings : list json) : result frame :=
  records <- as_records listings ;;
  inr (DataFrame (map normalise_record records)).

(** Lines 81 and 82: rows with a null [property.id] are dropped, when the
    frame has that column at all. *)
Definition drop_null_ids (df : frame) : frame :=
  match getitem df "property.id" with
  | inr ids => filter_rows df (map notnull ids)
  | inl _ => df
  end.

Section Run.

(** The outcome of the [n]-th call of [requests.get], made for the given
    page: a response, or the exception raised. *)
Variable get : nat -> nat -> result response.

(** Can the CSV file be written? *)
Variable writable : bool.

(** [fetch_listings_from_page], as the [call]-th request; [None] is
    [JNull].  Also yields what it prints. *)
Definition fetch_listings_from_page (call page_number : nat)
  : result json * list output :=
  match get call page_number with
  | inl e => (inl e, [])
  | inr response =>
      if negb (status_code response =? 200)
      then (inr JNull, [FailedToRetrieve page_number])
      else
        match next_data response with
        | Some content =>
            (data <- content ;;
             props <- getitem_str data "props" ;;
             page_props <- attr_get props "pageProps" (JDict []) ;;
             search_result <- attr_get page_props "searchResult" (JDict []) ;;
             attr_get search_result "listings" (JList []),
             [])
        | None => (inr JNull, [NoListingsOnPage page_number])
        end
  end.

(** One pass through the body of [while True]. *)
Definition iteration (s : state) : status * state :=
  let (fetched, lines) :=
    fetch_listings_from_page (List.length (requested s)) (page_number s) in
  let requested' := (requested s ++ [page_number s])%list in
  let printed' := (printed s ++ lines)%list in
  match fetched with
  | inl e =>
      (Raised e,
       {| page_number := page_number s; retry_count := retry_count s;
          all_listings := all_listings s;
          total_properties := total_properties s;
          requested := requested'; slept := slept s; printed := printed' |})
  | inr listings =>
      if negb (truthy listings)
      then
        let retry_count' := (retry_count s + 1)%nat in
        if (3 <=? retry_count')%nat
        then
          (Break,
           {| page_number := page_number s; retry_count := retry_count';
              all_listings := all_listings s;
              total_properties := total_properties s;
              requested := requested'; slept := slept s;
              printed := (printed' ++ [Stopping (page_number s)])%list |})
        else
          (Continue,
           {| page_number := page_number s; retry_count := retry_count';
              all_listings := all_listings s;
              total_properties := total_properties s;
              requested := requested'; slept := (slept s ++ [2])%list;
              printed :=
                (printed' ++ [Retrying (page_number s) retry_count'])%list |})
      else
        match iter listings with
        | inl e =>
            (Raised e,
             {| page_number := page_number s; retry_count := 0;
                all_listings := all_listings s;
                total_properties := total_properties s;
                requested := requested'; slept := slept s;
                printed := printed' |})
        | inr items =>
            let total := (total_properties s + List.length items)%nat in
            (Continue,
             {| page_number := (page_number s + 1)%nat; retry_count := 0;
                all_listings := (all_listings s ++ items)%list;
                total_properties := total;
                requested := requested'; slept := (slept s ++ [1])%list;
                printed :=
                  (printed' ++ [PageScraped (page_number s) (List.length items);
                                TotalSoFar total])%list |})
        end
  end.

(** The [while True] loop, run for at most [fuel] passes: [None] when the
    passes allowed do not reach a [break] or an exception. *)
Fixpoint loop (fuel : nat) (s : state) : option (result state) :=
  match fuel with
  | O => None
  | S fuel' =>
      match iteration s with
      | (Continue, s') => loop fuel' s'
      | (Break, s') => Some (inr s')
      | (Raised e, _) => Some (inl e)
      end
  end.

(** The states in which a pass of the loop can start. *)
Inductive reachable : state -> Prop :=
| reach_initial : reachable initial
| reach_continue (s s' : state) :
    reachable s -> iteration s = (Continue, s') -> reachable s'.

(** Lines 76 to 90: what is written once the loop has ended. *)
Definition save (s : state) : result (option frame * list output) :=
  match all_listings s with
  | _ :: _ =>
      df <- json_normalize (all_listings s) ;;
      let filtered := drop_null_ids df in
      let lines :=
        match getitem df "property.id" with
        | inr _ => [Filtered (nrows filtered)]
        | inl _ => []
        end in
      if writable
      then inr (Some filtered, (lines ++ [DataSaved csv_file_path])%list)
      else inl (IOError csv_file_path)
  | [] => inr (None, [NoDataScraped])
  end.

(** [scrape_properties]: the final variables and the frame written, if
    any. *)
Definition scrape_properties (fuel : nat)
  : option (result (state * option frame * list output)) :=
  match loop fuel initial with
  | None => None
  | Some (inl e) => Some (inl e)
  | Some (inr s) =>
      Some (out <- save s ;; inr (s, fst out, snd out))
  end.

End Run.

End PropertyFinder.

(* ===================================================================== *)
(** * The normaliser, record by record *)
(* ===================================================================== *)

(** The specification describes [normalize] as a function of one raw
    listing; the code works on whole columns.  This is the per-record
    reading, written after the specification, against which the columnar
    block is compared. *)
Module Row.
Import Py Pandas Bayut.

(** The raw columns that the block reads or keeps. *)
Definition read_columns : list string :=
  [ "geography"; "location"; "category"; "agency"; "extraFields";
    "createdAt"; "updatedAt"; "externalID";
    "objectID"; "referenceNumber"; "permitNumber"; "title"; "purpose";
    "price"; "rentFrequency"; "rooms"; "baths"; "area"; "plotArea";
    "furnishingStatus"; "amenities"; "contactName"; "phoneNumber";
    "completionStatus" ].

(** The batch supplies every column read, and none that already bears a
    name the renames introduce. *)
Definition complete (records : list dict) : bool :=
  forallb (has_column records) read_columns
  && negb (has_column records "area (sqm)")
  && negb (has_column records "plotArea (sqm)").

Definition value {A} (default : A) (r : result A) : A :=
  match r with
  | inr a => a
  | inl _ => default
  end.

(** A node sequence, when present, holds mappings only. *)
Definition nodes_ok (c : cell) : bool :=
  match c with
  | Obj (JList nodes) => forallb is_mapping nodes
  | _ => true
  end.

(** An epoch, when present, is a number of seconds that a timestamp can
    hold. *)
Definition epoch_ok (c : cell) : bool :=
  match c with
  | NaN | Obj JNull => true
  | Obj (JInt z) => in_bounds z 0
  | Obj (JFloat m e) => in_bounds m e
  | _ => false
  end.

Definition id_ok (c : cell) : bool :=
  match c with
  | Obj (JList _) => false
  | _ => true
  end.

(** What the present fields of a listing must look like; nothing is asked
    of a field the listing does not have. *)
Definition well_typed (d : dict) : bool :=
  nodes_ok (entry "location" d) && nodes_ok (entry "category" d)
  && epoch_ok (entry "createdAt" d) && epoch_ok (entry "updatedAt" d)
  && id_ok (entry "externalID" d).

Section Schema.

Variable py_str : json -> string.
Variable scrape_date : string.

Definition location_at (level : Z) (d : dict) : cell * cell :=
  value (none, none) (extract_location_details (entry "location" d) level).

Definition category_at (level : Z) (d : dict) : cell * cell :=
  value (none, none) (extract_category_details (entry "category" d) level).

(** The output columns in order, each with the value it takes on one
    listing. *)
Definition schema : list (string * (dict -> cell)) :=
  [ ("objectID", entry "objectID");
    ("DldPropertySK", fun d => project "dldPropertySK" (entry "extraFields" d));
    ("referenceNumber", entry "referenceNumber");
    ("permitNumber", entry "permitNumber");
    ("title", entry "title");
    ("BayutLink", fun d => value none (BayutLink py_str (entry "externalID" d)));
    ("purpose", entry "purpose");
    ("price", entry "price");
    ("rentFrequency", entry "rentFrequency");
    ("rooms", entry "rooms");
    ("baths", entry "baths");
    ("area (sqm)", entry "area");
    ("plotArea (sqm)", entry "plotArea");
    ("furnishingStatus", entry "furnishingStatus");
    ("amenities", entry "amenities");
    ("CategoryTypeName", fun d => snd (category_at 0 d));
    ("CategorySubtypeName", fun d => snd (category_at 1 d));
    ("CityName", fun d => snd (location_at 1 d));
    ("DistrictID", fun d => fst (location_at 2 d));
    ("DistrictName", fun d => snd (location_at 2 d));
    ("NeighborhoodName", fun d => snd (location_at 3 d));
    ("BuildingName", fun d => snd (location_at 4 d));
    ("DldBuildingNK", fun d => project "dldBuildingNK" (entry "extraFields" d));
    ("latitude", fun d => project "lat" (entry "geography" d));
    ("longitude", fun d => project "lng" (entry "geography" d));
    ("createdAt", fun d => value NaT (to_datetime (entry "createdAt" d)));
    ("updatedAt", fun d => value NaT (to_datetime (entry "updatedAt" d)));
    ("contactName", entry "contactName");
    ("phoneNumber", entry "phoneNumber");
    ("AgencyName", fun d => project "name" (entry "agency" d));
    ("completionStatus", entry "completionStatus");
    ("scrape_date", fun _ => Obj (JStr scrape_date)) ].

(** [normalize(raw)]: the flat record of one listing. *)
Definition normalized_record (d : dict) : list (string * cell) :=
  map (fun column => (fst column, snd column d)) schema.

(** The frame whose rows are the flat records of the batch. *)
Definition frame_of (records : list dict) : frame :=
  map (fun column => (fst column, map (snd column) records)) schema.

(** Each output column with the raw field it is computed from (the
    capture stamp has none). *)
Definition sources : list (string * string) :=
  [ ("objectID", "objectID"); ("DldPropertySK", "extraFields");
    ("referenceNumber", "referenceNumber"); ("permitNumber", "permitNumber");
    ("title", "title"); ("BayutLink", "externalID"); ("purpose", "purpose");
    ("price", "price"); ("rentFrequency", "rentFrequency"); ("rooms", "rooms");
    ("baths", "baths"); ("area (sqm)", "area"); ("plotArea (sqm)", "plotArea");
    ("furnishingStatus", "furnishingStatus"); ("amenities", "amenities");
    ("CategoryTypeName", "category"); ("CategorySubtypeName", "category");
    ("CityName", "location"); ("DistrictID", "location");
    ("DistrictName", "location"); ("NeighborhoodName", "location");
    ("BuildingName", "location"); ("DldBuildingNK", "extraFields");
    ("latitude", "geography"); ("longitude", "geography");
    ("createdAt", "createdAt"); ("updatedAt", "updatedAt");
    ("contactName", "contactName"); ("phoneNumber", "phoneNumber");
    ("AgencyName", "agency"); ("completionStatus", "completionStatus") ].



(** The value of a column in a flat record. *)
Fixpoint field (record : list (string * cell)) (k : string) : option cell :=
  match record with
  | [] => None
  | (k', c) :: record' => if String.eqb k' k then Some c else field record' k
  end.

End Schema.

End Row.

(* ===================================================================== *)
(** * PropertyFinder: the page URL *)
(* ===================================================================== *)

Module Url.
Import Py.

(** The six parts [urlparse] splits a URL into.  The query is kept as the
    list of its [name=value] fields, decoded, in the order of the string;
    cutting the string at [&] and [=] and the percent-coding are the
    library's.  A field without [=] counts as a field with a blank
    value. *)
Record url : Type := {
  scheme : string;
  netloc : string;
  path : string;
  params : string;
  query : list (string * string);
  fragment : string
}.

(** [d[k].append(v)], or [d[k] = [v]] for a new key, which goes last. *)
Fixpoint add_value (d : list (string * list string)) (k v : string)
  : list (string * list string) :=
  match d with
  | [] => [(k, [v])]
  | (k', vs) :: d' =>
      if String.eqb k' k then (k', (vs ++ [v])%list) :: d'
      else (k', vs) :: add_value d' k v
  end.

Fixpoint collect (d : list (string * list string))
    (fields : list (string * string)) : list (string * list string) :=
  match fields with
  | [] => d
  | (k, v) :: fields' =>
      if String.eqb v "" then collect d fields'
      else collect (add_value d k v) fields'
  end.

(** [parse_qs(query)]: each name with the list of its values; fields
    with a blank value are left out. *)
Definition parse_qs (fields : list (string * string))
  : list (string * list string) :=
  collect [] fields.

(** [d[k] = vs] *)
Fixpoint assign (d : list (string * list string)) (k : string)
    (vs : list string) : list (string * list string) :=
  match d with
  | [] => [(k, vs)]
  | (k', vs') :: d' =>
      if String.eqb k' k then (k, vs) :: d'
      else (k', vs') :: assign d' k vs
  end.

(** [urlencode(d, doseq=True)]: one field per value. *)
Definition urlencode (d : list (string * list string))
  : list (string * string) :=
  flat_map (fun kv => map (fun v => (fst kv, v)) (snd kv)) d.

Definition adjust_url_for_pagination (base_url : url) (page_number : nat)
  : url :=
  let query_params := parse_qs (query base_url) in
  let query_params := assign query_params "page" [str_of_nat page_number] in
  {| scheme := scheme base_url; netloc := netloc base_url;
     path := path base_url; params := params base_url;
     query := urlencode query_params; fragment := fragment base_url |}.

(** The values of a name in a parsed query. *)
Fixpoint values (d : list (string * list string)) (k : string)
  : option (list string) :=
  match d with
  | [] => None
  | (k', vs) :: d' => if String.eqb k' k then Some vs else values d' k
  end.

(** A parsed query as [parse_qs] builds them: no name twice, and under
    each name at least one value, none of them blank. *)
Definition well_formed (d : list (string * list string)) : Prop :=
  NoDup (map fst d) /\
  Forall (fun kv => snd kv <> [] /\ Forall (fun v => v <> "") (snd kv)) d.

(** The base URL of the script,
    [https://www.propertyfinder.ae/en/search?c=4&fu=0&rp=y&ob=mr]. *)
Definition base_url : url :=
  {| scheme := "https"; netloc := "www.propertyfinder.ae";
     path := "/en/search"; params := "";
     query := [("c", "4"); ("fu", "0"); ("rp", "y"); ("ob", "mr")];
     fragment := "" |}.

End Url.

(* ===================================================================== *)
(** * Bayut: the entry point *)
(* ===================================================================== *)

Module Entry.
Import Py Pandas Plan Bayut.

(** [t.strftime('%Y-%m-%d')] *)
Definition strftime_date (t : datetime) : string :=
  pad4 (year t) ++ "-" ++ pad2 (month t) ++ "-" ++ pad2 (day t).

Definition output_folder : string := "output/Bayut".

(** The name [main] gives the consolidated file. *)
Definition consolidated (t : datetime) : string :=
  path_join output_folder
    ("Bayut-all_listings-rent_" ++ strftime_date t ++ ".csv").

Section Main.

Variable post : nat -> payload -> string + json.
Variable now : nat -> datetime.
Variable writable : string -> bool.
Variable py_str : json -> string.

(** Can the directory be created, or is it there already? *)
Variable creatable : string -> bool.

(** [os.makedirs(path, exist_ok=True)]: an [OSError] when the directory
    can neither be found nor made. *)
Definition makedirs (path : string) : M unit :=
  fun s => if creatable path then (inr tt, s) else (inl (IOError path), s).

(** [MagnoliaScraper.__init__]: the attributes, the headers and the logger
    it sets up do not fail; creating the output directory can, and it is
    done outside any [try]. *)
Definition __init__ : M unit := makedirs "output/Bayut".

(** [main]: the scraper object is built, every band is scraped with a cap
    of 1000 pages of 50 hits, then the output folder is consolidated into
    a file named after the day. *)
Definition main : M unit :=
  __init__ >>>
  price_range_scrape post now writable py_str "purpose:for-rent" 1000 50 >>>
  scraping_date <-- read_clock now ;;;
  combine_csv_files writable output_folder (consolidated scraping_date).

End Main.

End Entry.

(* ===================================================================== *)
(** * Measures and views used in the statements *)
(* ===================================================================== *)

Module Views.
Import Py Pandas Plan Bayut.

(** Seconds slept in all. *)
Definition total (secs : list Z) : Z := fold_right Z.add 0 secs.

(** The leading pages that have listings. *)
Fixpoint leading (pages : list (list json)) : list (list json) :=
  match pages with
  | (x :: l) :: pages' => (x :: l) :: leading pages'
  | _ => []
  end.

(** The raw columns the block indexes, in the order it first reads
    them. *)
Definition read_order : list string :=
  [ "geography"; "location"; "category"; "agency"; "extraFields";
    "createdAt"; "updatedAt"; "externalID" ].

(** The first of them that no listing of the batch carries. *)
Definition first_missing (records : list dict) : option string :=
  find (fun k => negb (has_column records k)) read_order.

(** Is the city of the listing Dubai? *)
Definition in_dubai (d : dict) : bool :=
  eq_str "Dubai" (snd (Row.location_at 1 d)).

(** What holds of the variables of [scrape_properties] whenever a pass
    of its loop starts. *)
Definition in_step (s : PropertyFinder.state) : Prop :=
  PropertyFinder.total_properties s
  = List.length (PropertyFinder.all_listings s) /\
  List.length (PropertyFinder.slept s)
  = List.length (PropertyFinder.requested s) /\
  Forall (fun d => d = 1 \/ d = 2) (PropertyFinder.slept s) /\
  (PropertyFinder.retry_count s <= 2)%nat /\
  (1 <= PropertyFinder.page_number s)%nat /\
  exists older,
    PropertyFinder.requested s
    = (older ++ repeat (PropertyFinder.page_number s)
                  (PropertyFinder.retry_count s))%list.

(** Has the flattened record a [property.id] that is not null? *)
Definition has_id (d : dict) : bool :=
  notnull (entry "property.id" d).

End Views.

(* ===================================================================== *)
(** * Sample data *)
(* ===================================================================== *)

(** Concrete listings, sources and clocks on which the statements below
    are exercised. *)
Module Samples.
Import Py Pandas Bayut.

(** [str(x)] on strings and integers; other values do not occur as
    identifiers in the samples. *)
Definition sample_str (v : json) : string :=
  match v with
  | JStr s => s
  | JInt z => str_of_Z z
  | _ => ""
  end.

Definition node (level : Z) (id name : string) : json :=
  JDict [("level", JInt level); ("externalID", JStr id); ("name", JStr name)].

(** A listing in Dubai Marina with every field the block reads. *)
Definition marina : dict :=
  [ ("objectID", JInt 8801); ("externalID", JStr "7700123");
    ("referenceNumber", JStr "R-1"); ("permitNumber", JStr "P-1");
    ("title", JStr "2BR in Marina"); ("purpose", JStr "for-rent");
    ("price", JInt 120000); ("rentFrequency", JStr "yearly");
    ("rooms", JInt 2); ("baths", JInt 2);
    ("area", JFloat 3585 (-5)); ("plotArea", JNull);
    ("furnishingStatus", JStr "furnished"); ("amenities", JList []);
    ("contactName", JStr "Sam"); ("phoneNumber", JDict []);
    ("completionStatus", JStr "completed");
    ("geography", JDict [("lat", JFloat 3210 (-7)); ("lng", JFloat 7058 (-7))]);
    ("location",
     JList [node 0 "5001" "UAE"; node 1 "5002" "Dubai";
            node 2 "5003" "Dubai Marina"]);
    ("category", JList [node 0 "1" "Residential"; node 1 "4" "Apartments"]);
    ("agency", JDict [("name", JStr "Harbour Homes")]);
    ("extraFields", JDict [("dldBuildingNK", JInt 42)]);
    ("createdAt", JInt 1700000000); ("updatedAt", JInt 1700003600) ].

(** A listing in Dubai that carries a location and a price and nothing
    else: no identifier, no geography, no category, no agency. *)
Definition anonymous : dict :=
  [ ("price", JInt 90000);
    ("location", JList [node 1 "5002" "Dubai"]) ].

(** A listing outside Dubai, as bare as [anonymous]. *)
Definition abroad : dict :=
  [ ("price", JInt 45000);
    ("location", JList [node 1 "6020" "Abu Dhabi"; node 2 "6021" "Al Reem Island"]) ].

(** [marina] without its [agency] entry. *)
Definition no_agency : dict :=
  List.filter (fun kv => negb (String.eqb (fst kv) "agency")) marina.

Definition body (hits : list json) : json := JDict [("hits", JList hits)].

(** A source (stateless) that serves the given pages and nothing after
    them. *)
Definition paged (pages : list (list json)) (n : nat) (p : payload)
  : string + json :=
  inr (body (nth (page p) pages [])).

(** A source whose first page cannot be reached, while the second is
    there. *)
Definition first_page_down (n : nat) (p : payload) : string + json :=
  match page p with
  | O => inl "503 Server Error"
  | 1%nat => inr (body [JDict marina])
  | _ => inr (body [])
  end.

(** A rendered page whose payload lists the given listings. *)
Definition rendered (listings : list json) : PropertyFinder.response :=
  {| PropertyFinder.status_code := 200;
     PropertyFinder.next_data :=
       Some (inr (JDict [("props",
                   JDict [("pageProps",
                     JDict [("searchResult",
                       JDict [("listings", JList listings)])])])])) |}.

Definition unavailable : PropertyFinder.response :=
  {| PropertyFinder.status_code := 503; PropertyFinder.next_data := None |}.

(** A site that answers the first call with an error page, then serves
    one page of results. *)
Definition hiccup (call page : nat) : result PropertyFinder.response :=
  match call, page with
  | O, _ => inr unavailable
  | _, 1%nat => inr (rendered [JDict marina; JDict anonymous])
  | _, _ => inr (rendered [])
  end.

(** A site (stateless) with two pages of results. *)
Definition two_pages (call page : nat) : result PropertyFinder.response :=
  match page with
  | 1%nat => inr (rendered [JDict marina])
  | 2%nat => inr (rendered [JDict anonymous])
  | _ => inr (rendered [])
  end.

(** A site whose connection drops on the second call. *)
Definition drops (call page : nat) : result PropertyFinder.response :=
  match call with
  | O => inr (rendered [JDict marina])
  | _ => inl (RequestException "Connection aborted")
  end.

(** A site that renders every page without the [props] key. *)
Definition bare_page (call page : nat) : result PropertyFinder.response :=
  inr {| PropertyFinder.status_code := 200;
         PropertyFinder.next_data :=
           Some (inr (JDict [("page", JStr "/404")])) |}.

(** A PropertyFinder listing that advertises a property, and one that
    is a banner without any. *)
Definition advert : dict :=
  [ ("listing_type", JStr "property");
    ("property",
     JDict [ ("id", JStr "1234"); ("title", JStr "Studio in JLT");
             ("price", JDict [("value", JInt 95000); ("period", JStr "yearly")]) ]) ].

Definition banner : dict :=
  [ ("listing_type", JStr "banner"); ("priority", JInt 1) ].

(** The variables of [scrape_properties] once a run over one page of two
    listings has left the loop. *)
Definition gathered : PropertyFinder.state :=
  {| PropertyFinder.page_number := 2; PropertyFinder.retry_count := 3;
     PropertyFinder.all_listings := [JDict advert; JDict banner];
     PropertyFinder.total_properties := 2;
     PropertyFinder.requested := [1; 2; 2; 2]%nat;
     PropertyFinder.slept := [1; 2; 2];
     PropertyFinder.printed := [] |}.

(** A partition unit with one row per price given. *)
Definition unit_of (prices : list Z) : frame :=
  [ ("objectID", map (fun p => Obj (JInt (p + 1))) prices);
    ("price", map (fun p => Obj (JInt p)) prices) ].

(** The sink after three bands were written, with 5, 0 and 7 rows. *)
Definition three_units : state :=
  {| sent := []; slept := []; log := [];
     files :=
       [ ("output/Bayut/bayut_listings_budget_pages_1000.csv",
          unit_of [11000; 12000; 13000; 14000; 15000]);
         ("output/Bayut/bayut_listings_budget2_pages_1000.csv", unit_of []);
         ("output/Bayut/bayut_listings_budget3_pages_1000.csv",
          unit_of [36000; 37000; 38000; 39000; 40000; 41000; 42000]) ];
     clock_reads := 0 |}.

(** The sink with one band written and a blank file next to it. *)
Definition with_blank_unit : state :=
  {| sent := []; slept := []; log := [];
     files :=
       [ ("output/Bayut/bayut_listings_budget_pages_1000.csv",
          unit_of [11000; 12000]);
         ("output/Bayut/notes.csv", []) ];
     clock_reads := 0 |}.

Definition noon : datetime :=
  {| year := 2025; month := 3; day := 9; hour := 12; minute := 0;
     second := 7; microsecond := 15 |}.

(** The same second, some microseconds later. *)
Definition noon_later : datetime :=
  {| year := 2025; month := 3; day := 9; hour := 12; minute := 0;
     second := 7; microsecond := 990 |}.

End Samples.

(* ===================================================================== *)
(** * Theorems *)
(* ===================================================================== *)

Module PlanFacts.
Import Plan.

(** The embedded plan prints to the filter strings of the source. *)
Example price_ranges_rendered :
  map (fun r => (label r, render_filter (filter r))) price_ranges =
  [ ("budget", "price < 20000");
    ("budget2", "price >= 20001 AND price < 35000");
    ("budget3", "price >= 35001 AND price < 50000");
    ("mid_range", "price >= 50001 AND price < 75000");
    ("mid_range2", "price >= 75001 AND price < 100000");
    ("mid_range22", "price >= 100001 AND price < 120000");
    ("mid_range3", "price >= 120001 AND price < 150001");
    ("mid_range4", "price >= 150001 AND price < 200000");
    ("mid_range5", "price >= 200001 AND price < 250000");
    ("mid_range6", "price >= 250001 AND price < 275000");
    ("mid_range7", "price >= 275001 AND price < 300000");
    ("mid_range8", "price >= 300001 AND price < 400000");
    ("mid_range9", "price >= 400001 AND price < 500000");
    ("mid_range10", "price >= 500001 AND price < 600000");
    ("ultra_luxury", "price >= 600001") ].
Proof. vm_compute. reflexivity. Qed.

Lemma atom_holds_lt p c : atom_holds p {| op := Lt; bound := c |} = true <-> p < c.
Proof. unfold atom_holds; cbn. apply Z.ltb_lt. Qed.

Lemma atom_holds_ge p c : atom_holds p {| op := Ge; bound := c |} = true <-> c <= p.
Proof. unfold atom_holds; cbn. apply Z.leb_le. Qed.

Lemma satisfies_below p l hi :
  satisfies p {| label := l; filter := below hi |} = true <-> p < hi.
Proof.
  unfold satisfies, below; cbn [filter forallb].
  rewrite andb_true_r. apply atom_holds_lt.
Qed.

Lemma satisfies_between p l lo hi :
  satisfies p {| label := l; filter := between lo hi |} = true <-> lo <= p < hi.
Proof.
  unfold satisfies, between; cbn [filter forallb].
  rewrite andb_true_r, andb_true_iff, atom_holds_lt, atom_holds_ge. reflexivity.
Qed.

Lemma satisfies_from p l lo :
  satisfies p {| label := l; filter := from lo |} = true <-> lo <= p.
Proof.
  unfold satisfies, from; cbn [filter forallb].
  rewrite andb_true_r. apply atom_holds_ge.
Qed.

Lemma filter_keep {A} (f : A -> bool) x l :
  f x = true -> List.filter f (x :: l) = x :: List.filter f l.
Proof. intros H; cbn; rewrite H; reflexivity. Qed.

Lemma filter_skip {A} (f : A -> bool) x l :
  f x = false -> List.filter f (x :: l) = List.filter f l.
Proof. intros H; cbn; rewrite H; reflexivity. Qed.

Ltac band_true :=
  first [ apply satisfies_between | apply satisfies_below | apply satisfies_from ];
  lia.

Ltac band_false :=
  apply not_true_is_false;
  first [ rewrite satisfies_between | rewrite satisfies_below
        | rewrite satisfies_from ];
  lia.

(** Walk down the plan, keeping or skipping each band by arithmetic. *)
Ltac walk_plan :=
  repeat first [ rewrite filter_keep by band_true
               | rewrite filter_skip by band_false ].

(** Which prices the plan covers: a price matches no band when it is one of
    the thirteen thresholds, and exactly one band otherwise. *)
Lemma matching_count (p : Z) :
  List.length (matching p)
  = if existsb (Z.eqb p) uncovered_prices then 0%nat else 1%nat.
Proof.
  assert (C :
    In p uncovered_prices \/
    p < 20000 \/ 20001 <= p < 35000 \/ 35001 <= p < 50000 \/
    50001 <= p < 75000 \/ 75001 <= p < 100000 \/ 100001 <= p < 120000 \/
    120001 <= p < 200000 \/ 200001 <= p < 250000 \/ 250001 <= p < 275000 \/
    275001 <= p < 300000 \/ 300001 <= p < 400000 \/ 400001 <= p < 500000 \/
    500001 <= p < 600000 \/ 600001 <= p) by (cbn [In uncovered_prices]; lia).
  destruct C as [C | C].
  - cbn [In uncovered_prices] in C.
    repeat (destruct C as [C | C]; [subst p; vm_compute; reflexivity | ]).
    contradiction.
  - replace (existsb (Z.eqb p) uncovered_prices) with false.
    + unfold matching, price_ranges.
      destruct (Z_lt_le_dec p 150001);
        repeat (destruct C as [C | C]; try lia);
        walk_plan; reflexivity.
    + symmetry. apply not_true_is_false. rewrite existsb_exists.
      intros [c [Hc E]]. apply Z.eqb_eq in E. subst c.
      cbn [In uncovered_prices] in Hc. lia.
Qed.

(** No price lies in two bands. *)
Lemma price_ranges_disjoint (p : Z) : (List.length (matching p) <= 1)%nat.
Proof.
  rewrite matching_count.
  destruct (existsb (Z.eqb p) uncovered_prices); lia.
Qed.

(** A price is left out exactly when it is one of the thresholds. *)
Lemma uncovered_iff (p : Z) : matching p = [] <-> In p uncovered_prices.
Proof.
  pose proof (matching_count p) as H.
  destruct (existsb (Z.eqb p) uncovered_prices) eqn:E.
  - split; intros _.
    + apply existsb_exists in E. destruct E as [c [Hc E]].
      apply Z.eqb_eq in E. subst c. exact Hc.
    + destruct (matching p); [reflexivity | discriminate H].
  - split; intros H'.
    + rewrite H' in H. discriminate H.
    + exfalso. assert (existsb (Z.eqb p) uncovered_prices = true) as E'.
      { apply existsb_exists. exists p. split; [exact H' | apply Z.eqb_refl]. }
      congruence.
Qed.

(** C1. The specification wants every price matched by exactly one band
    of the plan.  A listing priced 20000 is matched by none: "budget" ends
    below 20000 and "budget2" starts at 20001. *)
Theorem price_20000_in_no_band :
  matching 20000 = [] /\
  satisfies 19999 {| label := "budget"; filter := below 20000 |} = true /\
  satisfies 20001 {| label := "budget2"; filter := between 20001 35000 |} = true.
Proof. vm_compute. repeat split. Qed.

End PlanFacts.

(* ===================================================================== *)
(** * The transport of Bayut *)
(* ===================================================================== *)

Module TransportFacts.
Import Py Pandas Plan Bayut.

Section WithOracle.

Variable post : nat -> payload -> string + json.

Lemma sent_record_sent p s : sent (record_sent p s) = (sent s ++ [p])%list.
Proof. reflexivity. Qed.

Lemma length_snoc {A} (l : list A) (x : A) :
  List.length (l ++ [x]) = S (List.length l).
Proof. rewrite length_app; cbn; lia. Qed.

(** The first attempt succeeds: the body is returned at once. *)
Lemma make_request_first p s body :
  post (List.length (sent s)) p = inr body ->
  _make_request post p s = (inr body, record_sent p s).
Proof.
  intros H. unfold _make_request. cbn [seq max_retries attempts].
  rewrite H. reflexivity.
Qed.

(** C5. A request is tried at most three times.  It returns the first body
    received without trying again; after a failed attempt other than the
    last it sleeps [retry_delay * (attempt + 1)] seconds, which for the
    two sleeps there are is 2 then 4 seconds, each twice the one before;
    after a third failure it raises that failure. *)
Theorem make_request_budget (p : payload) (s : state) :
  let r := _make_request post p s in
  let first := List.length (sent s) in
  exists n : nat,
    (1 <= n <= 3)%nat /\
    sent (snd r) = (sent s ++ repeat p n)%list /\
    slept (snd r)
    = (slept s
       ++ map (fun attempt => retry_delay * (Z.of_nat attempt + 1))
            (seq 0 (n - 1)))%list /\
    map (fun attempt => retry_delay * (Z.of_nat attempt + 1)) (seq 0 (n - 1))
    = map (fun k => 2 ^ Z.of_nat k) (seq 1 (n - 1)) /\
    (forall k, (k < n - 1)%nat -> exists msg, post (first + k)%nat p = inl msg) /\
    match fst r with
    | inr body => post (first + (n - 1))%nat p = inr body
    | inl e =>
        n = 3%nat /\
        exists msg, post (first + 2)%nat p = inl msg /\ e = RequestException msg
    end.
Proof.
  cbv zeta. unfold _make_request. cbn [seq max_retries attempts].
  assert (A0 : (List.length (sent s) + 0 = List.length (sent s))%nat) by lia.
  assert (A1 : (List.length (sent s) + 1 = S (List.length (sent s)))%nat) by lia.
  assert (A2 : (List.length (sent s) + 2 = S (S (List.length (sent s))))%nat) by lia.
  destruct (post (List.length (sent s)) p) as [m0 | b0] eqn:E0.
  - cbn. rewrite ?length_snoc.
    destruct (post (S (List.length (sent s))) p) as [m1 | b1] eqn:E1.
    + destruct (post (S (S (List.length (sent s)))) p) as [m2 | b2] eqn:E2;
        exists 3%nat; cbn; rewrite <- !app_assoc; cbn; rewrite ?A2;
        (repeat split; try lia; eauto;
         intros k Hk; destruct k as [| [| k]]; try lia;
         rewrite ?A0, ?A1; eauto).
    + exists 2%nat. cbn. rewrite <- !app_assoc. cbn. rewrite ?A1.
      repeat split; try lia; eauto.
      intros k Hk. destruct k as [| k]; try lia. rewrite A0; eauto.
  - exists 1%nat. cbn. rewrite ?A0, ?app_nil_r. repeat split; try lia; eauto.
Qed.

End WithOracle.

End TransportFacts.

(* ===================================================================== *)
(** * Frames: lookups after the operations of the block *)
(* ===================================================================== *)

Module PandasFacts.
Import Py Pandas.

Lemma mem_In k l : mem k l = true <-> In k l.
Proof.
  unfold mem. rewrite existsb_exists. split.
  - intros [x [Hx E]]. apply String.eqb_eq in E. subst x. exact Hx.
  - intros H. exists k. split; [exact H | apply String.eqb_refl].
Qed.

Lemma mem_false_In k l : mem k l = false <-> ~ In k l.
Proof.
  rewrite <- mem_In. destruct (mem k l); split; congruence.
Qed.

Lemma In_first_seen k l seen :
  In k (first_seen seen l) <-> In k l /\ ~ In k seen.
Proof.
  revert seen. induction l as [| x l IH]; intros seen; cbn.
  - tauto.
  - destruct (mem x seen) eqn:E.
    + rewrite IH. apply mem_In in E. split.
      * tauto.
      * intros [[-> | H] Hn]; tauto.
    + apply mem_false_In in E. cbn. rewrite IH. cbn. split.
      * intros [-> | [H Hn]]; tauto.
      * intros [[-> | H] Hn]; [tauto |].
        destruct (String.eqb_spec x k) as [-> | Hne]; [tauto |].
        right. split; [exact H |]. intros [? | ?]; tauto.
Qed.

Lemma NoDup_first_seen l seen : NoDup (first_seen seen l).
Proof.
  revert seen. induction l as [| x l IH]; intros seen; cbn.
  - constructor.
  - destruct (mem x seen) eqn:E; [apply IH |].
    constructor; [| apply IH].
    rewrite In_first_seen. cbn. tauto.
Qed.

Lemma mem_first_seen k l : mem k (first_seen [] l) = mem k l.
Proof.
  destruct (mem k l) eqn:E.
  - apply mem_In. apply In_first_seen. apply mem_In in E. cbn. tauto.
  - apply mem_false_In. apply mem_false_In in E.
    rewrite In_first_seen. tauto.
Qed.

Lemma dict_mem_keys d k : dict_mem d k = mem k (map fst d).
Proof.
  unfold dict_mem, mem. induction d as [| [k' v] d IH]; cbn; [reflexivity |].
  rewrite (String.eqb_sym k k').
  destruct (String.eqb k' k); cbn; [reflexivity | exact IH].
Qed.

Lemma mem_app k l1 l2 : mem k (l1 ++ l2) = mem k l1 || mem k l2.
Proof. unfold mem. apply existsb_app. Qed.

Lemma has_column_keys records k :
  has_column records k = mem k (flat_map (map fst) records).
Proof.
  unfold has_column. induction records as [| d ds IH]; [reflexivity |].
  cbn [existsb flat_map]. rewrite mem_app, IH, dict_mem_keys. reflexivity.
Qed.

Lemma getitem_tabulate (f : string -> series) ks k :
  getitem (map (fun k => (k, f k)) ks) k
  = if mem k ks then inr (f k) else inl (KeyError k).
Proof.
  induction ks as [| k' ks IH]; cbn; [reflexivity |].
  rewrite (String.eqb_sym k k').
  destruct (String.eqb_spec k' k) as [-> | Hne]; cbn; [reflexivity | exact IH].
Qed.

(** A column of the frame built from the records. *)
Lemma getitem_DataFrame records k :
  getitem (DataFrame records) k
  = if has_column records k then inr (map (entry k) records)
    else inl (KeyError k).
Proof.
  unfold DataFrame.
  rewrite (getitem_tabulate (fun k => map (entry k) records)).
  rewrite mem_first_seen, has_column_keys. reflexivity.
Qed.

Lemma getitem_setitem df k s k' :
  getitem (setitem df k s) k' = if String.eqb k k' then inr s else getitem df k'.
Proof.
  induction df as [| [c s'] df IH]; cbn.
  - destruct (String.eqb k k'); reflexivity.
  - destruct (String.eqb_spec c k) as [-> | Hne]; cbn.
    + destruct (String.eqb k k'); reflexivity.
    + destruct (String.eqb_spec c k') as [-> | Hne'].
      * destruct (String.eqb_spec k k') as [-> | _]; [congruence | reflexivity].
      * exact IH.
Qed.

Lemma columns_setitem df k s :
  columns (setitem df k s)
  = if mem k (columns df) then columns df else (columns df ++ [k])%list.
Proof.
  unfold columns, mem.
  induction df as [| [c s'] df IH]; cbn; [reflexivity |].
  rewrite (String.eqb_sym k c).
  destruct (String.eqb_spec c k) as [-> | Hne]; cbn; [reflexivity |].
  rewrite IH. destruct (existsb (String.eqb k) (map fst df)); reflexivity.
Qed.

Lemma NoDup_setitem df k s : NoDup (columns df) -> NoDup (columns (setitem df k s)).
Proof.
  intros H. rewrite columns_setitem.
  destruct (mem k (columns df)) eqn:E; [exact H |].
  apply mem_false_In in E.
  apply NoDup_app; [exact H | repeat constructor; intros [] |].
  intros x Hx [-> | []]. contradiction.
Qed.

Lemma NoDup_DataFrame records : NoDup (columns (DataFrame records)).
Proof.
  unfold columns, DataFrame. rewrite map_map. cbn. rewrite map_id.
  apply NoDup_first_seen.
Qed.

Lemma getitem_not_column df k :
  (exists e, getitem df k = inl e) <-> ~ In k (columns df).
Proof.
  unfold columns. induction df as [| [c s] df IH]; cbn.
  - split; [tauto | eauto].
  - destruct (String.eqb_spec c k) as [-> | Hne].
    + split; [intros [e He]; discriminate | tauto].
    + rewrite IH. tauto.
Qed.

(** Lookups after a rename whose new name is free. *)
Lemma getitem_rename df old new k :
  ~ In new (columns df) -> old <> new ->
  getitem (rename df old new) k
  = if String.eqb k new
    then match getitem df old with
         | inr s => inr s
         | inl _ => inl (KeyError new)
         end
    else if String.eqb k old then inl (KeyError old)
    else getitem df k.
Proof.
  intros Hnew Hne. unfold rename, columns in *.
  induction df as [| [c s] df IH]; cbn in *.
  - destruct (String.eqb_spec k new) as [-> | ?]; [reflexivity |].
    destruct (String.eqb_spec k old) as [-> | ?]; reflexivity.
  - assert (c <> new) as Hc by tauto.
    assert (~ In new (map fst df)) as Hdf by tauto.
    rewrite (IH Hdf). clear IH.
    destruct (String.eqb_spec c old); subst;
    repeat match goal with
      | |- context [String.eqb ?a ?b] =>
          destruct (String.eqb_spec a b); subst; try congruence
      end.
Qed.

Lemma columns_rename df old new :
  columns (rename df old new)
  = map (fun c => if String.eqb c old then new else c) (columns df).
Proof. unfold columns, rename. rewrite !map_map. reflexivity. Qed.

Lemma NoDup_rename df old new :
  NoDup (columns df) -> ~ In new (columns df) ->
  NoDup (columns (rename df old new)).
Proof.
  rewrite columns_rename. generalize (columns df) as cs.
  induction cs as [| c cs IH]; cbn; intros Hnd Hnew; [constructor |].
  inversion Hnd as [| ? ? Hc Hcs]; subst.
  constructor; [| apply IH; tauto].
  rewrite in_map_iff. intros [x [Hx Hin]].
  destruct (String.eqb_spec c old), (String.eqb_spec x old); subst;
    solve [tauto | apply Hnew; left; congruence].
Qed.

Lemma filter_named_absent df k :
  ~ In k (columns df) -> List.filter (named k) df = [].
Proof.
  unfold columns, named. induction df as [| [c s] df IH]; cbn; [reflexivity |].
  intros H. destruct (String.eqb_spec c k) as [-> | _]; [tauto |].
  apply IH. tauto.
Qed.

(** In a frame without repeated names, a name selects its one column. *)
Lemma filter_named_unique df k s :
  NoDup (columns df) -> getitem df k = inr s ->
  List.filter (named k) df = [(k, s)].
Proof.
  unfold columns, named. induction df as [| [c s'] df IH]; cbn; [discriminate |].
  intros Hnd Hget. inversion Hnd as [| ? ? Hc Hdf]; subst.
  destruct (String.eqb_spec c k) as [-> | Hne].
  - injection Hget as ->. f_equal. apply filter_named_absent. exact Hc.
  - apply IH; assumption.
Qed.

Lemma select_unique df names :
  NoDup (columns df) ->
  select df names = mapM (fun k => s <- getitem df k ;; inr (k, s)) names.
Proof.
  intros Hnd. induction names as [| k names IH]; cbn; [reflexivity |].
  destruct (getitem df k) as [e | s] eqn:E; cbn.
  - rewrite filter_named_absent; [| apply getitem_not_column; eauto].
    revert E. clear. induction df as [| [c s] df IH]; cbn.
    + intros [= <-]. reflexivity.
    + destruct (String.eqb c k); [discriminate | exact IH].
  - rewrite (filter_named_unique df k s Hnd E). rewrite IH.
    destruct (mapM _ names); reflexivity.
Qed.

(** Applying a function that does not raise on any entry is a [map]. *)
Lemma mapM_total {A B} (f : A -> result B) (g : A -> B) l :
  Forall (fun x => f x = inr (g x)) l -> mapM f l = inr (map g l).
Proof.
  induction 1 as [| x l Hx _ IH]; cbn; [reflexivity |].
  rewrite Hx, IH. reflexivity.
Qed.

Lemma keep_length mask s :
  (List.length (keep mask s) <= List.length s)%nat.
Proof.
  revert s. induction mask as [| b mask IH]; intros [| c s]; cbn; try lia.
  specialize (IH s). destruct b; cbn; lia.
Qed.

End PandasFacts.

(* ===================================================================== *)
(** * The normalisation block of Bayut *)
(* ===================================================================== *)

Module NormalizerFacts.
Import Py Pandas Bayut Row PandasFacts.

Lemma apply_into_ok f src dst df s :
  getitem df src = inr s ->
  apply_into f src dst df = inr (setitem df dst (map f s)).
Proof. intros H. unfold apply_into. rewrite H. reflexivity. Qed.

Lemma unzip_into_ok extract (g : cell -> cell * cell) src level a b df s :
  Forall (fun v => extract v level = inr (g v)) s ->
  getitem df src = inr s ->
  unzip_into extract src level a b df
  = inr (setitem (setitem df a (map fst (map g s))) b (map snd (map g s))).
Proof.
  intros Hg H. unfold unzip_into. rewrite H. cbn [bind].
  rewrite (mapM_total _ g s Hg). reflexivity.
Qed.

Lemma try_apply_into_ok f (g : cell -> cell) src dst df s :
  Forall (fun v => f v = inr (g v)) s ->
  getitem df src = inr s ->
  try_apply_into f src dst df = inr (setitem df dst (map g s)).
Proof.
  intros Hg H. unfold try_apply_into. rewrite H. cbn [bind].
  rewrite (mapM_total _ g s Hg). reflexivity.
Qed.

Lemma value_inr {A} (d : A) (r : result A) :
  (exists a, r = inr a) -> r = inr (value d r).
Proof. intros [a ->]. reflexivity. Qed.

Lemma first_at_level_total nodes level :
  forallb is_mapping nodes = true ->
  exists p, first_at_level nodes level = inr p.
Proof.
  induction nodes as [| n nodes IH]; cbn; [eauto |].
  destruct n; cbn; try discriminate.
  intros H. destruct (eq_int (get d "level") level); eauto.
Qed.

Lemma extract_location_total c level :
  nodes_ok c = true ->
  extract_location_details c level
  = inr (value (none, none) (extract_location_details c level)).
Proof.
  intros H. apply value_inr.
  destruct c as [| v | |]; cbn; eauto.
  destruct v; cbn; eauto. apply first_at_level_total. exact H.
Qed.

Lemma extract_category_total c level :
  nodes_ok c = true ->
  extract_category_details c level
  = inr (value (none, none) (extract_category_details c level)).
Proof.
  intros H. apply value_inr.
  destruct c as [| v | |]; cbn; eauto.
  destruct v; cbn; eauto. apply first_at_level_total. exact H.
Qed.

Lemma to_datetime_total c :
  epoch_ok c = true -> to_datetime c = inr (value NaT (to_datetime c)).
Proof.
  intros H. apply value_inr.
  destruct c as [| v | |]; cbn in *; eauto; try discriminate.
  destruct v; cbn in *; try discriminate; eauto; rewrite H; eauto.
Qed.

Lemma BayutLink_total py_str c :
  id_ok c = true ->
  BayutLink py_str c = inr (value none (BayutLink py_str c)).
Proof.
  intros H. apply value_inr.
  destruct c as [| v | |]; cbn in *; eauto.
  destruct v; cbn in *; try discriminate; eauto.
Qed.

Lemma well_typed_parts d :
  well_typed d = true ->
  nodes_ok (entry "location" d) = true /\
  nodes_ok (entry "category" d) = true /\
  epoch_ok (entry "createdAt" d) = true /\
  epoch_ok (entry "updatedAt" d) = true /\
  id_ok (entry "externalID" d) = true.
Proof.
  unfold well_typed. rewrite !andb_true_iff. tauto.
Qed.

Lemma Forall_entries (P : cell -> Prop) k (records : list dict) :
  Forall (fun d => P (entry k d)) records ->
  Forall P (map (entry k) records).
Proof. intros H. apply Forall_map. exact H. Qed.

Lemma complete_has records k :
  complete records = true -> In k read_columns -> has_column records k = true.
Proof.
  unfold complete. rewrite !andb_true_iff. intros [[H _] _] Hk.
  rewrite forallb_forall in H. apply H. exact Hk.
Qed.

Section Refinement.

Variable py_str : json -> string.
Variable scrape_date : string.

Ltac look :=
  repeat (rewrite getitem_setitem; cbn [String.eqb Ascii.eqb Bool.eqb]);
  rewrite ?getitem_DataFrame.

Ltac read_raw Hcol :=
  look; rewrite Hcol by (cbn; tauto); reflexivity.

(** Refinement: on a complete batch of well-typed listings the columnar
    block builds the frame whose rows are the flat records of the
    listings. *)
Lemma flatten_rows (hits : list json) (records : list dict) :
  as_records hits = inr records ->
  complete records = true ->
  Forall (fun d => well_typed d = true) records ->
  flatten py_str scrape_date hits = inr (frame_of py_str scrape_date records).
Proof.
  intros Hrec Hc Hwt. unfold flatten. rewrite Hrec. cbn [bind].
  assert (Hcol : forall k, In k read_columns -> has_column records k = true)
    by (intros k; apply complete_has; exact Hc).
  assert (Harea : has_column records "area (sqm)" = false
                  /\ has_column records "plotArea (sqm)" = false).
  { unfold complete in Hc. rewrite !andb_true_iff, !negb_true_iff in Hc. tauto. }
  destruct Harea as [Harea Hplot].
  assert (Hloc : forall level,
    Forall (fun v => extract_location_details v level
                     = inr (value (none, none) (extract_location_details v level)))
      (map (entry "location") records)).
  { intros level. apply Forall_entries. revert Hwt. apply Forall_impl.
    intros d Hd. apply extract_location_total. apply well_typed_parts in Hd. tauto. }
  assert (Hcat : forall level,
    Forall (fun v => extract_category_details v level
                     = inr (value (none, none) (extract_category_details v level)))
      (map (entry "category") records)).
  { intros level. apply Forall_entries. revert Hwt. apply Forall_impl.
    intros d Hd. apply extract_category_total. apply well_typed_parts in Hd. tauto. }
  assert (Hcreated :
    Forall (fun v => to_datetime v = inr (value NaT (to_datetime v)))
      (map (entry "createdAt") records)).
  { apply Forall_entries. revert Hwt. apply Forall_impl.
    intros d Hd. apply to_datetime_total. apply well_typed_parts in Hd. tauto. }
  assert (Hupdated :
    Forall (fun v => to_datetime v = inr (value NaT (to_datetime v)))
      (map (entry "updatedAt") records)).
  { apply Forall_entries. revert Hwt. apply Forall_impl.
    intros d Hd. apply to_datetime_total. apply well_typed_parts in Hd. tauto. }
  assert (Hid :
    Forall (fun v => BayutLink py_str v = inr (value none (BayutLink py_str v)))
      (map (entry "externalID") records)).
  { apply Forall_entries. revert Hwt. apply Forall_impl.
    intros d Hd. apply BayutLink_total. apply well_typed_parts in Hd. tauto. }
  rewrite (apply_into_ok _ "geography" "latitude" _ (map (entry "geography") records))
    by read_raw Hcol.
  cbn [bind].
  rewrite (apply_into_ok _ "geography" "longitude" _ (map (entry "geography") records))
    by read_raw Hcol.
  cbn [bind].
  rewrite (unzip_into_ok _ _ "location" 1 _ _ _ _ (Hloc 1)) by read_raw Hcol.
  cbn [bind].
  rewrite (unzip_into_ok _ _ "location" 2 _ _ _ _ (Hloc 2)) by read_raw Hcol.
  cbn [bind].
  rewrite (unzip_into_ok _ _ "location" 3 _ _ _ _ (Hloc 3)) by read_raw Hcol.
  cbn [bind].
  rewrite (unzip_into_ok _ _ "location" 4 _ _ _ _ (Hloc 4)) by read_raw Hcol.
  cbn [bind].
  rewrite (unzip_into_ok _ _ "category" 0 _ _ _ _ (Hcat 0)) by read_raw Hcol.
  cbn [bind].
  rewrite (unzip_into_ok _ _ "category" 1 _ _ _ _ (Hcat 1)) by read_raw Hcol.
  cbn [bind].
  rewrite (apply_into_ok _ "agency" "AgencyName" _ (map (entry "agency") records))
    by read_raw Hcol.
  cbn [bind].
  rewrite (apply_into_ok _ "extraFields" "DldBuildingNK" _
             (map (entry "extraFields") records)) by read_raw Hcol.
  cbn [bind].
  rewrite (apply_into_ok _ "extraFields" "DldPropertySK" _
             (map (entry "extraFields") records)) by read_raw Hcol.
  cbn [bind].
  rewrite (try_apply_into_ok _ _ "createdAt" "createdAt" _ _ Hcreated) by read_raw Hcol.
  cbn [bind].
  rewrite (try_apply_into_ok _ _ "updatedAt" "updatedAt" _ _ Hupdated) by read_raw Hcol.
  cbn [bind].
  rewrite (try_apply_into_ok _ _ "externalID" "BayutLink" _ _ Hid) by read_raw Hcol.
  cbn [bind].
  match goal with
  | |- select (rename (rename ?df _ _) _ _) _ = _ => set (df10 := df)
  end.
  assert (Hnd : NoDup (columns df10)).
  { subst df10. repeat apply NoDup_setitem. apply NoDup_DataFrame. }
  assert (Hfree1 : ~ In "area (sqm)" (columns df10)).
  { apply getitem_not_column. subst df10. look. rewrite Harea. eauto. }
  assert (Hfree2 : ~ In "plotArea (sqm)" (columns (rename df10 "area" "area (sqm)"))).
  { apply getitem_not_column.
    rewrite (getitem_rename _ _ _ _ Hfree1) by discriminate.
    cbn [String.eqb Ascii.eqb Bool.eqb].
    subst df10. look. rewrite Hplot. eauto. }
  rewrite select_unique
    by (apply NoDup_rename; [apply NoDup_rename; assumption | assumption]).
  set (final := rename (rename df10 "area" "area (sqm)") "plotArea" "plotArea (sqm)").
  assert (Hget : forall k,
    getitem final k
    = if String.eqb k "plotArea (sqm)"
      then match getitem df10 "plotArea" with
           | inr s => inr s
           | inl _ => inl (KeyError "plotArea (sqm)")
           end
      else if String.eqb k "plotArea" then inl (KeyError "plotArea")
      else if String.eqb k "area (sqm)"
      then match getitem df10 "area" with
           | inr s => inr s
           | inl _ => inl (KeyError "area (sqm)")
           end
      else if String.eqb k "area" then inl (KeyError "area")
      else getitem df10 k).
  { intros k. unfold final.
    rewrite (getitem_rename _ _ _ _ Hfree2) by discriminate.
    rewrite !(getitem_rename _ _ _ _ Hfree1) by discriminate.
    cbn [String.eqb Ascii.eqb Bool.eqb]. reflexivity. }
  clearbody final.
  unfold frame_of, schema, desired_columns.
  cbn [mapM map fst snd].
  repeat (rewrite Hget; cbn [String.eqb Ascii.eqb Bool.eqb];
          unfold df10; look; rewrite ?Hcol by (cbn; tauto); cbn [bind]).
  rewrite !map_map. reflexivity.
Qed.

End Refinement.

Lemma at_frame_of py_str date records i d k :
  nth_error records i = Some d ->
  at_ (frame_of py_str date records) k i
  = field (normalized_record py_str date d) k.
Proof.
  intros H. unfold frame_of, normalized_record, at_.
  induction (schema py_str date) as [| [c f] sch IH]; cbn; [reflexivity |].
  destruct (String.eqb c k); [| exact IH].
  apply map_nth_error. exact H.
Qed.

(** A field that a listing lacks is null in its flat record, whichever
    column it feeds. *)
Lemma absent_is_null py_str date d column src :
  In (column, src) sources -> dict_get d src = None ->
  exists c, field (normalized_record py_str date d) column = Some c
            /\ is_null c = true.
Proof.
  intros Hin Habs. unfold sources in Hin. cbn [In] in Hin.
  repeat (destruct Hin as [Hin | Hin];
          [ injection Hin as <- <-;
            eexists; split;
            [ cbn; unfold location_at, category_at, entry; rewrite Habs;
              reflexivity
            | reflexivity ]
          | ]).
  contradiction.
Qed.

Lemma getitem_filter_rows df mask k :
  getitem (filter_rows df mask) k = (s <- getitem df k ;; inr (keep mask s)).
Proof.
  unfold filter_rows. induction df as [| [c s] df IH]; cbn; [reflexivity |].
  destruct (String.eqb c k); [reflexivity | exact IH].
Qed.

Lemma keep_notnull ids : keep (map notnull ids) ids = List.filter notnull ids.
Proof.
  induction ids as [| c ids IH]; cbn; [reflexivity |].
  rewrite IH. reflexivity.
Qed.

(** The code tolerates a field absent from a listing, not a column absent
    from the whole batch: a partition whose only listing has no [agency]
    fails with a [KeyError]. *)
Example column_absent_from_batch :
  flatten Samples.sample_str "2025-03-09 12:00:07" [JDict Samples.no_agency]
  = inl (KeyError "agency").
Proof. vm_compute. reflexivity. Qed.

(** C2 does not hold as the specification words it.  A listing without
    any identifier is no failure: next to a complete listing it is
    normalised into a row with null [objectID] and [BayutLink].  And a
    batch in which no listing has an [agency] raises although every
    listing has its identifier. *)
Lemma absent_identifier_is_not_a_failure :
  (dict_get Samples.anonymous "objectID" = None /\
   dict_get Samples.anonymous "externalID" = None /\
   exists df,
     normalize Samples.sample_str Samples.noon
       [JDict Samples.marina; JDict Samples.anonymous] = inr df /\
     nrows df = 2%nat /\
     at_ df "objectID" 1 = Some NaN /\
     at_ df "BayutLink" 1 = Some none /\
     at_ df "price" 1 = Some (Obj (JInt 90000))) /\
  (dict_get Samples.no_agency "objectID" = Some (JInt 8801) /\
   normalize Samples.sample_str Samples.noon [JDict Samples.no_agency]
   = inl (KeyError "agency")).
Proof.
  split.
  - split; [reflexivity |]. split; [reflexivity |].
    eexists. split; [vm_compute; reflexivity |].
    vm_compute. repeat split.
  - split; vm_compute; reflexivity.
Qed.

(** C2, amended.  On a batch that supplies every column the block reads,
    with well-typed listings, normalisation does not raise, whichever
    fields an individual listing lacks, the identifier included: the
    frame built has one row per listing, and every field a listing lacks
    is null in its row.  The PropertyFinder filter drops the rows whose
    [property.id] is null and keeps the others, without raising. *)
Theorem normalize_tolerates_absent_fields
    (py_str : json -> string) (now : datetime)
    (hits : list json) (records : list dict) :
  as_records hits = inr records ->
  complete records = true ->
  Forall (fun d => well_typed d = true) records ->
  (exists df out,
     flatten py_str (strftime now) hits = inr df /\
     normalize py_str now hits = inr out /\
     nrows df = List.length records /\
     forall i d, nth_error records i = Some d ->
       forall column src,
         In (column, src) sources -> dict_get d src = None ->
         exists c, at_ df column i = Some c /\ is_null c = true) /\
  (forall df ids,
     getitem df "property.id" = inr ids ->
     getitem (PropertyFinder.drop_null_ids df) "property.id"
     = inr (List.filter notnull ids)).
Proof.
  intros Hrec Hc Hwt. split.
  - exists (frame_of py_str (strftime now) records).
    pose proof (flatten_rows py_str (strftime now) hits records Hrec Hc Hwt)
      as Hflat.
    eexists. split; [exact Hflat |]. split; [| split].
    + unfold normalize. rewrite Hflat. cbn [bind]. unfold only_dubai.
      unfold frame_of at 1. unfold schema.
      cbn [map getitem fst snd String.eqb Ascii.eqb Bool.eqb bind].
      reflexivity.
    + cbn. apply length_map.
    + intros i d Hd column src Hin Habs.
      rewrite (at_frame_of _ _ _ _ _ _ Hd).
      apply absent_is_null with (src := src); assumption.
  - intros df ids Hids. unfold PropertyFinder.drop_null_ids.
    rewrite Hids, getitem_filter_rows, Hids. cbn [bind].
    rewrite keep_notnull. reflexivity.
Qed.

(** The amended C2 on a batch of two: the second listing has no
    identifier. *)
Lemma normalize_tolerates_absent_fields_witness :
  (exists df out,
     flatten Samples.sample_str (strftime Samples.noon)
       [JDict Samples.marina; JDict Samples.anonymous] = inr df /\
     normalize Samples.sample_str Samples.noon
       [JDict Samples.marina; JDict Samples.anonymous] = inr out /\
     nrows df = List.length [Samples.marina; Samples.anonymous] /\
     forall i d, nth_error [Samples.marina; Samples.anonymous] i = Some d ->
       forall column src,
         In (column, src) sources -> dict_get d src = None ->
         exists c, at_ df column i = Some c /\ is_null c = true) /\
  (forall df ids,
     getitem df "property.id" = inr ids ->
     getitem (PropertyFinder.drop_null_ids df) "property.id"
     = inr (List.filter notnull ids)).
Proof.
  apply (normalize_tolerates_absent_fields Samples.sample_str Samples.noon
           [JDict Samples.marina; JDict Samples.anonymous]
           [Samples.marina; Samples.anonymous]).
  - reflexivity.
  - vm_compute. reflexivity.
  - repeat constructor.
Defined.






(** Outside the stamp column, the flat frame does not depend on the
    stamp. *)
Lemma getitem_frame_of_stamp py_str date date' records k :
  k <> "scrape_date" ->
  getitem (frame_of py_str date records) k
  = getitem (frame_of py_str date' records) k.
Proof.
  intros Hk. unfold frame_of, schema. cbn [map getitem fst snd].
  repeat match goal with
    | |- context [String.eqb ?c k] =>
        destruct (String.eqb_spec c k); [subst; try reflexivity |]
    end.
  - congruence.
  - reflexivity.
Qed.

(** C9. The block reads the clock once and keeps its reading to the
    second: two runs on the same hits whose clocks print the same stamp
    give the same result, frame or exception.  On a complete batch of
    well-typed listings, runs at any two times give frames that differ in
    the [scrape_date] column at most. *)
Theorem normalize_deterministic
    (py_str : json -> string) (t1 t2 : datetime) (hits : list json) :
  strftime t1 = strftime t2 ->
  normalize py_str t1 hits = normalize py_str t2 hits /\
  (forall records t t',
     as_records hits = inr records ->
     complete records = true ->
     Forall (fun d => well_typed d = true) records ->
     exists out out',
       normalize py_str t hits = inr out /\
       normalize py_str t' hits = inr out' /\
       forall k, k <> "scrape_date" -> getitem out k = getitem out' k).
Proof.
  intros Hsame. split.
  - unfold normalize. rewrite Hsame. reflexivity.
  - intros records t t' Hrec Hc Hwt.
    unfold normalize.
    rewrite (flatten_rows py_str (strftime t) hits records Hrec Hc Hwt).
    rewrite (flatten_rows py_str (strftime t') hits records Hrec Hc Hwt).
    cbn [bind]. unfold only_dubai.
    unfold frame_of at 1 3. unfold schema.
    cbn [map getitem fst snd String.eqb Ascii.eqb Bool.eqb bind].
    do 2 eexists. split; [reflexivity |]. split; [reflexivity |].
    intros k Hk. rewrite !getitem_filter_rows.
    rewrite (getitem_frame_of_stamp py_str (strftime t) (strftime t') records k Hk).
    reflexivity.
Qed.

(** C9 for two readings of the clock within the same second. *)
Lemma normalize_deterministic_witness :
  normalize Samples.sample_str Samples.noon
    [JDict Samples.marina; JDict Samples.anonymous]
  = normalize Samples.sample_str Samples.noon_later
      [JDict Samples.marina; JDict Samples.anonymous].
Proof.
  apply (normalize_deterministic Samples.sample_str Samples.noon
           Samples.noon_later [JDict Samples.marina; JDict Samples.anonymous]).
  reflexivity.
Defined.

End NormalizerFacts.

(* ===================================================================== *)
(** * The page loop and the orchestration of Bayut *)
(* ===================================================================== *)

Module FetcherFacts.
Import Py Pandas Plan Bayut.

Section WithOracles.

Variable post : nat -> payload -> string + json.
Variable now : nat -> datetime.
Variable writable : string -> bool.
Variable py_str : json -> string.

(** Three failures in a row exhaust the budget. *)
Lemma make_request_exhausted p s m0 m1 m2 :
  post (List.length (sent s)) p = inl m0 ->
  post (S (List.length (sent s))) p = inl m1 ->
  post (S (S (List.length (sent s)))) p = inl m2 ->
  _make_request post p s
  = (inl (RequestException m2),
     {| sent := (sent s ++ [p; p; p])%list;
        slept := (slept s ++ [2; 4])%list;
        log := (log s ++ [RequestFailed 1 3 m0; RequestFailed 2 3 m1;
                          RequestFailed 3 3 m2])%list;
        files := files s; clock_reads := clock_reads s |}).
Proof.
  intros E0 E1 E2. unfold _make_request. cbn [seq max_retries attempts].
  rewrite E0. cbn. rewrite TransportFacts.length_snoc, E1. cbn.
  rewrite !TransportFacts.length_snoc, E2. cbn.
  rewrite <- !app_assoc. reflexivity.
Qed.

(** [scrape_listings] returns a value, whatever the transport does. *)
Lemma scrape_listings_returns filters page hits_per_page s :
  exists hits,
    fst (scrape_listings post filters page hits_per_page s) = inr hits.
Proof.
  unfold scrape_listings, try_except, mbind, lift.
  destruct (_make_request post _ s) as [[e | result] s']; cbn; [eauto |].
  destruct (attr_get result "hits" (JList [])); cbn; eauto.
Qed.

(** A request that fails turns into the empty list of hits. *)
Lemma scrape_listings_failure filters page hits_per_page s e s' :
  _make_request post (request filters page hits_per_page) s = (inl e, s') ->
  scrape_listings post filters page hits_per_page s
  = (inr (JList []),
     {| sent := sent s'; slept := slept s';
        log := (log s' ++ [FailedToScrape e])%list;
        files := files s'; clock_reads := clock_reads s' |}).
Proof.
  intros H. unfold scrape_listings, try_except, mbind.
  rewrite H. reflexivity.
Qed.

Lemma scrape_listings_success filters page hits_per_page s result hits :
  post (List.length (sent s)) (request filters page hits_per_page) = inr result ->
  attr_get result "hits" (JList []) = inr hits ->
  scrape_listings post filters page hits_per_page s
  = (inr hits, record_sent (request filters page hits_per_page) s).
Proof.
  intros E H. unfold scrape_listings, try_except, mbind, lift.
  rewrite (TransportFacts.make_request_first post _ _ _ E). rewrite H.
  reflexivity.
Qed.

(** An empty page ends the loop: what was gathered is returned and the
    pages left are not requested. *)
Lemma page_loop_empty label cf max_pages hpp page pages acc s result hits :
  post (List.length (sent s)) (request cf page hpp) = inr result ->
  attr_get result "hits" (JList []) = inr hits ->
  truthy hits = false ->
  page_loop post label cf max_pages hpp (page :: pages) acc s
  = (inr acc,
     {| sent := (sent s ++ [request cf page hpp])%list;
        slept := slept s;
        log := (log s ++ [ScrapingPage (page + 1) max_pages label;
                          NoMoreListings label (page + 1)])%list;
        files := files s; clock_reads := clock_reads s |}).
Proof.
  intros E H Hempty. cbn [page_loop]. unfold mbind at 1. cbn [info].
  unfold mbind at 1.
  rewrite (scrape_listings_success _ _ _ _ result hits) by assumption.
  rewrite Hempty. cbn. rewrite <- app_assoc. reflexivity.
Qed.

(** A page with listings is added to what was gathered, and the loop goes
    on with the next page after a second of sleep. *)
Lemma page_loop_listings label cf max_pages hpp page pages acc s result items :
  post (List.length (sent s)) (request cf page hpp) = inr result ->
  attr_get result "hits" (JList []) = inr (JList items) ->
  items <> [] ->
  page_loop post label cf max_pages hpp (page :: pages) acc s
  = page_loop post label cf max_pages hpp pages (acc ++ items)%list
      {| sent := (sent s ++ [request cf page hpp])%list;
         slept := (slept s ++ [1])%list;
         log := (log s ++ [ScrapingPage (page + 1) max_pages label])%list;
         files := files s; clock_reads := clock_reads s |}.
Proof.
  intros E H Hitems. cbn [page_loop]. unfold mbind at 1. cbn [info].
  unfold mbind at 1.
  rewrite (scrape_listings_success _ _ _ _ result (JList items)) by assumption.
  destruct items as [| x items]; [congruence |]. cbn. reflexivity.
Qed.

(** A request that fails three times ends the loop like an empty page. *)
Lemma page_loop_failure label cf max_pages hpp page pages acc s m0 m1 m2 :
  post (List.length (sent s)) (request cf page hpp) = inl m0 ->
  post (S (List.length (sent s))) (request cf page hpp) = inl m1 ->
  post (S (S (List.length (sent s)))) (request cf page hpp) = inl m2 ->
  page_loop post label cf max_pages hpp (page :: pages) acc s
  = (inr acc,
     {| sent := (sent s ++ [request cf page hpp; request cf page hpp;
                            request cf page hpp])%list;
        slept := (slept s ++ [2; 4])%list;
        log := (log s ++ [ScrapingPage (page + 1) max_pages label;
                          RequestFailed 1 3 m0; RequestFailed 2 3 m1;
                          RequestFailed 3 3 m2;
                          FailedToScrape (RequestException m2);
                          NoMoreListings label (page + 1)])%list;
        files := files s; clock_reads := clock_reads s |}).
Proof.
  intros E0 E1 E2. cbn [page_loop]. unfold mbind at 1. cbn [info].
  unfold mbind at 1.
  erewrite scrape_listings_failure
    by (apply make_request_exhausted; cbn; eassumption).
  cbn. rewrite <- !app_assoc. reflexivity.
Qed.
(** ** The log of a run *)

Lemma started_app evs evs' :
  started (evs ++ evs') = (started evs ++ started evs')%list.
Proof.
  induction evs as [| ev evs IH]; cbn; [reflexivity |].
  destruct ev; cbn; rewrite ?IH; reflexivity.
Qed.

Lemma quiet_unchanged {A} (c : M A) :
  (forall s, log (snd (c s)) = log s) -> quiet c.
Proof. intros H s. exists []. rewrite app_nil_r. auto. Qed.

Lemma quiet_ret {A} (a : A) : quiet (ret a).
Proof. apply quiet_unchanged. reflexivity. Qed.

Lemma quiet_raise {A} e : quiet (@raise A e).
Proof. apply quiet_unchanged. reflexivity. Qed.

Lemma quiet_lift {A} (r : result A) : quiet (lift r).
Proof. apply quiet_unchanged. reflexivity. Qed.

Lemma quiet_sleep secs : quiet (sleep secs).
Proof. apply quiet_unchanged. reflexivity. Qed.

Lemma quiet_info ev : started [ev] = [] -> quiet (info ev).
Proof. intros H s. exists [ev]. auto. Qed.

Lemma quiet_bind {A B} (c : M A) (k : A -> M B) :
  quiet c -> (forall a, quiet (k a)) -> quiet (mbind c k).
Proof.
  intros Hc Hk s. unfold mbind.
  destruct (Hc s) as [evs [Hlog Hst]].
  destruct (c s) as [[e | a] s']; cbn in *; [eauto |].
  destruct (Hk a s') as [evs' [Hlog' Hst']].
  exists (evs ++ evs')%list. split.
  - rewrite Hlog', Hlog, app_assoc. reflexivity.
  - rewrite started_app, Hst, Hst'. reflexivity.
Qed.

Lemma quiet_try_except {A} (c : M A) (h : exn -> M A) :
  quiet c -> (forall e, quiet (h e)) -> quiet (try_except c h).
Proof.
  intros Hc Hh s. unfold try_except.
  destruct (Hc s) as [evs [Hlog Hst]].
  destruct (c s) as [[e | a] s']; cbn in *; [| eauto].
  destruct (Hh e s') as [evs' [Hlog' Hst']].
  exists (evs ++ evs')%list. split.
  - rewrite Hlog', Hlog, app_assoc. reflexivity.
  - rewrite started_app, Hst, Hst'. reflexivity.
Qed.

Create HintDb quiet.
#[local] Hint Resolve quiet_ret quiet_raise quiet_lift quiet_sleep : quiet.
#[local] Hint Extern 1 (quiet (info _)) =>
  apply quiet_info; reflexivity : quiet.
#[local] Hint Extern 2 (quiet (mbind _ _)) =>
  apply quiet_bind; [| intro] : quiet.
#[local] Hint Extern 2 (quiet (try_except _ _)) =>
  apply quiet_try_except; [| intro] : quiet.

Lemma quiet_attempts todo p : quiet (attempts post todo p).
Proof.
  induction todo as [| attempt todo IH]; cbn [attempts]; [auto with quiet |].
  intros s. destruct (post (List.length (sent s)) p) as [msg | body].
  - assert (Q : quiet
        (info (RequestFailed (attempt + 1) max_retries msg) >>>
         (if (attempt <? max_retries - 1)%nat
          then sleep (retry_delay * (Z.of_nat attempt + 1)) >>>
               attempts post todo p
          else raise (RequestException msg)))).
    { apply quiet_bind; [auto with quiet | intros _].
      destruct (attempt <? max_retries - 1)%nat; auto with quiet. }
    destruct (Q (record_sent p s)) as [evs H]. exists evs. exact H.
  - exists []. cbn. rewrite app_nil_r. auto.
Qed.

Lemma quiet_scrape_listings filters page hpp :
  quiet (scrape_listings post filters page hpp).
Proof.
  unfold scrape_listings, _make_request.
  apply quiet_try_except; [| intro; auto with quiet].
  apply quiet_bind; [apply quiet_attempts | intro; auto with quiet].
Qed.

Lemma quiet_page_loop label cf max_pages hpp pages acc :
  quiet (page_loop post label cf max_pages hpp pages acc).
Proof.
  revert acc. induction pages as [| page pages IH]; intros acc;
    cbn [page_loop]; [auto with quiet |].
  apply quiet_bind; [auto with quiet | intros _].
  apply quiet_bind; [apply quiet_scrape_listings | intros listings].
  destruct (negb (truthy listings)); [auto with quiet |].
  apply quiet_bind; [auto with quiet | intros items].
  apply quiet_bind; [auto with quiet | intros _]. apply IH.
Qed.

Lemma quiet_read_clock : quiet (read_clock now).
Proof. apply quiet_unchanged. reflexivity. Qed.

Lemma quiet_to_csv path df : quiet (to_csv writable path df).
Proof.
  apply quiet_unchanged. intros s. unfold to_csv.
  destruct (writable path); reflexivity.
Qed.

Lemma info_then {A} ev (c : M A) s :
  (info ev >>> c) s
  = c {| sent := sent s; slept := slept s; log := (log s ++ [ev])%list;
         files := files s; clock_reads := clock_reads s |}.
Proof. reflexivity. Qed.

(** One band: its start is logged, then nothing raises past the guard. *)
Lemma scrape_range_guarded_spec base max_pages hpp r s :
  exists evs,
    fst (scrape_range_guarded post now writable py_str base max_pages hpp r s)
    = inr tt /\
    log (snd (scrape_range_guarded post now writable py_str base max_pages hpp r s))
    = (log s ++ ScrapingRange (label r) :: evs)%list /\
    started evs = [].
Proof.
  assert (Q : quiet
      (all_listings <-- page_loop post (label r)
                          (base ++ " AND " ++ render_filter (Plan.filter r))
                          max_pages hpp (seq 0 max_pages) [] ;;;
       match all_listings with
       | _ :: _ =>
           t <-- read_clock now ;;;
           df <-- lift (normalize py_str t all_listings) ;;;
           to_csv writable (output_path (label r) max_pages) df >>>
           info (Saved (List.length all_listings)
                   (output_path (label r) max_pages))
       | [] => info (NoListingsFound (label r))
       end)).
  { apply quiet_bind; [apply quiet_page_loop | intros all].
    destruct all; [auto with quiet |].
    apply quiet_bind; [apply quiet_read_clock | intros t].
    apply quiet_bind; [auto with quiet | intros df].
    apply quiet_bind; [apply quiet_to_csv | intros _]. auto with quiet. }
  unfold scrape_range_guarded, try_except, scrape_range.
  rewrite info_then.
  match goal with
  | |- context [mbind ?c ?k ?s1] =>
      destruct (Q s1) as [evs [Hlog Hst]];
      destruct (mbind c k s1) as [[e | []] s']
  end; cbn [fst snd log] in Hlog; cbn [info fst snd log].
  - exists (evs ++ [ErrorScraping (label r) e])%list. split; [reflexivity |].
    split.
    + rewrite Hlog, <- !app_assoc. reflexivity.
    + rewrite started_app, Hst. reflexivity.
  - exists evs. split; [reflexivity |]. split; [| exact Hst].
    rewrite Hlog, <- app_assoc. reflexivity.
Qed.

(** The whole plan: every band is started, in the order of the plan, and
    the run returns normally. *)
Lemma scrape_ranges_spec base max_pages hpp ranges s :
  fst (scrape_ranges post now writable py_str base max_pages hpp ranges s)
  = inr tt /\
  started (log (snd (scrape_ranges post now writable py_str base max_pages
                       hpp ranges s)))
  = (started (log s) ++ map label ranges)%list.
Proof.
  revert s. induction ranges as [| r ranges IH]; intros s; cbn [scrape_ranges].
  - cbn. rewrite app_nil_r. auto.
  - unfold mbind.
    destruct (scrape_range_guarded_spec base max_pages hpp r s)
      as [evs [Hret [Hlog Hst]]].
    destruct (scrape_range_guarded post now writable py_str base max_pages hpp r s)
      as [[e | []] s']; cbn in Hret, Hlog; [discriminate |].
    destruct (IH s') as [IH1 IH2]. split; [exact IH1 |].
    rewrite IH2, Hlog, started_app. cbn. rewrite Hst, <- app_assoc.
    reflexivity.
Qed.
End WithOracles.

End FetcherFacts.

(* ===================================================================== *)
(** * The pagination loop of PropertyFinder *)
(* ===================================================================== *)

Module PropertyFinderFacts.
Import Py Pandas PropertyFinder.

Section WithSite.

Variable get : nat -> nat -> result response.

(** A response other than 200 is answered with [None]. *)
Lemma fetch_not_ok call page r :
  get call page = inr r -> status_code r <> 200 ->
  fetch_listings_from_page get call page = (inr JNull, [FailedToRetrieve page]).
Proof.
  intros H Hs. unfold fetch_listings_from_page. rewrite H.
  destruct (Z.eqb_spec (status_code r) 200); [contradiction | reflexivity].
Qed.

(** A pass whose fetch comes back empty. *)
Lemma iteration_empty s listings lines :
  fetch_listings_from_page get (List.length (requested s)) (page_number s)
  = (inr listings, lines) ->
  truthy listings = false ->
  exists s',
    iteration get s
    = (if (3 <=? retry_count s + 1)%nat then Break else Continue, s') /\
    page_number s' = page_number s /\
    retry_count s' = S (retry_count s) /\
    all_listings s' = all_listings s /\
    total_properties s' = total_properties s /\
    requested s' = (requested s ++ [page_number s])%list.
Proof.
  intros H Hempty. unfold iteration. rewrite H, Hempty. cbn [negb].
  destruct (3 <=? retry_count s + 1)%nat; eexists; (split; [reflexivity |]);
    cbn; repeat split; lia.
Qed.

(** A pass whose fetch comes back with listings. *)
Lemma iteration_listings s listings lines items :
  fetch_listings_from_page get (List.length (requested s)) (page_number s)
  = (inr listings, lines) ->
  truthy listings = true ->
  iter listings = inr items ->
  iteration get s
  = (Continue,
     {| page_number := page_number s + 1; retry_count := 0;
        all_listings := (all_listings s ++ items)%list;
        total_properties := total_properties s + List.length items;
        requested := (requested s ++ [page_number s])%list;
        slept := (slept s ++ [1])%list;
        printed :=
          ((printed s ++ lines)
           ++ [PageScraped (page_number s) (List.length items);
               TotalSoFar (total_properties s + List.length items)])%list |}).
Proof.
  intros H Hfull Hitems. unfold iteration. rewrite H, Hfull, Hitems.
  reflexivity.
Qed.

(** An exception of the fetch ends the pass, and the run with it. *)
Lemma iteration_raised s e lines :
  fetch_listings_from_page get (List.length (requested s)) (page_number s)
  = (inl e, lines) ->
  exists s', iteration get s = (Raised e, s').
Proof.
  intros H. unfold iteration. rewrite H. eauto.
Qed.

(** Listings are only ever added at the end. *)
Lemma iteration_extends s st s' :
  iteration get s = (st, s') ->
  exists items, all_listings s' = (all_listings s ++ items)%list.
Proof.
  unfold iteration.
  destruct (fetch_listings_from_page get _ _) as [[e | listings] lines].
  - intros [= <- <-]. exists []. cbn. rewrite app_nil_r. reflexivity.
  - destruct (negb (truthy listings)).
    + destruct (3 <=? retry_count s + 1)%nat; intros [= <- <-];
        exists []; cbn; rewrite app_nil_r; reflexivity.
    + destruct (iter listings) as [e | items]; intros [= <- <-].
      * exists []. cbn. rewrite app_nil_r. reflexivity.
      * exists items. reflexivity.
Qed.

Lemma loop_extends fuel s final :
  loop get fuel s = Some (inr final) ->
  exists items, all_listings final = (all_listings s ++ items)%list.
Proof.
  revert s. induction fuel as [| fuel IH]; intros s; cbn [loop]; [discriminate |].
  destruct (iteration get s) as [[| | e] s'] eqn:E.
  - intros H. destruct (IH s' H) as [items Hitems].
    destruct (iteration_extends s _ _ E) as [items' Hitems'].
    exists (items' ++ items)%list.
    rewrite Hitems, Hitems', app_assoc. reflexivity.
  - intros [= <-]. exact (iteration_extends s _ _ E).
  - discriminate.
Qed.

(** C3. The loop tolerates up to two empty fetches in a row (it stops at
    the third).  When the first fetch of page 1 comes back empty and the
    second brings listings, the first pass does not stop the loop and
    leaves the cursor on page 1; the second pass requests page 1 again,
    takes its listings and moves to page 2; whatever the run returns
    begins with those listings, and when page 2 stays empty the run
    returns exactly those listings. *)
Theorem transient_empty_page_is_retried
    (e0 listings : json) (lines0 lines1 : list output) (items : list json) :
  fetch_listings_from_page get 0 1 = (inr e0, lines0) ->
  truthy e0 = false ->
  fetch_listings_from_page get 1 1 = (inr listings, lines1) ->
  truthy listings = true ->
  iter listings = inr items ->
  exists s1 s2,
    iteration get initial = (Continue, s1) /\
    page_number s1 = 1%nat /\ retry_count s1 = 1%nat /\
    iteration get s1 = (Continue, s2) /\
    page_number s2 = 2%nat /\ retry_count s2 = 0%nat /\
    all_listings s2 = items /\ requested s2 = [1; 1]%nat /\
    (forall fuel, loop get (S (S fuel)) initial = loop get fuel s2) /\
    (forall fuel final,
       loop get fuel initial = Some (inr final) ->
       exists rest, all_listings final = (items ++ rest)%list) /\
    (forall e2 lines2,
       (forall call, fetch_listings_from_page get call 2 = (inr e2, lines2)) ->
       truthy e2 = false ->
       exists final,
         loop get 5 initial = Some (inr final) /\
         all_listings final = items /\
         requested final = [1; 1; 2; 2; 2]%nat).
Proof.
  intros H0 Hempty H1 Hfull Hitems.
  destruct (iteration_empty initial e0 lines0 H0 Hempty)
    as [s1 [E1 [P1 [R1 [A1 [T1 Q1]]]]]].
  cbn in E1, P1, R1, A1, Q1.
  assert (H1' : fetch_listings_from_page get
                  (List.length (requested s1)) (page_number s1)
                = (inr listings, lines1)).
  { rewrite Q1, P1. exact H1. }
  pose proof (iteration_listings s1 listings lines1 items H1' Hfull Hitems) as E2.
  rewrite P1, A1, Q1 in E2. cbn [app] in E2.
  eexists s1, _. split; [exact E1 |]. split; [exact P1 |]. split; [exact R1 |].
  split; [exact E2 |]. cbn [page_number retry_count all_listings requested].
  repeat split.
  - intros fuel. cbn [loop]. rewrite E1, E2. reflexivity.
  - intros fuel final Hrun.
    destruct fuel as [| [| fuel]].
    + discriminate.
    + cbn [loop] in Hrun. rewrite E1 in Hrun. discriminate.
    + cbn [loop] in Hrun. rewrite E1, E2 in Hrun.
      destruct (loop_extends _ _ _ Hrun) as [rest Hrest].
      exists rest. exact Hrest.
  - intros e2 lines2 F2 T2. cbn [loop]. rewrite E1, E2.
    unfold iteration at 1. cbn [page_number requested].
    rewrite F2, T2. cbn [negb retry_count Nat.add Nat.leb].
    unfold iteration at 1. cbn [page_number requested].
    rewrite F2, T2. cbn [negb retry_count Nat.add Nat.leb].
    unfold iteration at 1. cbn [page_number requested].
    rewrite F2, T2. cbn [negb retry_count Nat.add Nat.leb].
    eexists. split; [reflexivity |]. split; reflexivity.
Qed.
Lemma repeat_snoc {A} (x : A) n : (repeat x n ++ [x])%list = repeat x (S n).
Proof. induction n as [| n IH]; cbn; [reflexivity |]. rewrite IH. reflexivity. Qed.

(** What one pass does to the cursor. *)
Lemma iteration_cursor s st s' :
  iteration get s = (st, s') ->
  requested s' = (requested s ++ [page_number s])%list /\
  (page_number s' = page_number s \/ page_number s' = S (page_number s)) /\
  (page_number s' = S (page_number s) <->
   exists listings lines items,
     fetch_listings_from_page get (List.length (requested s)) (page_number s)
     = (inr listings, lines) /\
     truthy listings = true /\ iter listings = inr items /\
     all_listings s' = (all_listings s ++ items)%list) /\
  (forall listings lines,
     fetch_listings_from_page get (List.length (requested s)) (page_number s)
     = (inr listings, lines) ->
     truthy listings = false ->
     page_number s' = page_number s /\
     all_listings s' = all_listings s /\
     retry_count s' = S (retry_count s) /\
     (st = Break <-> (2 <= retry_count s)%nat) /\
     (st = Continue <-> (retry_count s < 2)%nat)).
Proof.
  unfold iteration.
  destruct (fetch_listings_from_page get _ _) as [[e | listings] lines] eqn:F;
    [ | destruct (truthy listings) eqn:T; cbn [negb];
        [ destruct (iter listings) as [e | items] eqn:I
        | destruct (Nat.leb_spec 3 (retry_count s + 1)) ] ];
    intros [= <- <-]; cbn;
    (repeat split; auto; try lia; try congruence;
     try (intros (l & ls & its & Hx & ? & ? & ?); congruence)).
  intros _. exists listings, lines, items. auto.
Qed.
(** C10. At the start of every pass of the loop: fewer than three empty
    fetches in a row have been made, all of them for the current page;
    every page below the cursor has been fetched with listings; the pass
    requests the current page; the cursor moves, by one, exactly when that
    fetch brings listings, and after an empty or failed fetch it stays
    (the same page is requested next) and the loop stops at the third one
    in a row. *)
Theorem cursor_advances_on_listings_only (s : state) :
  reachable get s ->
  (retry_count s <= 2)%nat /\
  (exists older,
     requested s = (older ++ repeat (page_number s) (retry_count s))%list) /\
  (forall p, (1 <= p < page_number s)%nat ->
     exists call listings lines,
       nth_error (requested s) call = Some p /\
       fetch_listings_from_page get call p = (inr listings, lines) /\
       truthy listings = true) /\
  (forall st s', iteration get s = (st, s') ->
     requested s' = (requested s ++ [page_number s])%list /\
     (page_number s' = page_number s \/ page_number s' = S (page_number s)) /\
     (page_number s' = S (page_number s) <->
      exists listings lines items,
        fetch_listings_from_page get (List.length (requested s)) (page_number s)
        = (inr listings, lines) /\
        truthy listings = true /\ iter listings = inr items /\
        all_listings s' = (all_listings s ++ items)%list) /\
     (forall listings lines,
        fetch_listings_from_page get (List.length (requested s)) (page_number s)
        = (inr listings, lines) ->
        truthy listings = false ->
        page_number s' = page_number s /\
        all_listings s' = all_listings s /\
        retry_count s' = S (retry_count s) /\
        (st = Break <-> (2 <= retry_count s)%nat) /\
        (st = Continue <-> (retry_count s < 2)%nat))).
Proof.
  intros Hreach.
  split; [| split; [| split]]; [| | | apply iteration_cursor].
  - (* the retry counter *)
    induction Hreach as [| s s' _ IH Hstep]; [cbn; lia |].
    destruct (iteration_cursor _ _ _ Hstep) as (_ & _ & Hmove & Hstay).
    unfold iteration in Hstep.
    destruct (fetch_listings_from_page get _ _) as [[e | listings] lines] eqn:F;
      [discriminate |].
    destruct (truthy listings) eqn:T; cbn [negb] in Hstep.
    + destruct (iter listings); [discriminate |].
      injection Hstep as <-. cbn. lia.
    + destruct (Hstay listings lines eq_refl T) as (_ & _ & Hr & _ & Hc).
      rewrite Hr. assert (retry_count s < 2)%nat by (apply Hc; reflexivity). lia.
  - (* the last requests are for the current page *)
    induction Hreach as [| s s' _ IH Hstep]; [exists []; reflexivity |].
    destruct IH as [older IH].
    destruct (iteration_cursor _ _ _ Hstep) as (Hreq & _ & Hmove & Hstay).
    unfold iteration in Hstep.
    destruct (fetch_listings_from_page get _ _) as [[e | listings] lines] eqn:F;
      [discriminate |].
    destruct (truthy listings) eqn:T; cbn [negb] in Hstep.
    + destruct (iter listings); [discriminate |].
      injection Hstep as <-. cbn. exists (requested s ++ [page_number s])%list.
      rewrite app_nil_r. reflexivity.
    + destruct (Hstay listings lines eq_refl T) as (Hp & _ & Hr & _).
      exists older. rewrite Hreq, Hp, Hr, IH, <- app_assoc, repeat_snoc.
      reflexivity.
  - (* no page below the cursor was skipped *)
    induction Hreach as [| s s' _ IH Hstep]; [cbn; intros p Hp; lia |].
    destruct (iteration_cursor _ _ _ Hstep) as (Hreq & _ & Hmove & Hstay).
    assert (Hold : forall p, (1 <= p < page_number s)%nat ->
              exists call listings lines,
                nth_error (requested s') call = Some p /\
                fetch_listings_from_page get call p = (inr listings, lines) /\
                truthy listings = true).
    { intros p Hp. destruct (IH p Hp) as (call & l & ls & Hn & Hf & Ht).
      exists call, l, ls. split; [| auto].
      rewrite Hreq. rewrite nth_error_app1; [exact Hn |].
      apply nth_error_Some. congruence. }
    unfold iteration in Hstep.
    destruct (fetch_listings_from_page get _ _) as [[e | listings] lines] eqn:F;
      [discriminate |].
    destruct (truthy listings) eqn:T; cbn [negb] in Hstep.
    + destruct (iter listings) as [e | items] eqn:I; [discriminate |].
      assert (Hp' : page_number s' = S (page_number s)).
      { apply Hmove. injection Hstep as <-. cbn.
        exists listings, lines, items. auto. }
      intros p Hp. rewrite Hp' in Hp.
      destruct (Nat.eq_dec p (page_number s)) as [-> | Hne].
      * exists (List.length (requested s)), listings, lines.
        split; [| auto]. rewrite Hreq.
        rewrite nth_error_app2 by lia. rewrite Nat.sub_diag. reflexivity.
      * apply Hold. lia.
    + destruct (Hstay listings lines eq_refl T) as (Hp' & _).
      intros p Hp. apply Hold. lia.
Qed.
End WithSite.

(** C3 on a site that answers the first call with an error page. *)
Lemma transient_empty_page_is_retried_witness :
  exists s1 s2,
    iteration Samples.hiccup initial = (Continue, s1) /\
    page_number s1 = 1%nat /\ retry_count s1 = 1%nat /\
    iteration Samples.hiccup s1 = (Continue, s2) /\
    page_number s2 = 2%nat /\ retry_count s2 = 0%nat /\
    all_listings s2 = [JDict Samples.marina; JDict Samples.anonymous] /\
    requested s2 = [1; 1]%nat /\
    (forall fuel,
       loop Samples.hiccup (S (S fuel)) initial = loop Samples.hiccup fuel s2) /\
    (forall fuel final,
       loop Samples.hiccup fuel initial = Some (inr final) ->
       exists rest,
         all_listings final
         = ([JDict Samples.marina; JDict Samples.anonymous] ++ rest)%list) /\
    (forall e2 lines2,
       (forall call,
          fetch_listings_from_page Samples.hiccup call 2 = (inr e2, lines2)) ->
       truthy e2 = false ->
       exists final,
         loop Samples.hiccup 5 initial = Some (inr final) /\
         all_listings final = [JDict Samples.marina; JDict Samples.anonymous] /\
         requested final = [1; 1; 2; 2; 2]%nat).
Proof.
  apply (transient_empty_page_is_retried Samples.hiccup JNull
           (JList [JDict Samples.marina; JDict Samples.anonymous])
           [FailedToRetrieve 1] []
           [JDict Samples.marina; JDict Samples.anonymous]);
    reflexivity.
Defined.

(** The whole run on that site: page 1 twice, then page 2 three times. *)
Example hiccup_run :
  exists final,
    loop Samples.hiccup 5 initial = Some (inr final) /\
    all_listings final = [JDict Samples.marina; JDict Samples.anonymous] /\
    requested final = [1; 1; 2; 2; 2]%nat /\
    slept final = [2; 1; 2; 2].
Proof. eexists. split; [vm_compute; reflexivity |]. repeat split. Qed.

(** C10 at the state reached after the failed first fetch. *)
Lemma cursor_advances_on_listings_only_witness :
  let s := snd (iteration Samples.hiccup initial) in
  (retry_count s <= 2)%nat /\
  (exists older,
     requested s = (older ++ repeat (page_number s) (retry_count s))%list) /\
  (forall p, (1 <= p < page_number s)%nat ->
     exists call listings lines,
       nth_error (requested s) call = Some p /\
       fetch_listings_from_page Samples.hiccup call p = (inr listings, lines) /\
       truthy listings = true) /\
  (forall st s', iteration Samples.hiccup s = (st, s') ->
     requested s' = (requested s ++ [page_number s])%list /\
     (page_number s' = page_number s \/ page_number s' = S (page_number s)) /\
     (page_number s' = S (page_number s) <->
      exists listings lines items,
        fetch_listings_from_page Samples.hiccup (List.length (requested s))
          (page_number s)
        = (inr listings, lines) /\
        truthy listings = true /\ iter listings = inr items /\
        all_listings s' = (all_listings s ++ items)%list) /\
     (forall listings lines,
        fetch_listings_from_page Samples.hiccup (List.length (requested s))
          (page_number s)
        = (inr listings, lines) ->
        truthy listings = false ->
        page_number s' = page_number s /\
        all_listings s' = all_listings s /\
        retry_count s' = S (retry_count s) /\
        (st = Break <-> (2 <= retry_count s)%nat) /\
        (st = Continue <-> (retry_count s < 2)%nat))).
Proof.
  apply (cursor_advances_on_listings_only Samples.hiccup
           (snd (iteration Samples.hiccup initial))).
  apply (reach_continue Samples.hiccup initial _ (reach_initial _)).
  reflexivity.
Defined.

(** A connection that drops is not caught: the exception leaves
    [scrape_properties], and the listings already gathered are not
    saved. *)
Example dropped_connection_ends_the_run :
  scrape_properties Samples.drops true 2
  = Some (inl (RequestException "Connection aborted")).
Proof. vm_compute. reflexivity. Qed.

End PropertyFinderFacts.

(* ===================================================================== *)
(** * Pagination and transport failures, on both scrapers *)
(* ===================================================================== *)

Module PaginationFacts.
Import Py Pandas Plan Bayut.

(** C4 does not hold on Bayut as the specification words it.  The three
    attempts for the first page of a band fail while the second page is
    there to be served: the band ends with nothing gathered and its second
    page is never requested, so the failure is fatal for the rest of the
    band and not for one request only. *)
Lemma failure_ends_the_band :
  let run :=
    page_loop Samples.first_page_down "budget"
      "purpose:for-rent AND price < 20000" 3 50 (seq 0 3) [] initial in
  fst run = inr [] /\
  map page (sent (snd run)) = [0; 0; 0]%nat /\
  slept (snd run) = [2; 4] /\
  Samples.first_page_down 3
    (request "purpose:for-rent AND price < 20000" 1 50)
  = inr (Samples.body [JDict Samples.marina]).
Proof. vm_compute. repeat split. Qed.

(** C4, amended.  When the three attempts for a page fail,
    [_make_request] raises and [scrape_listings] answers with the empty
    list; in the page loop of Bayut that empty page ends the pagination of
    the band at once: the listings gathered before are returned and no
    later page is requested.  The run never raises and goes through every
    band of the plan in order.  On PropertyFinder a response other than
    200 is an empty fetch: it is counted, the cursor stays on the page,
    and the loop only stops at the third empty fetch in a row. *)
Theorem transport_failure_is_an_empty_page
    (post : nat -> payload -> string + json) (now : nat -> datetime)
    (writable : string -> bool) (py_str : json -> string)
    (label cf : string) (max_pages hpp page : nat) (pages : list nat)
    (acc : list json) (s : state) (m0 m1 m2 : string)
    (get : nat -> nat -> result PropertyFinder.response)
    (r : PropertyFinder.response) (st : PropertyFinder.state) :
  post (List.length (sent s)) (request cf page hpp) = inl m0 ->
  post (S (List.length (sent s))) (request cf page hpp) = inl m1 ->
  post (S (S (List.length (sent s)))) (request cf page hpp) = inl m2 ->
  get (List.length (PropertyFinder.requested st)) (PropertyFinder.page_number st)
  = inr r ->
  PropertyFinder.status_code r <> 200 ->
  fst (_make_request post (request cf page hpp) s)
  = inl (RequestException m2) /\
  fst (scrape_listings post cf page hpp s) = inr (JList []) /\
  (exists s',
     page_loop post label cf max_pages hpp (page :: pages) acc s = (inr acc, s') /\
     sent s' = (sent s ++ [request cf page hpp; request cf page hpp;
                           request cf page hpp])%list /\
     slept s' = (slept s ++ [2; 4])%list) /\
  (forall base ranges s0,
     fst (scrape_ranges post now writable py_str base max_pages hpp ranges s0)
     = inr tt /\
     started (log (snd (scrape_ranges post now writable py_str base max_pages
                          hpp ranges s0)))
     = (started (log s0) ++ map Plan.label ranges)%list) /\
  (exists st',
     PropertyFinder.iteration get st
     = (if (3 <=? PropertyFinder.retry_count st + 1)%nat
        then PropertyFinder.Break else PropertyFinder.Continue, st') /\
     PropertyFinder.page_number st' = PropertyFinder.page_number st /\
     PropertyFinder.retry_count st' = S (PropertyFinder.retry_count st) /\
     PropertyFinder.all_listings st' = PropertyFinder.all_listings st).
Proof.
  intros E0 E1 E2 Hget Hstatus.
  pose proof (FetcherFacts.make_request_exhausted post _ s m0 m1 m2 E0 E1 E2)
    as Hraise.
  split; [rewrite Hraise; reflexivity |].
  split.
  { rewrite (FetcherFacts.scrape_listings_failure post cf page hpp s _ _ Hraise).
    reflexivity. }
  split.
  { eexists. split.
    - apply (FetcherFacts.page_loop_failure post label cf max_pages hpp page
               pages acc s m0 m1 m2 E0 E1 E2).
    - split; reflexivity. }
  split.
  { intros base ranges s0. apply FetcherFacts.scrape_ranges_spec. }
  pose proof (PropertyFinderFacts.fetch_not_ok get _ _ r Hget Hstatus) as Hfetch.
  destruct (PropertyFinderFacts.iteration_empty get st JNull _ Hfetch eq_refl)
    as (st' & Hit & Hp & Hr & Ha & _).
  exists st'. auto.
Qed.

(** The amended C4 where the first page of "budget" cannot be reached, and
    on a site that answers with an error page. *)
Lemma transport_failure_is_an_empty_page_witness :
  fst (scrape_listings Samples.first_page_down
         "purpose:for-rent AND price < 20000" 0 50 initial)
  = inr (JList []) /\
  (forall base ranges s0,
     fst (scrape_ranges Samples.first_page_down (fun _ => Samples.noon)
            (fun _ => true) Samples.sample_str base 3 50 ranges s0)
     = inr tt /\
     started (log (snd (scrape_ranges Samples.first_page_down
                          (fun _ => Samples.noon) (fun _ => true)
                          Samples.sample_str base 3 50 ranges s0)))
     = (started (log s0) ++ map Plan.label ranges)%list).
Proof.
  pose proof (transport_failure_is_an_empty_page
    Samples.first_page_down (fun _ => Samples.noon) (fun _ => true)
    Samples.sample_str "budget" "purpose:for-rent AND price < 20000"
    3 50 0 [1; 2]%nat [] initial
    "503 Server Error" "503 Server Error" "503 Server Error"
    Samples.hiccup Samples.unavailable PropertyFinder.initial
    eq_refl eq_refl eq_refl eq_refl ltac:(discriminate)) as H.
  split; [apply H | apply H].
Defined.

(** C8 does not hold on Bayut as the specification words it.  With the
    page cap at its default of one, the loop run against two pages of
    listings followed by an empty page yields the first page only. *)
Lemma page_cap_cuts_the_second_page :
  let source := Samples.paged [[JDict Samples.marina];
                               [JDict Samples.anonymous]; []] in
  let run :=
    page_loop source "budget" "purpose:for-rent AND price < 20000"
      1 50 (seq 0 1) [] initial in
  fst run = inr [JDict Samples.marina] /\
  fst run <> inr [JDict Samples.marina; JDict Samples.anonymous] /\
  map page (sent (snd run)) = [0]%nat.
Proof. vm_compute. repeat split. discriminate. Qed.

(** C8, amended.  Against a source with two pages of listings followed by
    an empty page, the page loop of Bayut yields the listings of the two
    pages in page order when its cap [max_pages] is at least 2, and
    requests the pages 0, 1 and, if the cap allows a third request, 2,
    nothing beyond.  The loop of PropertyFinder, which has no cap, yields
    the listings of pages 1 and 2 in order; it requests the empty page 3
    three times and no page beyond it. *)
Theorem two_pages_then_empty
    (post : nat -> payload -> string + json)
    (label cf : string) (max_pages hpp : nat) (s : state)
    (b0 b1 b2 hits2 : json) (l0 l1 : list json)
    (get : nat -> nat -> result PropertyFinder.response)
    (p1 p2 : list json) (e3 : json)
    (lines1 lines2 lines3 : list PropertyFinder.output) :
  (forall n, post n (request cf 0 hpp) = inr b0) ->
  attr_get b0 "hits" (JList []) = inr (JList l0) -> l0 <> [] ->
  (forall n, post n (request cf 1 hpp) = inr b1) ->
  attr_get b1 "hits" (JList []) = inr (JList l1) -> l1 <> [] ->
  (forall n, post n (request cf 2 hpp) = inr b2) ->
  attr_get b2 "hits" (JList []) = inr hits2 -> truthy hits2 = false ->
  (2 <= max_pages)%nat ->
  (forall call, PropertyFinder.fetch_listings_from_page get call 1
                = (inr (JList p1), lines1)) -> p1 <> [] ->
  (forall call, PropertyFinder.fetch_listings_from_page get call 2
                = (inr (JList p2), lines2)) -> p2 <> [] ->
  (forall call, PropertyFinder.fetch_listings_from_page get call 3
                = (inr e3, lines3)) -> truthy e3 = false ->
  (exists s',
     page_loop post label cf max_pages hpp (seq 0 max_pages) [] s
     = (inr (l0 ++ l1)%list, s') /\
     map page (sent s')
     = (map page (sent s) ++ firstn max_pages [0; 1; 2]%nat)%list) /\
  (exists final,
     PropertyFinder.loop get 5 PropertyFinder.initial = Some (inr final) /\
     PropertyFinder.all_listings final = (p1 ++ p2)%list /\
     PropertyFinder.requested final = [1; 2; 3; 3; 3]%nat).
Proof.
  intros H0 A0 N0 H1 A1 N1 H2 A2 T2 Hcap F1 M1 F2 M2 F3 T3. split.
  - destruct max_pages as [| [| m]]; try lia. cbn [seq].
    rewrite (FetcherFacts.page_loop_listings post label cf _ hpp 0 _ [] s b0 l0
               (H0 _) A0 N0).
    rewrite (FetcherFacts.page_loop_listings post label cf _ hpp 1 _ _ _ b1 l1
               (H1 _) A1 N1).
    destruct m as [| m]; cbn [seq].
    + eexists. split; [reflexivity |]. cbn.
      rewrite !map_app, <- app_assoc. reflexivity.
    + rewrite (FetcherFacts.page_loop_empty post label cf _ hpp 2 _ _ _ b2 hits2
                 (H2 _) A2 T2).
      eexists. split; [reflexivity |]. cbn. rewrite firstn_nil.
      rewrite !map_app, <- !app_assoc. reflexivity.
  - assert (Tp1 : truthy (JList p1) = true) by (destruct p1; [congruence | reflexivity]).
    assert (Tp2 : truthy (JList p2) = true) by (destruct p2; [congruence | reflexivity]).
    cbn [PropertyFinder.loop].
    unfold PropertyFinder.iteration at 1.
    cbn [PropertyFinder.page_number PropertyFinder.requested
         PropertyFinder.initial].
    rewrite F1, Tp1. cbn [negb iter].
    unfold PropertyFinder.iteration at 1.
    cbn [PropertyFinder.page_number PropertyFinder.requested Nat.add].
    rewrite F2, Tp2. cbn [negb iter].
    unfold PropertyFinder.iteration at 1.
    cbn [PropertyFinder.page_number PropertyFinder.requested Nat.add].
    rewrite F3, T3. cbn [negb PropertyFinder.retry_count Nat.add Nat.leb].
    unfold PropertyFinder.iteration at 1.
    cbn [PropertyFinder.page_number PropertyFinder.requested].
    rewrite F3, T3. cbn [negb PropertyFinder.retry_count Nat.add Nat.leb].
    unfold PropertyFinder.iteration at 1.
    cbn [PropertyFinder.page_number PropertyFinder.requested].
    rewrite F3, T3. cbn [negb PropertyFinder.retry_count Nat.add Nat.leb].
    eexists. split; [reflexivity |]. cbn. split; reflexivity.
Qed.

(** The amended C8 on a source with one listing on each of its two pages
    and a cap of 1000 pages, and on a site with two pages of results. *)
Lemma two_pages_then_empty_witness :
  (exists s',
     page_loop (Samples.paged [[JDict Samples.marina];
                               [JDict Samples.anonymous]; []])
       "budget" "purpose:for-rent AND price < 20000" 1000 50
       (seq 0 1000) [] initial
     = (inr [JDict Samples.marina; JDict Samples.anonymous], s') /\
     map page (sent s') = [0; 1; 2]%nat) /\
  (exists final,
     PropertyFinder.loop Samples.two_pages 5 PropertyFinder.initial
     = Some (inr final) /\
     PropertyFinder.all_listings final
     = [JDict Samples.marina; JDict Samples.anonymous] /\
     PropertyFinder.requested final = [1; 2; 3; 3; 3]%nat).
Proof.
  apply (two_pages_then_empty
           (Samples.paged [[JDict Samples.marina];
                           [JDict Samples.anonymous]; []])
           "budget" "purpose:for-rent AND price < 20000" 1000 50 initial
           (Samples.body [JDict Samples.marina])
           (Samples.body [JDict Samples.anonymous])
           (Samples.body []) (JList [])
           [JDict Samples.marina] [JDict Samples.anonymous]
           Samples.two_pages
           [JDict Samples.marina] [JDict Samples.anonymous] (JList [])
           [] [] []);
    try reflexivity; try discriminate; try lia.
Defined.

End PaginationFacts.

(* ===================================================================== *)
(** * Consolidation *)
(* ===================================================================== *)

Module ConsolidationFacts.
Import Py Pandas Bayut PandasFacts.

Lemma first_seen_all_seen seen l :
  (forall k, In k l -> In k seen) -> first_seen seen l = [].
Proof.
  induction l as [| k l IH]; intros H; cbn; [reflexivity |].
  assert (mem k seen = true) as -> by (apply mem_In; apply H; left; reflexivity).
  apply IH. intros k' Hk'. apply H. right. exact Hk'.
Qed.

Lemma first_seen_fresh seen l1 l2 :
  NoDup l1 -> (forall k, In k l1 -> ~ In k seen) ->
  first_seen seen (l1 ++ l2) = (l1 ++ first_seen (rev l1 ++ seen) l2)%list.
Proof.
  revert seen. induction l1 as [| k l1 IH]; intros seen Hnd Hfresh; cbn.
  - reflexivity.
  - inversion Hnd as [| ? ? Hk Hl1]; subst.
    assert (mem k seen = false) as ->
      by (apply mem_false_In; apply Hfresh; left; reflexivity).
    f_equal. rewrite IH; [| exact Hl1 |].
    + rewrite <- app_assoc. reflexivity.
    + intros k' Hk' [-> | Hs]; [contradiction |].
      apply (Hfresh k'); [right; exact Hk' | exact Hs].
Qed.

(** Frames with the same columns: the columns of their concatenation. *)
Lemma columns_concat_same (frames : list frame) f cols :
  NoDup cols ->
  (forall g, In g (f :: frames) -> columns g = cols) ->
  first_seen [] (flat_map columns (f :: frames)) = cols.
Proof.
  intros Hnd Hall. cbn [flat_map].
  rewrite (Hall f) by (left; reflexivity).
  rewrite first_seen_fresh; [| exact Hnd | intros k _ []].
  rewrite first_seen_all_seen; [apply app_nil_r |].
  intros k Hk. apply in_flat_map in Hk. destruct Hk as [g [Hg Hk]].
  rewrite (Hall g) in Hk by (right; exact Hg).
  apply in_or_app. left. apply in_rev in Hk. exact Hk.
Qed.

Lemma getitem_concat_same (frames : list frame) f cols k :
  NoDup cols ->
  (forall g, In g (f :: frames) -> columns g = cols) ->
  In k cols ->
  getitem (Pandas.concat (f :: frames)) k
  = inr (flat_map (column_or_nan k) (f :: frames)).
Proof.
  intros Hnd Hall Hk. unfold Pandas.concat.
  rewrite (columns_concat_same frames f cols Hnd Hall).
  rewrite (getitem_tabulate (fun k => flat_map (column_or_nan k) (f :: frames))).
  assert (mem k cols = true) as -> by (apply mem_In; exact Hk).
  reflexivity.
Qed.

Lemma column_or_nan_present df k s :
  getitem df k = inr s -> column_or_nan k df = s.
Proof. intros H. unfold column_or_nan. rewrite H. reflexivity. Qed.

Lemma nrows_first_column df k s rest :
  columns df = k :: rest -> getitem df k = inr s -> nrows df = List.length s.
Proof.
  destruct df as [| [c s'] df]; cbn; [discriminate |].
  intros [= -> _]. rewrite String.eqb_refl. intros [= ->]. reflexivity.
Qed.

Lemma getitem_column df k :
  In k (columns df) -> exists s, getitem df k = inr s.
Proof.
  intros H. destruct (getitem df k) as [e | s] eqn:E; [| eauto].
  exfalso. apply (proj1 (getitem_not_column df k)); eauto.
Qed.

(** [combine_csv_files] returns normally, whatever happens inside. *)
Lemma combine_returns writable input_folder output_file s :
  fst (combine_csv_files writable input_folder output_file s) = inr tt.
Proof.
  unfold combine_csv_files, try_except.
  match goal with
  | |- fst (match ?c with _ => _ end) = _ => destruct c as [[e | []] s']
  end; reflexivity.
Qed.

Lemma read_all_ok paths frames s :
  Forall2 (fun path df => lookup_file (files s) path = Some df /\ df <> [])
    paths frames ->
  read_all paths s = (inr frames, s).
Proof.
  induction 1 as [| path df paths frames [Hfile Hdf] _ IH]; cbn [read_all].
  - reflexivity.
  - unfold mbind. unfold read_csv at 1. rewrite Hfile.
    destruct df as [| c df]; [congruence |]. rewrite IH. reflexivity.
Qed.

(** Three units with the same columns and 5, 0 and 7 rows. *)
Lemma concat_5_0_7 (f1 f2 f3 : frame) :
  columns f1 = columns f2 -> columns f2 = columns f3 ->
  NoDup (columns f1) ->
  nrows f1 = 5%nat -> nrows f2 = 0%nat -> nrows f3 = 7%nat ->
  nrows (Pandas.concat [f1; f2; f3]) = 12%nat /\
  columns (Pandas.concat [f1; f2; f3]) = columns f1 /\
  (forall k s1 s2 s3,
     getitem f1 k = inr s1 -> getitem f2 k = inr s2 -> getitem f3 k = inr s3 ->
     getitem (Pandas.concat [f1; f2; f3]) k = inr (s1 ++ s2 ++ s3)%list).
Proof.
  intros C12 C23 Hnd R1 R2 R3.
  assert (Hall : forall g, In g [f1; f2; f3] -> columns g = columns f1).
  { intros g [<- | [<- | [<- | []]]]; congruence. }
  assert (Hcols : first_seen [] (flat_map columns [f1; f2; f3]) = columns f1)
    by (apply columns_concat_same; assumption).
  split; [| split].
  - destruct (columns f1) as [| k rest] eqn:Ecols.
    { destruct f1; [discriminate R1 | discriminate Ecols]. }
    destruct (getitem_column f1 k) as [s1 G1];
      [rewrite ?Ecols; left; reflexivity |].
    destruct (getitem_column f2 k) as [s2 G2];
      [rewrite <- C12, ?Ecols; left; reflexivity |].
    destruct (getitem_column f3 k) as [s3 G3];
      [rewrite <- C23, <- C12, ?Ecols; left; reflexivity |].
    rewrite (nrows_first_column f1 k s1 rest) in R1 by congruence.
    rewrite (nrows_first_column f2 k s2 rest) in R2 by congruence.
    rewrite (nrows_first_column f3 k s3 rest) in R3 by congruence.
    unfold Pandas.concat. rewrite Hcols. cbn [map nrows snd flat_map].
    rewrite (column_or_nan_present _ _ _ G1), (column_or_nan_present _ _ _ G2),
      (column_or_nan_present _ _ _ G3).
    rewrite !length_app, R1, R2, R3. reflexivity.
  - unfold Pandas.concat, columns at 1. rewrite Hcols, map_map. cbn.
    apply map_id.
  - intros k s1 s2 s3 G1 G2 G3.
    rewrite (getitem_concat_same [f2; f3] f1 (columns f1) k Hnd Hall).
    + cbn [flat_map].
      rewrite (column_or_nan_present _ _ _ G1), (column_or_nan_present _ _ _ G2),
        (column_or_nan_present _ _ _ G3), app_nil_r.
      reflexivity.
    + destruct (in_dec string_dec k (columns f1)) as [Hin | Hout]; [exact Hin |].
      exfalso. apply getitem_not_column in Hout. destruct Hout as [e He].
      congruence.
Qed.

(** C6 does not hold as the specification words it.  With no partition
    unit in the folder the consolidation logs a warning and returns; it
    raises no [IOError], and writes nothing. *)
Lemma no_units_is_a_warning :
  combine_csv_files (fun _ => true) "output/Bayut"
    "output/Bayut/Bayut-all_listings-rent_2025-03-09.csv" initial
  = (inr tt,
     {| sent := []; slept := []; log := [NoCsvFiles "output/Bayut"];
        files := []; clock_reads := 0 |}).
Proof. vm_compute. reflexivity. Qed.

(** C6, amended.  The consolidation never raises.  With no unit in the
    folder it logs a warning and writes nothing.  With units that all
    parse and a sink that can be written, it writes the concatenation of
    the units in the order in which the folder lists them.  Three units
    with the same columns and 5, 0 and 7 rows concatenate into 12 rows,
    each column being the three columns one after the other. *)
Theorem consolidation_in_discovery_order
    (writable : string -> bool) (input_folder output_file : string)
    (s : state) (frames : list frame) (f1 f2 f3 : frame) :
  Forall2 (fun path df => lookup_file (files s) path = Some df /\ df <> [])
    (List.filter (matches_csv input_folder) (map fst (files s))) frames ->
  writable output_file = true ->
  columns f1 = columns f2 -> columns f2 = columns f3 ->
  NoDup (columns f1) ->
  nrows f1 = 5%nat -> nrows f2 = 0%nat -> nrows f3 = 7%nat ->
  (forall w folder out s0,
     fst (combine_csv_files w folder out s0) = inr tt) /\
  (forall w folder out s0,
     List.filter (matches_csv folder) (map fst (files s0)) = [] ->
     combine_csv_files w folder out s0
     = (inr tt,
        {| sent := sent s0; slept := slept s0;
           log := (log s0 ++ [NoCsvFiles folder])%list;
           files := files s0; clock_reads := clock_reads s0 |})) /\
  (frames <> [] ->
   combine_csv_files writable input_folder output_file s
   = (inr tt,
      {| sent := sent s; slept := slept s;
         log := (log s ++ [FoundFiles (List.length frames);
                           Combined output_file])%list;
         files := store (files s) output_file (Pandas.concat frames);
         clock_reads := clock_reads s |})) /\
  nrows (Pandas.concat [f1; f2; f3]) = 12%nat /\
  columns (Pandas.concat [f1; f2; f3]) = columns f1 /\
  (forall k s1 s2 s3,
     getitem f1 k = inr s1 -> getitem f2 k = inr s2 -> getitem f3 k = inr s3 ->
     getitem (Pandas.concat [f1; f2; f3]) k = inr (s1 ++ s2 ++ s3)%list).
Proof.
  intros Hread Hw C12 C23 Hnd R1 R2 R3.
  split; [intros; apply combine_returns |].
  split.
  { intros w folder out s0 Hnone.
    unfold combine_csv_files, try_except, mbind, glob_csv.
    rewrite Hnone. reflexivity. }
  split; [| apply concat_5_0_7; assumption].
  intros Hsome.
  unfold combine_csv_files, try_except. unfold mbind at 1. unfold glob_csv.
  pose proof (Forall2_length Hread) as Hlen.
  destruct (List.filter (matches_csv input_folder) (map fst (files s)))
    as [| path paths] eqn:Epaths.
  { inversion Hread; subst. congruence. }
  rewrite FetcherFacts.info_then. unfold mbind at 1.
  rewrite (read_all_ok (path :: paths) frames); [| exact Hread].
  unfold mbind. unfold to_csv. cbn [files]. rewrite Hw.
  cbn [info fst snd log sent slept files clock_reads].
  rewrite Hlen, <- app_assoc. reflexivity.
Qed.

(** The amended C6 on a sink holding three units of 5, 0 and 7 rows. *)
Lemma consolidation_in_discovery_order_witness :
  let out := "output/Bayut/Bayut-all_listings-rent_2025-03-09.csv" in
  let units := map snd (files Samples.three_units) in
  combine_csv_files (fun _ => true) "output/Bayut" out Samples.three_units
  = (inr tt,
     {| sent := []; slept := [];
        log := [FoundFiles 3; Combined out];
        files := store (files Samples.three_units) out (Pandas.concat units);
        clock_reads := 0 |}) /\
  nrows (Pandas.concat units) = 12%nat.
Proof.
  cbv zeta.
  pose proof (consolidation_in_discovery_order (fun _ => true)
    "output/Bayut" "output/Bayut/Bayut-all_listings-rent_2025-03-09.csv"
    Samples.three_units (map snd (files Samples.three_units))
    (Samples.unit_of [11000; 12000; 13000; 14000; 15000])
    (Samples.unit_of [])
    (Samples.unit_of [36000; 37000; 38000; 39000; 40000; 41000; 42000])) as H.
  destruct H as (_ & _ & Hwrite & Hrows & _).
  - repeat constructor; discriminate.
  - reflexivity.
  - reflexivity.
  - reflexivity.
  - repeat constructor; cbn; intuition discriminate.
  - reflexivity.
  - reflexivity.
  - reflexivity.
  - split; [apply Hwrite; discriminate | exact Hrows].
Defined.

End ConsolidationFacts.

(* ===================================================================== *)
(** * The plan: bands and their files *)
(* ===================================================================== *)

Module BandFacts.
Import Py Plan Bayut PlanFacts.

(** X1. No price is in two bands of the plan, and every price that is not
    one of the thirteen uncovered thresholds is in exactly one band. *)
Theorem price_in_at_most_one_band (p : Z) :
  (forall r1 r2,
     In r1 price_ranges -> In r2 price_ranges ->
     satisfies p r1 = true -> satisfies p r2 = true -> r1 = r2) /\
  (~ In p uncovered_prices ->
   exists r, matching p = [r] /\ In r price_ranges /\ satisfies p r = true).
Proof.
  pose proof (matching_count p) as Hcount. split.
  - intros r1 r2 I1 I2 S1 S2.
    assert (M1 : In r1 (matching p)) by (apply filter_In; auto).
    assert (M2 : In r2 (matching p)) by (apply filter_In; auto).
    destruct (matching p) as [| a [| b l]].
    + contradiction.
    + destruct M1 as [<- | []]. destruct M2 as [<- | []]. reflexivity.
    + destruct (existsb (Z.eqb p) uncovered_prices); discriminate Hcount.
  - intros Hp.
    assert (E : existsb (Z.eqb p) uncovered_prices = false).
    { apply not_true_is_false. intros E. apply existsb_exists in E.
      destruct E as [c [Hc E]]. apply Z.eqb_eq in E. subst c. contradiction. }
    rewrite E in Hcount.
    destruct (matching p) as [| r [| b l]] eqn:M; try discriminate Hcount.
    exists r. split; [reflexivity |].
    assert (In r (matching p)) as Hr by (rewrite M; left; reflexivity).
    apply filter_In in Hr. exact Hr.
Qed.

Lemma price_in_at_most_one_band_witness :
  exists r, matching 150000 = [r] /\ In r price_ranges /\ satisfies 150000 r = true.
Proof.
  apply (price_in_at_most_one_band 150000).
  cbn. intuition discriminate.
Defined.

Lemma length_append (s t : string) :
  String.length (s ++ t) = (String.length s + String.length t)%nat.
Proof. induction s as [| c s IH]; cbn; [reflexivity | rewrite IH; reflexivity]. Qed.

Lemma append_cancel_r (s1 s2 t : string) : s1 ++ t = s2 ++ t -> s1 = s2.
Proof.
  revert s2. induction s1 as [| c s1 IH]; intros [| c' s2] H; cbn in H.
  - reflexivity.
  - exfalso. apply (f_equal String.length) in H. cbn in H.
    rewrite length_append in H. lia.
  - exfalso. apply (f_equal String.length) in H. cbn in H.
    rewrite length_append in H. lia.
  - injection H as -> H. f_equal. apply IH. exact H.
Qed.

Lemma output_path_unfold label max_pages :
  output_path label max_pages
  = "output/Bayut/bayut_listings_"
    ++ (label ++ ("_pages_" ++ str_of_nat max_pages ++ ".csv")).
Proof. reflexivity. Qed.

(** X2. The file of a band is named after its label, and two labels never
    give the same file; the labels of the plan are all different, so no
    band of a run overwrites the file of another. *)
Theorem bands_write_different_files (max_pages : nat) :
  (forall l1 l2,
     output_path l1 max_pages = output_path l2 max_pages -> l1 = l2) /\
  NoDup (map (fun r => output_path (label r) max_pages) price_ranges).
Proof.
  assert (Hinj : forall l1 l2,
            output_path l1 max_pages = output_path l2 max_pages -> l1 = l2).
  { intros l1 l2 H. rewrite !output_path_unfold in H.
    cbn [append] in H. injection H as H.
    apply append_cancel_r in H. exact H. }
  split; [exact Hinj |].
  assert (Hlabels : NoDup (map label price_ranges)).
  { cbn. repeat constructor; cbn; intuition discriminate. }
  revert Hlabels. generalize price_ranges as rs.
  induction rs as [| r rs IH]; cbn; intros Hnd; [constructor |].
  inversion Hnd as [| ? ? Hr Hrs]; subst.
  constructor; [| apply IH; exact Hrs].
  rewrite in_map_iff. intros [r' [Heq Hin]].
  apply Hinj in Heq. apply Hr. rewrite <- Heq. apply in_map. exact Hin.
Qed.

End BandFacts.

(* ===================================================================== *)
(** * Bayut: what a run requests, sleeps and writes *)
(* ===================================================================== *)

Module RunFacts.
Import Py Pandas Plan Bayut Views PandasFacts.

Section WithOracles.

Variable post : nat -> payload -> string + json.
Variable now : nat -> datetime.
Variable writable : string -> bool.
Variable py_str : json -> string.

(** What [_make_request] does to the state, by the number of attempts. *)
Lemma make_request_effects p s :
  exists n naps,
    (1 <= n <= 3)%nat /\
    sent (snd (_make_request post p s)) = (sent s ++ repeat p n)%list /\
    slept (snd (_make_request post p s)) = (slept s ++ naps)%list /\
    (naps = [] \/ naps = [2] \/ naps = [2; 4]) /\
    files (snd (_make_request post p s)) = files s /\
    match fst (_make_request post p s) with
    | inr body => post (List.length (sent s) + (n - 1))%nat p = inr body
    | inl _ =>
        n = 3%nat /\
        exists msg, post (List.length (sent s) + (n - 1))%nat p = inl msg
    end.
Proof.
  unfold _make_request. cbn [seq max_retries attempts].
  assert (A0 : (List.length (sent s) + 0 = List.length (sent s))%nat) by lia.
  assert (A1 : (List.length (sent s) + 1 = S (List.length (sent s)))%nat) by lia.
  assert (A2 : (List.length (sent s) + 2 = S (S (List.length (sent s))))%nat) by lia.
  destruct (post (List.length (sent s)) p) as [m0 | b0] eqn:E0.
  - cbn. rewrite ?TransportFacts.length_snoc.
    destruct (post (S (List.length (sent s))) p) as [m1 | b1] eqn:E1.
    + destruct (post (S (S (List.length (sent s)))) p) as [m2 | b2] eqn:E2;
        exists 3%nat, [2; 4]; cbn; rewrite <- !app_assoc; cbn; rewrite ?A2;
        repeat split; try lia; eauto.
    + exists 2%nat, [2]. cbn. rewrite <- !app_assoc. cbn. rewrite ?A1.
      repeat split; try lia; eauto.
  - exists 1%nat, []. cbn. rewrite ?A0, ?app_nil_r. repeat split; try lia; eauto.
Qed.

(** X3. [scrape_listings] never raises.  It posts its request one to
    three times and nothing else; its answer is the [hits] entry of the
    body received, and the empty list when the body has no such entry, is
    not a mapping, or never came. *)
Theorem scrape_listings_outcome (filters : string) (page hpp : nat) (s : state) :
  let r := scrape_listings post filters page hpp s in
  let req := request filters page hpp in
  exists hits n,
    fst r = inr hits /\
    (1 <= n <= 3)%nat /\
    sent (snd r) = (sent s ++ repeat req n)%list /\
    files (snd r) = files s /\
    match post (List.length (sent s) + (n - 1))%nat req with
    | inr (JDict d) => hits = get_default d "hits" (JList [])
    | inr _ => hits = JList []
    | inl _ => hits = JList [] /\ n = 3%nat
    end.
Proof.
  cbv zeta. unfold scrape_listings, try_except, mbind, lift.
  destruct (make_request_effects (request filters page hpp) s)
    as (n & naps & Hn & Hsent & _ & _ & Hfiles & Hres).
  destruct (_make_request post (request filters page hpp) s)
    as [[e | body] s'] eqn:E; cbn [fst snd] in *.
  - destruct Hres as [-> [msg Hmsg]].
    exists (JList []), 3%nat. cbn [ret info fst snd sent files].
    rewrite Hmsg. repeat split; auto; lia.
  - destruct body; cbn [attr_get ret info fst snd sent files];
      try (exists (JList []), n; rewrite Hres; repeat split; auto; lia).
    exists (get_default d "hits" (JList [])), n. rewrite Hres.
    repeat split; auto; lia.
Qed.

Lemma scrape_listings_effects filters page hpp s :
  exists hits n naps,
    scrape_listings post filters page hpp s
    = (inr hits, snd (scrape_listings post filters page hpp s)) /\
    (n <= 3)%nat /\
    sent (snd (scrape_listings post filters page hpp s))
    = (sent s ++ repeat (request filters page hpp) n)%list /\
    slept (snd (scrape_listings post filters page hpp s))
    = (slept s ++ naps)%list /\
    (naps = [] \/ naps = [2] \/ naps = [2; 4]) /\
    files (snd (scrape_listings post filters page hpp s)) = files s.
Proof.
  unfold scrape_listings, try_except, mbind, lift.
  destruct (make_request_effects (request filters page hpp) s)
    as (n & naps & Hn & Hsent & Hslept & Hnaps & Hfiles & _).
  destruct (_make_request post (request filters page hpp) s)
    as [[e | body] s']; cbn [fst snd] in *.
  - exists (JList []), n, naps. cbn [ret info fst snd sent slept files].
    repeat split; auto; lia.
  - destruct (attr_get body "hits" (JList [])) as [e | hits];
      [exists (JList []) | exists hits]; exists n, naps;
      cbn [ret info fst snd sent slept files]; repeat split; auto; lia.
Qed.

Lemma total_app l1 l2 : total (l1 ++ l2) = total l1 + total l2.
Proof. unfold total. induction l1 as [| x l1 IH]; cbn; [reflexivity | lia]. Qed.

(** The effects of the page loop, by induction on the pages allowed. *)
Lemma page_loop_effects (label cf : string) (max_pages hpp : nat)
    (pages : list nat) (acc : list json) (s : state) :
  let r := page_loop post label cf max_pages hpp pages acc s in
  exists posts naps,
    sent (snd r) = (sent s ++ posts)%list /\
    slept (snd r) = (slept s ++ naps)%list /\
    (List.length posts <= 3 * List.length pages)%nat /\
    Forall (fun p => In (page p) pages /\ filters p = cf /\
                     hitsPerPage p = hpp /\ query p = "") posts /\
    Forall (fun d => d = 1 \/ d = 2 \/ d = 4) naps /\
    total naps <= 7 * Z.of_nat (List.length pages) /\
    files (snd r) = files s /\
    match fst r with
    | inr all => exists more, all = (acc ++ more)%list
    | inl e => exists msg, e = TypeError msg
    end.
Proof.
  cbv zeta. revert acc s.
  induction pages as [| pg pages IH]; intros acc s.
  - exists [], []. cbn. rewrite !app_nil_r. repeat split; auto; try lia.
    exists []. rewrite app_nil_r. reflexivity.
  - remember (page_loop post label cf max_pages hpp (pg :: pages) acc s)
      as r eqn:Hr.
    cbn [page_loop] in Hr. rewrite FetcherFacts.info_then in Hr.
    set (s1 := {| sent := sent s; slept := slept s;
                  log := (log s ++ [ScrapingPage (pg + 1) max_pages label])%list;
                  files := files s; clock_reads := clock_reads s |}) in Hr.
    unfold mbind at 1 in Hr.
    destruct (scrape_listings_effects cf pg hpp s1)
      as (hits & n & naps & Heq & Hn & Hsent & Hslept & Hnaps & Hfiles).
    rewrite Heq in Hr.
    set (s2 := snd (scrape_listings post cf pg hpp s1)) in *.
    cbn [sent slept files] in Hsent, Hslept, Hfiles.
    assert (Hreq : Forall (fun p => In (page p) (pg :: pages) /\ filters p = cf /\
                                    hitsPerPage p = hpp /\ query p = "")
                     (repeat (request cf pg hpp) n)).
    { apply Forall_forall. intros p Hp. apply repeat_spec in Hp. subst p.
      cbn. auto. }
    assert (Hnaps' : Forall (fun d => d = 1 \/ d = 2 \/ d = 4) naps /\
                     total naps <= 6).
    { destruct Hnaps as [-> | [-> | ->]]; cbn; repeat constructor; auto; lia. }
    destruct Hnaps' as [Hnaps1 Hnaps2].
    destruct (negb (truthy hits)).
    + rewrite FetcherFacts.info_then in Hr. unfold ret in Hr. subst r.
      exists (repeat (request cf pg hpp) n), naps.
      cbn [fst snd sent slept files List.length].
      rewrite repeat_length. repeat split; auto; try lia.
      exists []. rewrite app_nil_r. reflexivity.
    + unfold mbind at 1 in Hr. unfold lift in Hr.
      destruct (iter hits) as [e | items] eqn:I.
      * subst r. exists (repeat (request cf pg hpp) n), naps.
        cbn [fst snd sent slept files List.length].
        rewrite repeat_length. repeat split; auto; try lia.
        destruct hits; cbn in I; try discriminate; injection I as <-; eauto.
      * unfold mbind at 1 in Hr. cbn [sleep fst snd] in Hr.
        match type of Hr with
        | _ = page_loop post label cf max_pages hpp pages ?a ?st =>
            destruct (IH a st)
              as (posts & naps' & Hs & Hl & Hlen & Hall & Hns & Htot & Hf & Hres)
        end.
        rewrite <- Hr in Hs, Hl, Hf, Hres. clear Hr.
        cbn [sent slept files] in Hs, Hl, Hf.
        exists (repeat (request cf pg hpp) n ++ posts)%list,
               (naps ++ 1 :: naps')%list.
        rewrite Hs, Hl, Hf, Hsent, Hslept, Hfiles.
        rewrite <- !app_assoc. cbn [app List.length].
        rewrite length_app, repeat_length, total_app. cbn [total fold_right].
        fold (total naps').
        repeat split; auto; try lia.
        -- apply Forall_app. split; [exact Hreq |].
           revert Hall. apply Forall_impl. intros p (Hp & ?). cbn. auto.
        -- apply Forall_app. split; [exact Hnaps1 |]. constructor; auto.
        -- destruct (fst r); [exact Hres |].
           destruct Hres as [more ->]. exists (items ++ more)%list.
           rewrite app_assoc. reflexivity.
Qed.

(** X4. Whatever the source answers, the page loop of a band posts at
    most three requests per page allowed, all of them with the filter of
    the band, its page size and a page within the cap; it sleeps 1, 2 or
    4 seconds at a time and at most seven seconds per page allowed; it
    writes no file; what it returns begins with what was gathered before,
    and the only exception it can raise is the [TypeError] of hits that
    cannot be iterated. *)
Theorem page_loop_bounded (label cf : string) (max_pages hpp : nat)
    (pages : list nat) (acc : list json) (s : state) :
  let r := page_loop post label cf max_pages hpp pages acc s in
  exists posts naps,
    sent (snd r) = (sent s ++ posts)%list /\
    slept (snd r) = (slept s ++ naps)%list /\
    (List.length posts <= 3 * List.length pages)%nat /\
    Forall (fun p => In (page p) pages /\ filters p = cf /\
                     hitsPerPage p = hpp /\ query p = "") posts /\
    Forall (fun d => d = 1 \/ d = 2 \/ d = 4) naps /\
    total naps <= 7 * Z.of_nat (List.length pages) /\
    files (snd r) = files s /\
    match fst r with
    | inr all => exists more, all = (acc ++ more)%list
    | inl e => exists msg, e = TypeError msg
    end.
Proof. apply page_loop_effects. Qed.


Lemma skipn_cons {A} (a : nat) (l : list A) x rest d :
  skipn a l = x :: rest -> nth a l d = x /\ skipn (S a) l = rest.
Proof.
  revert l. induction a as [| a IH]; intros [| y l] H; cbn in *;
    try discriminate.
  - injection H as -> ->. auto.
  - apply IH. exact H.
Qed.

Lemma skipn_nil_nth {A} (a : nat) (l : list A) d :
  skipn a l = [] -> nth a l d = d.
Proof.
  revert l. induction a as [| a IH]; intros [| y l] H; cbn in *;
    try discriminate; auto.
Qed.

End WithOracles.

(** The page loop against a source that serves pages of listings. *)
Lemma page_loop_paged (contents : list (list json)) label cf max_pages hpp
    (m a : nat) (acc : list json) (s : state) :
  exists s',
    page_loop (Samples.paged contents) label cf max_pages hpp (seq a m) acc s
    = (inr (acc ++ List.concat (leading (firstn m (skipn a contents))))%list, s') /\
    map page (sent s')
    = (map page (sent s)
       ++ seq a (Nat.min m (S (List.length
                                 (leading (firstn m (skipn a contents)))))))%list.
Proof.
  revert a acc s. induction m as [| m IH]; intros a acc s.
  - exists s. cbn. rewrite !app_nil_r. auto.
  - cbn [seq].
    assert (Hpost : forall n,
              Samples.paged contents n (request cf a hpp)
              = inr (Samples.body (nth a contents []))) by reflexivity.
    destruct (skipn a contents) as [| x rest] eqn:E.
    + rewrite (skipn_nil_nth a contents [] E) in Hpost.
      rewrite (FetcherFacts.page_loop_empty _ label cf max_pages hpp a _ acc s
                 _ (JList []) (Hpost _) eq_refl eq_refl).
      eexists. split; [cbn; rewrite app_nil_r; reflexivity |].
      cbn. rewrite map_app, Nat.min_0_r. reflexivity.
    + destruct (skipn_cons a contents x rest [] E) as [Hx Hrest].
      rewrite Hx in Hpost.
      destruct x as [| y x].
      * rewrite (FetcherFacts.page_loop_empty _ label cf max_pages hpp a _ acc s
                   _ (JList []) (Hpost _) eq_refl eq_refl).
        eexists. split; [cbn; rewrite app_nil_r; reflexivity |].
        cbn. rewrite map_app, Nat.min_0_r. reflexivity.
      * rewrite (FetcherFacts.page_loop_listings _ label cf max_pages hpp a _ acc s
                   _ (y :: x) (Hpost _) eq_refl ltac:(discriminate)).
        match goal with
        | |- context [page_loop _ label cf max_pages hpp (seq (S a) m) ?c ?st] =>
            destruct (IH (S a) c st) as [s' [Hrun Hsent]]
        end.
        rewrite Hrest in Hrun, Hsent.
        exists s'. split.
        -- rewrite Hrun. cbn [firstn leading List.concat].
           rewrite <- app_assoc. reflexivity.
        -- rewrite Hsent. cbn [sent firstn leading List.length Nat.min].
           rewrite map_app, <- app_assoc. reflexivity.
Qed.

(** X5. Run against a source that serves the pages [contents] and nothing
    after them, the page loop of a band yields the listings of the pages
    that come before the first empty page and within the cap, in page
    order; it requests those pages and, if the cap allows one more
    request, the empty page that ends the band, and no page beyond. *)
Theorem page_loop_yields_leading_pages
    (contents : list (list json)) (label cf : string)
    (max_pages hpp : nat) (s : state) :
  exists s',
    page_loop (Samples.paged contents) label cf max_pages hpp
      (seq 0 max_pages) [] s
    = (inr (List.concat (leading (firstn max_pages contents))), s') /\
    map page (sent s')
    = (map page (sent s)
       ++ seq 0 (Nat.min max_pages
                   (S (List.length (leading (firstn max_pages contents))))))%list.
Proof.
  exact (page_loop_paged contents label cf max_pages hpp max_pages 0 [] s).
Qed.

Section Sink.

Variable post : nat -> payload -> string + json.
Variable now : nat -> datetime.
Variable writable : string -> bool.
Variable py_str : json -> string.

Lemma select_columns df names out :
  select df names = inr out ->
  forall c, In c (columns out) <-> In c names.
Proof.
  revert out. induction names as [| k names IH]; intros out; cbn [select].
  - intros [= <-]. reflexivity.
  - destruct (List.filter (named k) df) as [| c0 cs] eqn:F; [discriminate |].
    destruct (select df names) as [e | rest]; cbn [bind]; [discriminate |].
    intros [= <-] c.
    change (In c (columns ((c0 :: cs) ++ rest)%list) <-> k = c \/ In c names).
    assert (Hsplit : columns ((c0 :: cs) ++ rest)%list
                     = (map fst (c0 :: cs) ++ columns rest)%list)
      by (unfold columns; apply map_app).
    rewrite Hsplit, in_app_iff, (IH rest eq_refl c).
    assert (Hall : forall x, In x (c0 :: cs) -> fst x = k).
    { intros x Hx. rewrite <- F in Hx. apply filter_In in Hx.
      destruct Hx as [_ Hx]. apply String.eqb_eq in Hx. exact Hx. }
    split.
    + intros [Hc | Hc]; [| auto].
      apply in_map_iff in Hc. destruct Hc as [x [<- Hx]].
      left. symmetry. apply Hall. exact Hx.
    + intros [<- | Hc]; [| auto].
      left. apply in_map_iff. exists c0. split; [| left; reflexivity].
      apply Hall. left. reflexivity.
Qed.

Lemma columns_filter_rows df mask : columns (filter_rows df mask) = columns df.
Proof. unfold columns, filter_rows. rewrite map_map. reflexivity. Qed.

(** The frame the block builds, when it builds one, has the desired
    columns and no other. *)
Lemma normalize_columns t hits out :
  normalize py_str t hits = inr out ->
  forall c, In c (columns out) <-> In c desired_columns.
Proof.
  unfold normalize, only_dubai.
  destruct (flatten py_str (strftime t) hits) as [e | df] eqn:F;
    cbn [bind]; [discriminate |].
  destruct (getitem df "CityName"); cbn [bind]; [discriminate |].
  intros [= <-] c. rewrite columns_filter_rows.
  unfold flatten in F.
  destruct (as_records hits); cbn [bind] in F; [discriminate |].
  repeat match type of F with
    | bind ?x _ = _ => destruct x; cbn [bind] in F; [discriminate |]
    end.
  apply (select_columns _ _ _ F).
Qed.

Lemma lookup_file_store fs path df q :
  lookup_file (store fs path df) q
  = if String.eqb path q then Some df else lookup_file fs q.
Proof.
  induction fs as [| [p d] fs IH]; cbn.
  - destruct (String.eqb path q); reflexivity.
  - destruct (String.eqb_spec p path) as [-> | Hne]; cbn.
    + destruct (String.eqb path q); reflexivity.
    + destruct (String.eqb_spec p q) as [-> | Hq].
      * destruct (String.eqb_spec path q) as [-> | _]; [congruence | reflexivity].
      * exact IH.
Qed.

Lemma attempts_clock todo p s :
  clock_reads (snd (attempts post todo p s)) = clock_reads s.
Proof.
  revert s. induction todo as [| a todo IH]; intros s; cbn [attempts].
  - reflexivity.
  - destruct (post (List.length (sent s)) p); [| reflexivity].
    rewrite FetcherFacts.info_then.
    destruct (a <? max_retries - 1)%nat; [| reflexivity].
    unfold mbind at 1. cbn [sleep]. rewrite IH. reflexivity.
Qed.

Lemma scrape_listings_clock filters page hpp s :
  clock_reads (snd (scrape_listings post filters page hpp s)) = clock_reads s.
Proof.
  unfold scrape_listings, try_except, mbind, lift, _make_request.
  pose proof (attempts_clock (seq 0 max_retries)
                (request filters page hpp) s) as H.
  destruct (attempts post (seq 0 max_retries) (request filters page hpp) s)
    as [[e | body] s']; cbn [snd] in H.
  - cbn. exact H.
  - destruct (attr_get body "hits" (JList [])); cbn; exact H.
Qed.

Lemma page_loop_clock label cf max_pages hpp pages acc s :
  clock_reads (snd (page_loop post label cf max_pages hpp pages acc s))
  = clock_reads s.
Proof.
  revert acc s. induction pages as [| pg pages IH]; intros acc s;
    cbn [page_loop]; [reflexivity |].
  rewrite FetcherFacts.info_then. unfold mbind at 1.
  match goal with
  | |- context [scrape_listings post cf pg hpp ?st] =>
      pose proof (scrape_listings_clock cf pg hpp st) as H;
      destruct (scrape_listings post cf pg hpp st) as [[e | hits] s1]
  end; cbn [snd clock_reads] in H; [exact H |].
  destruct (negb (truthy hits)); [exact H |].
  unfold mbind at 1, lift. destruct (iter hits); [exact H |].
  unfold mbind at 1. cbn [sleep]. rewrite IH. exact H.
Qed.

(** One band behind its guard: what it posts, sleeps, reads and
    writes. *)
Lemma scrape_range_guarded_effects base max_pages hpp r s :
  exists posts naps,
    sent (snd (scrape_range_guarded post now writable py_str base
                 max_pages hpp r s)) = (sent s ++ posts)%list /\
    slept (snd (scrape_range_guarded post now writable py_str base
                  max_pages hpp r s)) = (slept s ++ naps)%list /\
    (List.length posts <= 3 * max_pages)%nat /\
    Forall (fun p => (page p < max_pages)%nat /\
                     filters p = base ++ " AND " ++ render_filter (filter r) /\
                     hitsPerPage p = hpp) posts /\
    total naps <= 7 * Z.of_nat max_pages /\
    (clock_reads s
     <= clock_reads (snd (scrape_range_guarded post now writable py_str base
                            max_pages hpp r s))
     <= clock_reads s + 1)%nat /\
    (files (snd (scrape_range_guarded post now writable py_str base
                   max_pages hpp r s)) = files s \/
     exists df,
       files (snd (scrape_range_guarded post now writable py_str base
                     max_pages hpp r s))
       = store (files s) (output_path (label r) max_pages) df /\
       forall c, In c (columns df) <-> In c desired_columns).
Proof.
  remember (scrape_range_guarded post now writable py_str base
              max_pages hpp r s) as run eqn:Hrun.
  unfold scrape_range_guarded, try_except, scrape_range in Hrun.
  rewrite FetcherFacts.info_then in Hrun. unfold mbind at 1 in Hrun.
  match type of Hrun with
  | context [page_loop post ?l ?cf ?mp ?h ?pages ?acc ?st] =>
      destruct (page_loop_effects post l cf mp h pages acc st)
        as (posts & naps & Hs & Hl & Hlen & Hall & _ & Htot & Hf & _);
      pose proof (page_loop_clock l cf mp h pages acc st) as Hc;
      destruct (page_loop post l cf mp h pages acc st) as [[e | all] s1]
  end; cbn [fst snd sent slept files clock_reads] in Hs, Hl, Hf, Hc.
  all: rewrite length_seq in Hlen, Htot.
  all: assert (Hall' : Forall (fun p => (page p < max_pages)%nat /\
                     filters p = base ++ " AND " ++ render_filter (filter r) /\
                     hitsPerPage p = hpp) posts)
         by (revert Hall; apply Forall_impl; intros p (Hp & Hq & Hh & _);
             apply in_seq in Hp; repeat split; auto; lia).
  all: exists posts, naps.
  - subst run. cbn [info snd sent slept files clock_reads].
    repeat split; auto; lia.
  - destruct all as [| x all].
    + subst run. cbn [info fst snd sent slept files clock_reads].
      repeat split; auto; lia.
    + unfold mbind at 1 in Hrun. unfold read_clock at 1 in Hrun.
      unfold mbind at 1 in Hrun. unfold lift at 1 in Hrun.
      destruct (normalize py_str _ (x :: all)) as [e | df] eqn:N.
      * subst run. cbn [info snd sent slept files clock_reads].
        repeat split; auto; lia.
      * unfold mbind at 1 in Hrun. unfold to_csv at 1 in Hrun.
        cbn [files] in Hrun.
        destruct (writable _).
        -- subst run. cbn [info fst snd sent slept files clock_reads].
           repeat split; auto; try lia.
           right. exists df. rewrite Hf.
           split; [reflexivity |]. apply (normalize_columns _ _ _ N).
        -- subst run. cbn [info snd sent slept files clock_reads].
           repeat split; auto; lia.
Qed.

(** X6. A band writes at most one file, its own, and only with the
    desired columns; every other file of the sink is left as it was,
    whatever happens while the band is scraped. *)
Theorem band_touches_its_own_file
    (base : string) (max_pages hpp : nat) (r : Plan.price_range) (s : state) :
  let s' := snd (scrape_range_guarded post now writable py_str base
                   max_pages hpp r s) in
  (files s' = files s \/
   exists df,
     files s' = store (files s) (output_path (label r) max_pages) df /\
     forall c, In c (columns df) <-> In c desired_columns) /\
  (forall path,
     path <> output_path (label r) max_pages ->
     lookup_file (files s') path = lookup_file (files s) path).
Proof.
  cbv zeta.
  destruct (scrape_range_guarded_effects base max_pages hpp r s)
    as (_ & _ & _ & _ & _ & _ & _ & _ & H).
  split; [exact H |].
  intros path Hpath. destruct H as [-> | [df [-> _]]]; [reflexivity |].
  rewrite lookup_file_store.
  destruct (String.eqb_spec (output_path (label r) max_pages) path);
    [congruence | reflexivity].
Qed.

Lemma scrape_ranges_effects base max_pages hpp ranges s :
  exists posts naps,
    sent (snd (scrape_ranges post now writable py_str base
                 max_pages hpp ranges s)) = (sent s ++ posts)%list /\
    slept (snd (scrape_ranges post now writable py_str base
                  max_pages hpp ranges s)) = (slept s ++ naps)%list /\
    (List.length posts <= 3 * (max_pages * List.length ranges))%nat /\
    Forall (fun p => (page p < max_pages)%nat /\ hitsPerPage p = hpp /\
                     exists r, In r ranges /\
                       filters p = base ++ " AND " ++ render_filter (filter r))
      posts /\
    total naps <= 7 * Z.of_nat (max_pages * List.length ranges) /\
    (clock_reads s
     <= clock_reads (snd (scrape_ranges post now writable py_str base
                            max_pages hpp ranges s))
     <= clock_reads s + List.length ranges)%nat /\
    (forall path,
       (forall r, In r ranges -> path <> output_path (label r) max_pages) ->
       lookup_file (files (snd (scrape_ranges post now writable py_str base
                                  max_pages hpp ranges s))) path
       = lookup_file (files s) path).
Proof.
  revert s. induction ranges as [| r ranges IH]; intros s.
  - exists [], []. cbn [scrape_ranges ret snd List.length].
    rewrite !app_nil_r, Nat.mul_0_r.
    repeat split; auto; try (cbn; lia).
  - remember (scrape_ranges post now writable py_str base max_pages hpp
                (r :: ranges) s) as run eqn:Hrun.
    cbn [scrape_ranges] in Hrun. unfold mbind in Hrun.
    destruct (scrape_range_guarded_effects base max_pages hpp r s)
      as (posts & naps & Hs & Hl & Hlen & Hall & Htot & Hc & Hf).
    pose proof (FetcherFacts.scrape_range_guarded_spec post now writable py_str
                  base max_pages hpp r s) as [_ [Hret _]].
    destruct (scrape_range_guarded post now writable py_str base
                max_pages hpp r s) as [[e | []] s1];
      cbn [fst snd] in *; [discriminate |].
    destruct (IH s1)
      as (posts' & naps' & Hs' & Hl' & Hlen' & Hall' & Htot' & Hc' & Hf').
    rewrite <- Hrun in Hs', Hl', Hc', Hf'. clear Hrun.
    exists (posts ++ posts')%list, (naps ++ naps')%list.
    rewrite Hs', Hl', Hs, Hl, <- !app_assoc, length_app, total_app.
    cbn [List.length]. rewrite Nat.mul_succ_r.
    repeat split; auto; try lia.
    + apply Forall_app. split.
      * revert Hall. apply Forall_impl. intros p (Hp & Hq & Hh).
        repeat split; auto. exists r. split; [left; reflexivity | exact Hq].
      * revert Hall'. apply Forall_impl. intros p (Hp & Hh & r' & Hr' & Hq).
        repeat split; auto. exists r'. split; [right; exact Hr' | exact Hq].
    + intros path Hpath. rewrite Hf' by (intros r' Hr'; apply Hpath; right; exact Hr').
      destruct Hf as [-> | [df [-> _]]]; [reflexivity |].
      rewrite lookup_file_store.
      destruct (String.eqb_spec (output_path (label r) max_pages) path)
        as [E | _]; [| reflexivity].
      exfalso. apply (Hpath r); [left; reflexivity | symmetry; exact E].
Qed.

(** X7. The cost of a whole scrape, whatever the source answers: with a
    cap of [max_pages] pages, the fifteen bands together post at most
    [45 * max_pages] requests, each for a page below the cap, with the
    page size asked and the base filter joined to the filter of a band of
    the plan; they sleep at most [105 * max_pages] seconds, read the clock
    at most fifteen times, and leave every file that is not the file of
    a band as it was. *)
Theorem price_range_scrape_budget
    (base : string) (max_pages hpp : nat) (s : state) :
  let s' := snd (price_range_scrape post now writable py_str base
                   max_pages hpp s) in
  exists posts naps,
    sent s' = (sent s ++ posts)%list /\
    slept s' = (slept s ++ naps)%list /\
    (List.length posts <= 45 * max_pages)%nat /\
    Forall (fun p => (page p < max_pages)%nat /\ hitsPerPage p = hpp /\
                     exists r, In r price_ranges /\
                       filters p = base ++ " AND " ++ render_filter (filter r))
      posts /\
    total naps <= 105 * Z.of_nat max_pages /\
    (clock_reads s <= clock_reads s' <= clock_reads s + 15)%nat /\
    (forall path,
       (forall r, In r price_ranges ->
                  path <> output_path (label r) max_pages) ->
       lookup_file (files s') path = lookup_file (files s) path).
Proof.
  cbv zeta. unfold price_range_scrape.
  destruct (scrape_ranges_effects base max_pages hpp price_ranges s)
    as (posts & naps & Hs & Hl & Hlen & Hall & Htot & Hc & Hf).
  exists posts, naps.
  change (List.length price_ranges) with 15%nat in *.
  repeat split; auto; try lia.
Qed.

End Sink.

End RunFacts.

(* ===================================================================== *)
(** * Bayut: the rows a band keeps *)
(* ===================================================================== *)

Module RowFacts.
Import Py Pandas Plan Bayut Row Views PandasFacts NormalizerFacts.

Lemma keep_map {A} (p : A -> bool) (g : A -> cell) (l : list A) :
  keep (map p l) (map g l) = map g (List.filter p l).
Proof.
  induction l as [| x l IH]; cbn; [reflexivity |].
  destruct (p x); cbn; rewrite IH; reflexivity.
Qed.

Lemma only_dubai_frame_of py_str date (records : list dict) :
  only_dubai (frame_of py_str date records)
  = inr (frame_of py_str date (List.filter in_dubai records)).
Proof.
  unfold only_dubai.
  assert (Hcity : getitem (frame_of py_str date records) "CityName"
                  = inr (map (fun d => snd (location_at 1 d)) records))
    by reflexivity.
  rewrite Hcity. cbn [bind]. f_equal.
  unfold filter_rows, frame_of. rewrite map_map. apply map_ext.
  intros [k f]. cbn [fst snd]. f_equal.
  rewrite map_map.
  apply (keep_map (fun d => eq_str "Dubai" (snd (location_at 1 d))) f records).
Qed.

Lemma normalize_rows py_str now hits records :
  as_records hits = inr records ->
  complete records = true ->
  Forall (fun d => well_typed d = true) records ->
  normalize py_str now hits
  = inr (frame_of py_str (strftime now) (List.filter in_dubai records)).
Proof.
  intros Hrec Hc Hwt. unfold normalize.
  rewrite (flatten_rows py_str (strftime now) hits records Hrec Hc Hwt).
  cbn [bind]. apply only_dubai_frame_of.
Qed.

Lemma nrows_frame_of py_str date records :
  nrows (frame_of py_str date records) = List.length records.
Proof. cbn. apply length_map. Qed.

Lemma map_constant {A B} (f : A -> B) (c : B) (l : list A) :
  (forall x, In x l -> f x = c) -> map f l = repeat c (List.length l).
Proof.
  induction l as [| x l IH]; intros H; cbn; [reflexivity |].
  rewrite (H x) by (left; reflexivity).
  rewrite IH by (intros y Hy; apply H; right; exact Hy). reflexivity.
Qed.

(** A listing is in Dubai when its walk at level 1 returns that name. *)
Lemma in_dubai_walk d :
  in_dubai d = true <->
  exists id,
    extract_location_details (entry "location" d) 1
    = inr (id, Obj (JStr "Dubai")).
Proof.
  unfold in_dubai, location_at. split.
  - destruct (extract_location_details (entry "location" d) 1)
      as [e | [id name]]; cbn; [discriminate |].
    destruct name as [| v | |]; try discriminate.
    destruct v; try discriminate.
    intros H. apply String.eqb_eq in H. subst. eauto.
  - intros [id ->]. reflexivity.
Qed.

(** The city and the stamp of the rows kept. *)
Lemma dubai_columns py_str date (records : list dict) :
  getitem (frame_of py_str date (List.filter in_dubai records)) "CityName"
  = inr (repeat (Obj (JStr "Dubai"))
           (List.length (List.filter in_dubai records))) /\
  getitem (frame_of py_str date (List.filter in_dubai records)) "scrape_date"
  = inr (repeat (Obj (JStr date))
           (List.length (List.filter in_dubai records))).
Proof.
  split.
  - change (getitem (frame_of py_str date (List.filter in_dubai records))
              "CityName")
      with (@inr exn series
              (map (fun d => snd (location_at 1 d))
                 (List.filter in_dubai records))).
    f_equal. apply map_constant. intros d Hd.
    apply filter_In in Hd. destruct Hd as [_ Hd].
    unfold in_dubai, eq_str in Hd.
    destruct (snd (location_at 1 d)) as [| v | |]; try discriminate.
    destruct v; try discriminate.
    apply String.eqb_eq in Hd. subst. reflexivity.
  - change (getitem (frame_of py_str date (List.filter in_dubai records))
              "scrape_date")
      with (@inr exn series
              (map (fun _ : dict => Obj (JStr date))
                 (List.filter in_dubai records))).
    f_equal. apply map_constant. reflexivity.
Qed.

Lemma as_records_length hits records :
  as_records hits = inr records -> List.length hits = List.length records.
Proof.
  revert records. induction hits as [| h hits IH]; intros records Hrec;
    cbn in Hrec.
  - injection Hrec as <-. reflexivity.
  - destruct h; try discriminate.
    destruct (as_records hits) as [e | ds]; cbn in Hrec; [discriminate |].
    injection Hrec as <-. cbn. f_equal. apply IH. reflexivity.
Qed.

(** X8. Line 240 keeps the rows whose city, the name the walk returns for
    level 1, is the string Dubai, and drops every other listing, city
    unknown included: on a complete batch of well-typed listings the
    frame of a band has one row for each listing in Dubai, never more
    rows than listings, and every row has Dubai as its city and the stamp
    of the band. *)
Theorem normalize_keeps_dubai_only
    (py_str : json -> string) (now : datetime)
    (hits : list json) (records : list dict) :
  as_records hits = inr records ->
  complete records = true ->
  Forall (fun d => well_typed d = true) records ->
  (forall d,
     in_dubai d = true <->
     exists id,
       extract_location_details (entry "location" d) 1
       = inr (id, Obj (JStr "Dubai"))) /\
  exists out,
    normalize py_str now hits = inr out /\
    nrows out = List.length (List.filter in_dubai records) /\
    (nrows out <= List.length hits)%nat /\
    getitem out "CityName" = inr (repeat (Obj (JStr "Dubai")) (nrows out)) /\
    getitem out "scrape_date"
    = inr (repeat (Obj (JStr (strftime now))) (nrows out)).
Proof.
  intros Hrec Hc Hwt. split; [exact in_dubai_walk |].
  eexists. split; [apply (normalize_rows _ _ _ _ Hrec Hc Hwt) |].
  rewrite nrows_frame_of.
  split; [reflexivity |]. split.
  - rewrite (as_records_length _ _ Hrec). apply filter_length_le.
  - apply dubai_columns.
Qed.

Lemma normalize_keeps_dubai_only_witness :
  (forall d,
     in_dubai d = true <->
     exists id,
       extract_location_details (entry "location" d) 1
       = inr (id, Obj (JStr "Dubai"))) /\
  exists out,
    normalize Samples.sample_str Samples.noon
      [JDict Samples.marina; JDict Samples.abroad; JDict Samples.anonymous]
    = inr out /\
    nrows out
    = List.length (List.filter in_dubai
                     [Samples.marina; Samples.abroad; Samples.anonymous]) /\
    (nrows out <= 3)%nat /\
    getitem out "CityName" = inr (repeat (Obj (JStr "Dubai")) (nrows out)) /\
    getitem out "scrape_date"
    = inr (repeat (Obj (JStr (strftime Samples.noon))) (nrows out)).
Proof.
  apply (normalize_keeps_dubai_only Samples.sample_str Samples.noon
           [JDict Samples.marina; JDict Samples.abroad; JDict Samples.anonymous]
           [Samples.marina; Samples.abroad; Samples.anonymous]).
  - reflexivity.
  - vm_compute. reflexivity.
  - repeat constructor.
Defined.

Lemma as_records_cons hits records :
  as_records hits = inr records -> records <> [] ->
  exists x rest, hits = x :: rest /\ List.length hits = List.length records.
Proof.
  intros Hrec Hne.
  assert (Hlen : List.length hits = List.length records).
  { clear Hne. revert records Hrec.
    induction hits as [| h hits IH]; intros records Hrec; cbn in Hrec.
    - injection Hrec as <-. reflexivity.
    - destruct h; try discriminate.
      destruct (as_records hits) as [e | ds]; cbn in Hrec; [discriminate |].
      injection Hrec as <-. cbn. f_equal. apply IH. reflexivity. }
  destruct hits as [| x rest].
  - cbn in Hrec. injection Hrec as <-. contradiction.
  - exists x, rest. auto.
Qed.

(** X9. A band run against a source that serves the pages [contents]:
    when the listings gathered form a complete batch of well-typed
    mappings and the file of the band can be written, the band reads the
    clock once and writes its file, which has one row for each listing in
    Dubai, each with the stamp of that reading; and it logs as saved the
    number of listings gathered, the count before the Dubai filter. *)
Theorem band_file_holds_the_dubai_rows
    (now : nat -> datetime) (writable : string -> bool)
    (py_str : json -> string) (contents : list (list json))
    (base : string) (max_pages hpp : nat) (r : Plan.price_range) (s : state)
    (records : list dict) :
  as_records (List.concat (leading (firstn max_pages contents))) = inr records ->
  records <> [] ->
  complete records = true ->
  Forall (fun d => well_typed d = true) records ->
  writable (output_path (label r) max_pages) = true ->
  let run := scrape_range_guarded (Samples.paged contents) now writable py_str
               base max_pages hpp r s in
  let n := List.length (List.filter in_dubai records) in
  fst run = inr tt /\
  clock_reads (snd run) = S (clock_reads s) /\
  (exists written,
     files (snd run)
     = store (files s) (output_path (label r) max_pages) written /\
     nrows written = n /\
     getitem written "CityName" = inr (repeat (Obj (JStr "Dubai")) n) /\
     getitem written "scrape_date"
     = inr (repeat (Obj (JStr (strftime (now (clock_reads s))))) n)) /\
  exists evs,
    log (snd run)
    = (log s ++ ScrapingRange (label r) :: evs
       ++ [Saved (List.length records) (output_path (label r) max_pages)])%list.
Proof.
  intros Hrec Hne Hc Hwt Hw. cbv zeta.
  remember (scrape_range_guarded (Samples.paged contents) now writable py_str
              base max_pages hpp r s) as run eqn:Hrun.
  unfold scrape_range_guarded, try_except, scrape_range in Hrun.
  rewrite FetcherFacts.info_then in Hrun. unfold mbind at 1 in Hrun.
  destruct (as_records_cons _ _ Hrec Hne) as (x & rest & Hhits & Hlen).
  match type of Hrun with
  | context [page_loop ?po ?l ?cf ?mp ?h ?pages ?acc ?st] =>
      destruct (RunFacts.page_loop_effects po l cf mp h pages acc st)
        as (_ & _ & _ & _ & _ & _ & _ & _ & Hf & _);
      pose proof (RunFacts.page_loop_clock po l cf mp h pages acc st) as Hck;
      destruct (FetcherFacts.quiet_page_loop po l cf mp h pages acc st)
        as [evs [Hlog _]];
      destruct (RunFacts.page_loop_paged contents l cf mp h mp 0 acc st)
        as [s1 [Hloop _]];
      cbn [skipn app] in Hloop;
      rewrite Hloop in Hf, Hck, Hlog, Hrun
  end.
  cbn [fst snd files clock_reads log] in Hf, Hck, Hlog.
  rewrite Hhits in Hrun.
  unfold mbind at 1 in Hrun. unfold read_clock at 1 in Hrun.
  unfold mbind at 1 in Hrun. unfold lift at 1 in Hrun.
  rewrite <- Hhits in Hrun.
  rewrite (normalize_rows py_str _ _ records Hrec Hc Hwt) in Hrun.
  unfold mbind at 1 in Hrun. unfold to_csv at 1 in Hrun. rewrite Hw in Hrun.
  cbn [info files clock_reads log sent slept] in Hrun.
  subst run. cbn [fst snd files clock_reads log].
  rewrite Hf, Hck, Hlog, Hlen.
  split; [reflexivity |]. split; [reflexivity |]. split.
  - eexists. split; [reflexivity |]. split; [apply nrows_frame_of |].
    apply dubai_columns.
  - exists evs. rewrite <- !app_assoc. reflexivity.
Qed.

Lemma band_file_holds_the_dubai_rows_witness :
  fst (scrape_range_guarded
               (Samples.paged [[JDict Samples.marina; JDict Samples.abroad]])
               (fun _ => Samples.noon) (fun _ => true) Samples.sample_str
               "purpose:for-rent" 3 50
               {| label := "budget"; filter := below 20000 |} initial) = inr tt /\
  clock_reads (snd (scrape_range_guarded
               (Samples.paged [[JDict Samples.marina; JDict Samples.abroad]])
               (fun _ => Samples.noon) (fun _ => true) Samples.sample_str
               "purpose:for-rent" 3 50
               {| label := "budget"; filter := below 20000 |} initial)) = 1%nat /\
  (exists written,
     files (snd (scrape_range_guarded
               (Samples.paged [[JDict Samples.marina; JDict Samples.abroad]])
               (fun _ => Samples.noon) (fun _ => true) Samples.sample_str
               "purpose:for-rent" 3 50
               {| label := "budget"; filter := below 20000 |} initial))
     = store [] (output_path "budget" 3) written /\
     nrows written = (List.length (List.filter in_dubai [Samples.marina; Samples.abroad])) /\
     getitem written "CityName"
     = inr (repeat (Obj (JStr "Dubai")) (List.length (List.filter in_dubai [Samples.marina; Samples.abroad]))) /\
     getitem written "scrape_date"
     = inr (repeat (Obj (JStr (strftime Samples.noon))) (List.length (List.filter in_dubai [Samples.marina; Samples.abroad])))) /\
  exists evs,
    log (snd (scrape_range_guarded
               (Samples.paged [[JDict Samples.marina; JDict Samples.abroad]])
               (fun _ => Samples.noon) (fun _ => true) Samples.sample_str
               "purpose:for-rent" 3 50
               {| label := "budget"; filter := below 20000 |} initial))
    = ([] ++ ScrapingRange "budget" :: evs
       ++ [Saved 2 (output_path "budget" 3)])%list.
Proof.
  apply (band_file_holds_the_dubai_rows (fun _ => Samples.noon) (fun _ => true)
           Samples.sample_str [[JDict Samples.marina; JDict Samples.abroad]]
           "purpose:for-rent" 3 50
           {| label := "budget"; filter := below 20000 |} initial
           [Samples.marina; Samples.abroad]).
  - reflexivity.
  - discriminate.
  - vm_compute. reflexivity.
  - repeat constructor.
  - reflexivity.
Defined.

End RowFacts.

(* ===================================================================== *)
(** * Bayut: consolidation and the entry point *)
(* ===================================================================== *)

Module SinkFacts.
Import Py Pandas Plan Bayut Entry Views PandasFacts ConsolidationFacts.

Lemma list_sum_cons a l : list_sum (a :: l) = (a + list_sum l)%nat.
Proof. reflexivity. Qed.

Lemma first_column_rows k rest (gs : list frame) :
  (forall g, In g gs -> columns g = k :: rest) ->
  List.length (flat_map (column_or_nan k) gs) = list_sum (map nrows gs).
Proof.
  induction gs as [| g gs IH]; intros Hall; cbn [flat_map map];
    [reflexivity |].
  rewrite list_sum_cons, length_app, IH by (intros g' Hg'; apply Hall; right; exact Hg').
  f_equal.
  pose proof (Hall g (or_introl eq_refl)) as Hg.
  destruct g as [| [c s] g']; [discriminate |].
  cbn in Hg. injection Hg as -> _.
  unfold column_or_nan. cbn. rewrite String.eqb_refl. reflexivity.
Qed.

Lemma no_columns_no_rows (gs : list frame) :
  (forall g, In g gs -> columns g = []) -> list_sum (map nrows gs) = 0%nat.
Proof.
  induction gs as [| g gs IH]; intros Hall; cbn [map]; [reflexivity |].
  rewrite list_sum_cons, IH by (intros g' Hg'; apply Hall; right; exact Hg').
  pose proof (Hall g (or_introl eq_refl)) as Hg.
  destruct g; [reflexivity | discriminate].
Qed.

Lemma concat_same (f : frame) (frames : list frame) (cols : list string) :
  NoDup cols ->
  (forall g, In g (f :: frames) -> columns g = cols) ->
  columns (Pandas.concat (f :: frames)) = cols /\
  nrows (Pandas.concat (f :: frames)) = list_sum (map nrows (f :: frames)) /\
  (forall k, In k cols ->
     exists parts,
       Forall2 (fun g s => getitem g k = inr s) (f :: frames) parts /\
       getitem (Pandas.concat (f :: frames)) k = inr (List.concat parts)).
Proof.
  intros Hnd Hall.
  pose proof (columns_concat_same frames f cols Hnd Hall) as Hcols.
  split; [| split].
  - unfold Pandas.concat, columns at 1. rewrite Hcols, map_map. cbn.
    apply map_id.
  - unfold Pandas.concat. rewrite Hcols.
    destruct cols as [| k rest].
    + symmetry. apply (no_columns_no_rows (f :: frames)). exact Hall.
    + change (List.length (flat_map (column_or_nan k) (f :: frames))
              = list_sum (map nrows (f :: frames))).
      apply (first_column_rows k rest). exact Hall.
  - intros k Hk.
    rewrite (getitem_concat_same frames f cols k Hnd Hall Hk).
    assert (Hparts : forall gs, (forall g, In g gs -> columns g = cols) ->
              exists parts,
                Forall2 (fun g s => getitem g k = inr s) gs parts /\
                flat_map (column_or_nan k) gs = List.concat parts).
    { induction gs as [| g gs IH]; intros Hgs.
      - exists []. split; [constructor | reflexivity].
      - destruct IH as [parts [Hp Hc]];
          [intros g' Hg'; apply Hgs; right; exact Hg' |].
        destruct (getitem_column g k) as [s Hs];
          [rewrite (Hgs g (or_introl eq_refl)); exact Hk |].
        exists (s :: parts). split; [constructor; assumption |].
        cbn. rewrite (column_or_nan_present _ _ _ Hs), Hc. reflexivity. }
    destruct (Hparts (f :: frames) Hall) as [parts [Hp Hc]].
    exists parts. split; [exact Hp |]. rewrite Hc. reflexivity.
Qed.

(** X10. Units with the same columns, however many: the written frame
    has these columns, each column is the columns of the units one after
    the other in the order of discovery, and its row count is the sum of
    the row counts of the units. *)
Theorem concat_of_like_units
    (f : frame) (frames : list frame) (cols : list string) :
  NoDup cols ->
  (forall g, In g (f :: frames) -> columns g = cols) ->
  columns (Pandas.concat (f :: frames)) = cols /\
  nrows (Pandas.concat (f :: frames)) = list_sum (map nrows (f :: frames)) /\
  (forall k, In k cols ->
     exists parts,
       Forall2 (fun g s => getitem g k = inr s) (f :: frames) parts /\
       getitem (Pandas.concat (f :: frames)) k = inr (List.concat parts)).
Proof. apply concat_same. Qed.

Lemma concat_of_like_units_witness :
  columns (Pandas.concat [Samples.unit_of [11000; 12000]; Samples.unit_of [];
                          Samples.unit_of [36000]])
  = ["objectID"; "price"] /\
  nrows (Pandas.concat [Samples.unit_of [11000; 12000]; Samples.unit_of [];
                        Samples.unit_of [36000]])
  = list_sum (map nrows [Samples.unit_of [11000; 12000]; Samples.unit_of [];
                         Samples.unit_of [36000]]) /\
  (forall k, In k ["objectID"; "price"] ->
     exists parts,
       Forall2 (fun g s => getitem g k = inr s)
         [Samples.unit_of [11000; 12000]; Samples.unit_of [];
          Samples.unit_of [36000]] parts /\
       getitem (Pandas.concat [Samples.unit_of [11000; 12000];
                               Samples.unit_of []; Samples.unit_of [36000]]) k
       = inr (List.concat parts)).
Proof.
  apply (concat_of_like_units (Samples.unit_of [11000; 12000])
           [Samples.unit_of []; Samples.unit_of [36000]] ["objectID"; "price"]).
  - repeat constructor; cbn; intuition discriminate.
  - intros g [<- | [<- | [<- | []]]]; reflexivity.
Defined.

Lemma no_slash_append a b :
  index 0 "/" a = None -> index 0 "/" b = None -> index 0 "/" (a ++ b) = None.
Proof.
  intros Ha Hb. induction a as [| c a IH]; [exact Hb |].
  cbn [append]. cbn [index prefix] in Ha |- *.
  destruct (ascii_dec "/" c); [destruct a; discriminate Ha |].
  destruct (index 0 "/" a); [discriminate Ha |].
  rewrite IH by reflexivity. reflexivity.
Qed.

Lemma no_slash_uint u : index 0 "/" (NilZero.string_of_uint u) = None.
Proof.
  destruct u as [| u | u | u | u | u | u | u | u | u | u]; [reflexivity | ..];
    induction u; cbn in *; try reflexivity;
    match goal with
    | H : match ?x with Some _ => _ | None => _ end = None |- _ =>
        destruct x; [discriminate H | reflexivity]
    end.
Qed.

Lemma no_slash_nat n : index 0 "/" (str_of_nat n) = None.
Proof.
  unfold str_of_nat, str_of_Z.
  destruct (Z.of_nat n) as [| p | p] eqn:E; [reflexivity | | lia].
  apply no_slash_uint.
Qed.

Lemma no_slash_pad2 n : index 0 "/" (pad2 n) = None.
Proof.
  unfold pad2. destruct (n <? 10)%nat; [| apply no_slash_nat].
  apply no_slash_append; [reflexivity | apply no_slash_nat].
Qed.

Lemma no_slash_pad4 n : index 0 "/" (pad4 n) = None.
Proof.
  unfold pad4.
  destruct (n <? 10)%nat; [apply no_slash_append; [reflexivity | apply no_slash_nat] |].
  destruct (n <? 100)%nat; [apply no_slash_append; [reflexivity | apply no_slash_nat] |].
  destruct (n <? 1000)%nat; [apply no_slash_append; [reflexivity | apply no_slash_nat] |].
  apply no_slash_nat.
Qed.

Lemma no_slash_date t : index 0 "/" (strftime_date t) = None.
Proof.
  unfold strftime_date.
  repeat (apply no_slash_append;
          [first [apply no_slash_pad4 | apply no_slash_pad2 | reflexivity] |]).
  apply no_slash_pad2.
Qed.

Lemma substring_all s : substring 0 (String.length s) s = s.
Proof. induction s as [| c s IH]; cbn; [reflexivity | rewrite IH; reflexivity]. Qed.

Lemma substring_skip pre n s :
  substring (String.length pre) n (pre ++ s) = substring 0 n s.
Proof. induction pre as [| c pre IH]; cbn; [reflexivity | exact IH]. Qed.

Lemma ends_with_append pre suffix : ends_with suffix (pre ++ suffix) = true.
Proof.
  unfold ends_with. rewrite BandFacts.length_append.
  assert (E : (String.length pre + String.length suffix - String.length suffix
               = String.length pre)%nat) by lia.
  rewrite E, substring_skip, substring_all, String.eqb_refl.
  rewrite andb_true_r. apply Nat.leb_le. lia.
Qed.

(** A file of the output folder whose name has no separator, does not
    begin with a dot and ends in [.csv] is matched by the pattern. *)
Lemma matches_csv_name c name :
  index 0 "/" (String c name ++ ".csv") = None ->
  c <> "."%char ->
  matches_csv output_folder (path_join output_folder (String c name ++ ".csv"))
  = true.
Proof.
  intros Hslash Hdot. unfold matches_csv, output_folder.
  change (path_join "output/Bayut" "") with "output/Bayut/".
  change (path_join "output/Bayut" (String c name ++ ".csv"))
    with ("output/Bayut/" ++ (String c name ++ ".csv")).
  rewrite BandFacts.length_append.
  assert (E : (String.length "output/Bayut/"
               + String.length (String c name ++ ".csv")
               - String.length "output/Bayut/"
               = String.length (String c name ++ ".csv"))%nat) by lia.
  rewrite E, substring_skip, substring_all, Hslash.
  rewrite (ends_with_append (String c name) ".csv").
  assert (P : prefix "output/Bayut/" ("output/Bayut/" ++ (String c name ++ ".csv"))
              = true) by reflexivity.
  rewrite P. cbn [append prefix].
  destruct (ascii_dec "." c) as [Heq | _]; [congruence | reflexivity].
Qed.

(** The consolidated file lies in the folder it is made from, and the
    pattern of the consolidation matches it. *)
Lemma consolidated_matches t :
  matches_csv output_folder (consolidated t) = true.
Proof.
  unfold consolidated.
  change ("Bayut-all_listings-rent_" ++ strftime_date t ++ ".csv")
    with (String "B" ("ayut-all_listings-rent_" ++ strftime_date t) ++ ".csv").
  apply matches_csv_name; [| discriminate].
  change (String "B" ("ayut-all_listings-rent_" ++ strftime_date t) ++ ".csv")
    with ("Bayut-all_listings-rent_" ++ (strftime_date t ++ ".csv")).
  apply no_slash_append; [reflexivity |].
  apply no_slash_append; [apply no_slash_date | reflexivity].
Qed.

Lemma read_all_state paths s : snd (read_all paths s) = s.
Proof.
  induction paths as [| path paths IH]; cbn [read_all]; [reflexivity |].
  unfold mbind at 1. unfold read_csv at 1.
  destruct (lookup_file (files s) path) as [[| c df] |]; try reflexivity.
  unfold mbind at 1. specialize IH.
  destruct (read_all paths s) as [[e | dfs] s1]; cbn [snd] in IH; subst s1;
    reflexivity.
Qed.

(** What a consolidation does to the state, whatever happens inside. *)
Lemma combine_effects writable folder out s :
  fst (combine_csv_files writable folder out s) = inr tt /\
  sent (snd (combine_csv_files writable folder out s)) = sent s /\
  slept (snd (combine_csv_files writable folder out s)) = slept s /\
  clock_reads (snd (combine_csv_files writable folder out s)) = clock_reads s /\
  (exists evs,
     log (snd (combine_csv_files writable folder out s)) = (log s ++ evs)%list /\
     started evs = []) /\
  (files (snd (combine_csv_files writable folder out s)) = files s \/
   exists df,
     files (snd (combine_csv_files writable folder out s))
     = store (files s) out df).
Proof.
  remember (combine_csv_files writable folder out s) as run eqn:Hrun.
  unfold combine_csv_files, try_except in Hrun.
  unfold mbind at 1 in Hrun. unfold glob_csv in Hrun.
  destruct (List.filter (matches_csv folder) (map fst (files s)))
    as [| path paths].
  - subst run. cbn. repeat split; auto.
    exists [NoCsvFiles folder]. auto.
  - rewrite FetcherFacts.info_then in Hrun. unfold mbind at 1 in Hrun.
    match type of Hrun with
    | context [read_all ?ps ?st] =>
        pose proof (read_all_state ps st) as Hst;
        destruct (read_all ps st) as [[e | frames] s1]
    end; cbn [snd] in Hst; subst s1.
    + subst run. cbn. repeat split; auto.
      eexists. rewrite <- app_assoc. split; reflexivity.
    + unfold mbind, to_csv in Hrun. cbn [files] in Hrun.
      destruct (writable out); subst run; cbn; repeat split; eauto;
        eexists; rewrite <- app_assoc; split; reflexivity.
Qed.

Lemma combine_writes writable folder out s frames :
  Forall2 (fun path df => lookup_file (files s) path = Some df /\ df <> [])
    (List.filter (matches_csv folder) (map fst (files s))) frames ->
  frames <> [] ->
  writable out = true ->
  files (snd (combine_csv_files writable folder out s))
  = store (files s) out (Pandas.concat frames).
Proof.
  intros Hread Hsome Hw.
  unfold combine_csv_files, try_except. unfold mbind at 1. unfold glob_csv.
  destruct (List.filter (matches_csv folder) (map fst (files s)))
    as [| path paths] eqn:Epaths.
  { inversion Hread; subst. congruence. }
  rewrite FetcherFacts.info_then. unfold mbind at 1.
  rewrite (read_all_ok (path :: paths) frames); [| exact Hread].
  unfold mbind. unfold to_csv. cbn [files]. rewrite Hw. reflexivity.
Qed.

Lemma store_new fs path df :
  lookup_file fs path = None -> store fs path df = (fs ++ [(path, df)])%list.
Proof.
  induction fs as [| [p d] fs IH]; cbn; [reflexivity |].
  destruct (String.eqb p path); [discriminate |].
  intros H. rewrite IH by exact H. reflexivity.
Qed.

Lemma lookup_file_app fs fs' path :
  lookup_file (fs ++ fs') path
  = match lookup_file fs path with
    | Some df => Some df
    | None => lookup_file fs' path
    end.
Proof.
  induction fs as [| [p d] fs IH]; cbn; [reflexivity |].
  destruct (String.eqb p path); [reflexivity | exact IH].
Qed.

(** A first consolidation into a file that is not there yet. *)
Lemma combine_once writable t s frames :
  Forall2 (fun path df => lookup_file (files s) path = Some df /\ df <> [])
    (List.filter (matches_csv output_folder) (map fst (files s))) frames ->
  frames <> [] ->
  lookup_file (files s) (consolidated t) = None ->
  writable (consolidated t) = true ->
  files (snd (combine_csv_files writable output_folder (consolidated t) s))
  = (files s ++ [(consolidated t, Pandas.concat frames)])%list.
Proof.
  intros Hread Hsome Hnew Hw.
  rewrite (combine_writes writable output_folder (consolidated t) s frames
             Hread Hsome Hw).
  apply store_new. exact Hnew.
Qed.

(** The log of a consolidation that finds units begins with their
    number. *)
Lemma combine_found writable folder out s path paths :
  List.filter (matches_csv folder) (map fst (files s)) = path :: paths ->
  exists evs,
    log (snd (combine_csv_files writable folder out s))
    = (log s ++ FoundFiles (S (List.length paths)) :: evs)%list.
Proof.
  intros Hglob.
  remember (combine_csv_files writable folder out s) as run eqn:Hrun.
  unfold combine_csv_files, try_except in Hrun.
  unfold mbind at 1 in Hrun. unfold glob_csv in Hrun. rewrite Hglob in Hrun.
  rewrite FetcherFacts.info_then in Hrun. unfold mbind at 1 in Hrun.
  match type of Hrun with
  | context [read_all ?ps ?st] =>
      pose proof (read_all_state ps st) as Hst;
      destruct (read_all ps st) as [[e | frames] s1]
  end; cbn [snd] in Hst; subst s1.
  - subst run. cbn. eexists. rewrite <- app_assoc. reflexivity.
  - unfold mbind, to_csv in Hrun. cbn [files] in Hrun.
    destruct (writable out); subst run; cbn;
      eexists; rewrite <- app_assoc; reflexivity.
Qed.

(** X11. The consolidated file is written into the folder that is
    consolidated, under a name the pattern [*.csv] matches, whatever the
    day.  So after a successful consolidation the folder holds one more
    unit than before, the consolidated file itself, and the next
    consolidation of the folder counts it among the files it finds and
    combines. *)
Theorem consolidated_file_is_read_back
    (writable : string -> bool) (t : datetime) (s : state)
    (frames : list frame) :
  Forall2 (fun path df => lookup_file (files s) path = Some df /\ df <> [])
    (List.filter (matches_csv output_folder) (map fst (files s))) frames ->
  frames <> [] ->
  lookup_file (files s) (consolidated t) = None ->
  writable (consolidated t) = true ->
  let once := snd (combine_csv_files writable output_folder (consolidated t) s) in
  let units := List.filter (matches_csv output_folder) (map fst (files once)) in
  (forall t', matches_csv output_folder (consolidated t') = true) /\
  (exists df, lookup_file (files once) (consolidated t) = Some df) /\
  In (consolidated t) units /\
  List.length units = S (List.length frames) /\
  forall w out,
    exists evs,
      log (snd (combine_csv_files w output_folder out once))
      = (log once ++ FoundFiles (S (List.length frames)) :: evs)%list.
Proof.
  intros Hread Hsome Hnew Hw. cbv zeta.
  split; [exact consolidated_matches |].
  pose proof (combine_once writable t s frames Hread Hsome Hnew Hw) as H1.
  set (once := snd (combine_csv_files writable output_folder (consolidated t) s))
    in *.
  assert (Hunits :
    List.filter (matches_csv output_folder) (map fst (files once))
    = (List.filter (matches_csv output_folder) (map fst (files s))
       ++ [consolidated t])%list).
  { rewrite H1, map_app, filter_app. cbn [map List.filter fst].
    rewrite consolidated_matches. reflexivity. }
  pose proof (Forall2_length Hread) as Hlen.
  split.
  { rewrite H1, lookup_file_app, Hnew. cbn. rewrite String.eqb_refl. eauto. }
  split.
  { rewrite Hunits. apply in_or_app. right. left. reflexivity. }
  split.
  { rewrite Hunits, length_app, Hlen. cbn. lia. }
  intros w out.
  destruct (List.filter (matches_csv output_folder) (map fst (files once)))
    as [| path paths] eqn:E.
  { destruct (List.filter (matches_csv output_folder) (map fst (files s)));
      discriminate Hunits. }
  destruct (combine_found w output_folder out once path paths E) as [evs Hevs].
  exists evs. rewrite Hevs.
  assert (Hn : S (List.length paths) = S (List.length frames)).
  { change (S (List.length paths)) with (List.length (path :: paths)).
    rewrite Hunits, length_app, Hlen. cbn. lia. }
  rewrite Hn. reflexivity.
Qed.

Lemma consolidated_file_is_read_back_witness :
  (forall t', matches_csv output_folder (consolidated t') = true) /\
  (exists df,
     lookup_file
       (files (snd (combine_csv_files (fun _ => true) output_folder
                      (consolidated Samples.noon) Samples.three_units)))
       (consolidated Samples.noon) = Some df) /\
  In (consolidated Samples.noon)
    (List.filter (matches_csv output_folder)
       (map fst (files (snd (combine_csv_files (fun _ => true) output_folder
                               (consolidated Samples.noon)
                               Samples.three_units))))) /\
  List.length
    (List.filter (matches_csv output_folder)
       (map fst (files (snd (combine_csv_files (fun _ => true) output_folder
                               (consolidated Samples.noon)
                               Samples.three_units)))))
  = S (List.length (map snd (files Samples.three_units))) /\
  forall w out,
    exists evs,
      log (snd (combine_csv_files w output_folder out
                  (snd (combine_csv_files (fun _ => true) output_folder
                          (consolidated Samples.noon) Samples.three_units))))
      = (log (snd (combine_csv_files (fun _ => true) output_folder
                     (consolidated Samples.noon) Samples.three_units))
         ++ FoundFiles (S (List.length (map snd (files Samples.three_units))))
            :: evs)%list.
Proof.
  apply (consolidated_file_is_read_back (fun _ => true) Samples.noon
           Samples.three_units (map snd (files Samples.three_units))).
  - repeat constructor; discriminate.
  - discriminate.
  - reflexivity.
  - reflexivity.
Defined.

Section Main.

Variable post : nat -> payload -> string + json.
Variable now : nat -> datetime.
Variable writable : string -> bool.
Variable py_str : json -> string.
Variable creatable : string -> bool.

(** X12. [main] as a whole, whatever the source answers and whatever the
    sink accepts.  Building the scraper creates the output directory
    outside any [try]: when that fails, [main] raises at once and nothing
    is posted, slept, logged or written.  Otherwise [main] returns
    normally; it starts the fifteen bands in the order of the plan; it
    posts at most 45 000 requests, each for one of the first thousand
    pages of a band, fifty hits a page, and sleeps at most 105 000
    seconds; the consolidated file is named after a reading of the clock
    made once every band is done; and no file other than the files of
    the bands and that consolidated file is changed. *)
Theorem main_outcome (s : state) :
  let r := main post now writable py_str creatable s in
  if creatable "output/Bayut" then
    fst r = inr tt /\
    started (log (snd r)) = (started (log s) ++ map label price_ranges)%list /\
    exists posts naps n,
      sent (snd r) = (sent s ++ posts)%list /\
      (List.length posts <= 45 * 1000)%nat /\
      Forall (fun p => (page p < 1000)%nat /\ hitsPerPage p = 50%nat /\
                       exists b, In b price_ranges /\
                         filters p = "purpose:for-rent" ++ " AND "
                                     ++ render_filter (filter b)) posts /\
      slept (snd r) = (slept s ++ naps)%list /\
      total naps <= 105000 /\
      (clock_reads s <= n <= clock_reads s + 15)%nat /\
      clock_reads (snd r) = S n /\
      forall path,
        (forall b, In b price_ranges -> path <> output_path (label b) 1000) ->
        path <> consolidated (now n) ->
        lookup_file (files (snd r)) path = lookup_file (files s) path
  else r = (inl (IOError "output/Bayut"), s).
Proof.
  cbv zeta.
  remember (main post now writable py_str creatable s) as r eqn:Hr.
  unfold main, __init__, makedirs in Hr. unfold mbind at 1 in Hr.
  destruct (creatable "output/Bayut"); [| exact Hr].
  unfold price_range_scrape in Hr. unfold mbind at 1 in Hr.
  destruct (RunFacts.scrape_ranges_effects post now writable py_str
              "purpose:for-rent" 1000 50 price_ranges s)
    as (posts & naps & Hs & Hl & Hlen & Hall & Htot & Hc & Hf).
  destruct (FetcherFacts.scrape_ranges_spec post now writable py_str
              "purpose:for-rent" 1000 50 price_ranges s) as [Hret Hst].
  destruct (scrape_ranges post now writable py_str "purpose:for-rent" 1000 50
              price_ranges s) as [[e | []] s1];
    cbn [fst snd] in *; [discriminate |].
  unfold mbind at 1 in Hr. unfold read_clock at 1 in Hr.
  match type of Hr with
  | _ = combine_csv_files _ ?folder ?out ?st =>
      destruct (combine_effects writable folder out st)
        as (Cret & Csent & Cslept & Cclock & (evs & Clog & Cst) & Cfiles)
  end.
  rewrite <- Hr in Cret, Csent, Cslept, Cclock, Clog, Cfiles. clear Hr.
  cbn [sent slept log files clock_reads] in Csent, Cslept, Cclock, Clog, Cfiles.
  split; [exact Cret |]. split.
  { rewrite Clog, FetcherFacts.started_app, Cst, app_nil_r. exact Hst. }
  exists posts, naps, (clock_reads s1).
  change (List.length price_ranges) with 15%nat in *.
  rewrite Csent, Cslept, Cclock.
  repeat split; auto; try lia.
  intros path Hband Hout. rewrite <- (Hf path Hband).
  destruct Cfiles as [-> | [df ->]]; [reflexivity |].
  rewrite RunFacts.lookup_file_store.
  destruct (String.eqb_spec (consolidated (now (clock_reads s1))) path)
    as [E | _]; [| reflexivity].
  exfalso. apply Hout. symmetry. exact E.
Qed.

End Main.

End SinkFacts.

(* ===================================================================== *)
(** * PropertyFinder: the run as a whole *)
(* ===================================================================== *)

Module CrawlFacts.
Import Py Pandas PropertyFinder Views PandasFacts.

Section WithSite.

Variable get : nat -> nat -> result response.
Variable writable : bool.

Lemma inv_initial : in_step initial.
Proof.
  unfold in_step. cbn. repeat split; auto. exists []. reflexivity.
Qed.

Lemma inv_continue s s' :
  in_step s -> iteration get s = (Continue, s') -> in_step s'.
Proof.
  intros (Ht & Hl & Hs & Hr & Hp & older & Ho). unfold iteration.
  destruct (fetch_listings_from_page get _ _) as [[e | listings] lines];
    [discriminate |].
  destruct (negb (truthy listings)).
  - destruct (Nat.leb_spec 3 (retry_count s + 1)); [discriminate |].
    intros [= <-]. unfold in_step. cbn.
    rewrite !length_app, Hl. cbn. repeat split; auto; try lia.
    + apply Forall_app. split; [exact Hs | constructor; auto].
    + exists older. rewrite Ho, <- app_assoc, Nat.add_1_r.
      rewrite PropertyFinderFacts.repeat_snoc. reflexivity.
  - destruct (iter listings) as [e | items]; [discriminate |].
    intros [= <-]. unfold in_step. cbn.
    rewrite !length_app, Hl, Ht. cbn. repeat split; auto; try lia.
    + apply Forall_app. split; [exact Hs | constructor; auto].
    + exists (requested s ++ [page_number s])%list. rewrite app_nil_r.
      reflexivity.
Qed.

Lemma inv_reachable s : reachable get s -> in_step s.
Proof.
  induction 1 as [| s s' _ IH Hstep]; [apply inv_initial |].
  apply (inv_continue s s' IH Hstep).
Qed.

(** A run that ends normally was in a state of the loop when it broke. *)
Lemma loop_last fuel s final :
  reachable get s -> loop get fuel s = Some (inr final) ->
  exists last, reachable get last /\ iteration get last = (Break, final).
Proof.
  revert s. induction fuel as [| fuel IH]; intros s Hs; cbn [loop];
    [discriminate |].
  destruct (iteration get s) as [[| | e] s'] eqn:E.
  - apply IH. apply (reach_continue get s s' Hs E).
  - intros [= <-]. exists s. auto.
  - discriminate.
Qed.

Lemma loop_end fuel s final :
  reachable get s ->
  loop get fuel s = Some (inr final) ->
  total_properties final = List.length (all_listings final) /\
  retry_count final = 3%nat /\
  List.length (requested final) = S (List.length (slept final)) /\
  Forall (fun d => d = 1 \/ d = 2) (slept final) /\
  exists older,
    requested final
    = (older ++ [page_number final; page_number final; page_number final])%list.
Proof.
  intros Hstart Hrun.
  destruct (loop_last fuel s final Hstart Hrun)
    as (last & Hreach & Hbreak).
  destruct (inv_reachable last Hreach) as (Ht & Hl & Hs & Hr & Hp & older & Ho).
  unfold iteration in Hbreak.
  destruct (fetch_listings_from_page get _ _) as [[e | listings] lines];
    [discriminate |].
  destruct (negb (truthy listings)).
  - destruct (Nat.leb_spec 3 (retry_count last + 1)); [| discriminate].
    injection Hbreak as <-. cbn.
    assert (Hrc : retry_count last = 2%nat) by lia.
    rewrite length_app, Hl. cbn. repeat split; auto; try lia.
    exists older. rewrite Ho, Hrc, <- app_assoc. reflexivity.
  - destruct (iter listings); discriminate.
Qed.

(** X13. The bookkeeping of the loop.  Whenever a pass starts, the
    counter [total_properties] is the number of listings gathered, one
    sleep of one or two seconds was taken for each request made, and the
    cursor is at least 1.  A run that leaves the loop normally does so
    with three requests in a row for the same page behind it, the last of
    them without a sleep, and with the counter still equal to the number
    of listings gathered. *)
Theorem loop_bookkeeping (s : state) :
  reachable get s ->
  (total_properties s = List.length (all_listings s) /\
   List.length (slept s) = List.length (requested s) /\
   Forall (fun d => d = 1 \/ d = 2) (slept s) /\
   (1 <= page_number s)%nat) /\
  (forall fuel final,
     loop get fuel s = Some (inr final) ->
     total_properties final = List.length (all_listings final) /\
     retry_count final = 3%nat /\
     List.length (requested final) = S (List.length (slept final)) /\
     Forall (fun d => d = 1 \/ d = 2) (slept final) /\
     exists older,
       requested final
       = (older ++ [page_number final; page_number final;
                    page_number final])%list).
Proof.
  intros Hs. split.
  - destruct (inv_reachable s Hs) as (Ht & Hl & Hsl & _ & Hp & _). auto.
  - intros fuel final. apply loop_end. exact Hs.
Qed.

(** The passes that lead to a state of the loop. *)
Lemma reach_loop s :
  reachable get s ->
  exists n, forall fuel, loop get (n + fuel) initial = loop get fuel s.
Proof.
  induction 1 as [| s s' _ [n IH] Hstep].
  - exists 0%nat. reflexivity.
  - exists (S n). intros fuel.
    replace (S n + fuel)%nat with (n + S fuel)%nat by lia.
    rewrite IH. cbn [loop]. rewrite Hstep. reflexivity.
Qed.

Lemma loop_all_full fuel s :
  (forall call page, exists items lines,
     items <> [] /\
     fetch_listings_from_page get call page = (inr (JList items), lines)) ->
  loop get fuel s = None.
Proof.
  intros Hfull. revert s. induction fuel as [| fuel IH]; intros s;
    cbn [loop]; [reflexivity |].
  destruct (Hfull (List.length (requested s)) (page_number s))
    as (items & lines & Hne & Hfetch).
  rewrite (PropertyFinderFacts.iteration_listings get s _ lines items Hfetch);
    [apply IH | destruct items; [congruence | reflexivity] | reflexivity].
Qed.

(** X14. The loop has no page cap: against a site that has listings on
    every page, no number of passes reaches the end of the loop, and
    nothing is ever saved. *)
Theorem endless_site_never_stops (fuel : nat) :
  (forall call page, exists items lines,
     items <> [] /\
     fetch_listings_from_page get call page = (inr (JList items), lines)) ->
  loop get fuel initial = None /\
  scrape_properties get writable fuel = None.
Proof.
  intros Hfull. unfold scrape_properties.
  rewrite (loop_all_full fuel initial Hfull). auto.
Qed.

Lemma loop_raises s e lines :
  reachable get s ->
  fetch_listings_from_page get (List.length (requested s)) (page_number s)
  = (inl e, lines) ->
  exists n, forall fuel,
    (n < fuel)%nat -> scrape_properties get writable fuel = Some (inl e).
Proof.
  intros Hs Hfetch. destruct (reach_loop s Hs) as [n Hn].
  destruct (PropertyFinderFacts.iteration_raised get s e lines Hfetch)
    as [s' Hit].
  exists n. intros fuel Hlt. unfold scrape_properties.
  replace fuel with (n + S (fuel - n - 1))%nat by lia.
  rewrite Hn. cbn [loop]. rewrite Hit. reflexivity.
Qed.

(** X15. How the payload of a page is read.  The key [props] is indexed:
    a page rendered without it raises [KeyError], which nothing catches,
    so the run ends there and saves nothing, whatever was gathered before.
    The keys below it are read with defaults: a page without [pageProps]
    is an empty fetch like any other, counted and retried. *)
Theorem payload_keys (s : state) (r : response) (d : dict) :
  reachable get s ->
  get (List.length (requested s)) (page_number s) = inr r ->
  status_code r = 200 ->
  next_data r = Some (inr (JDict d)) ->
  (dict_get d "props" = None ->
   exists n, forall fuel,
     (n < fuel)%nat ->
     scrape_properties get writable fuel = Some (inl (KeyError "props"))) /\
  (forall p,
     dict_get d "props" = Some (JDict p) ->
     dict_get p "pageProps" = None ->
     exists s',
       iteration get s
       = (if (3 <=? retry_count s + 1)%nat then Break else Continue, s') /\
       page_number s' = page_number s /\
       retry_count s' = S (retry_count s) /\
       all_listings s' = all_listings s).
Proof.
  intros Hs Hget Hok Hdata. split.
  - intros Hprops. apply (loop_raises s (KeyError "props") []); [exact Hs |].
    unfold fetch_listings_from_page. rewrite Hget, Hok, Hdata. cbn.
    rewrite Hprops. reflexivity.
  - intros p Hprops Hpage.
    assert (Hfetch : fetch_listings_from_page get (List.length (requested s))
                       (page_number s) = (inr (JList []), [])).
    { unfold fetch_listings_from_page. rewrite Hget, Hok, Hdata. cbn.
      rewrite Hprops. cbn. unfold get_default. rewrite Hpage. reflexivity. }
    destruct (PropertyFinderFacts.iteration_empty get s _ _ Hfetch eq_refl)
      as (s' & Hit & Hp & Hr & Ha & _).
    exists s'. auto.
Qed.

End WithSite.

Lemma loop_bookkeeping_witness :
  (total_properties initial = List.length (all_listings initial) /\
   List.length (slept initial) = List.length (requested initial) /\
   Forall (fun d => d = 1 \/ d = 2) (slept initial) /\
   (1 <= page_number initial)%nat) /\
  (forall fuel final,
     loop Samples.two_pages fuel initial = Some (inr final) ->
     total_properties final = List.length (all_listings final) /\
     retry_count final = 3%nat /\
     List.length (requested final) = S (List.length (slept final)) /\
     Forall (fun d => d = 1 \/ d = 2) (slept final) /\
     exists older,
       requested final
       = (older ++ [page_number final; page_number final;
                    page_number final])%list).
Proof.
  apply (loop_bookkeeping Samples.two_pages initial).
  apply reach_initial.
Defined.

Lemma endless_site_never_stops_witness :
  loop (fun _ _ => inr (Samples.rendered [JDict Samples.marina])) 40 initial
  = None /\
  scrape_properties (fun _ _ => inr (Samples.rendered [JDict Samples.marina]))
    true 40 = None.
Proof.
  apply (endless_site_never_stops
           (fun _ _ => inr (Samples.rendered [JDict Samples.marina])) true 40).
  intros call page. exists [JDict Samples.marina], []. split.
  - discriminate.
  - reflexivity.
Defined.

Lemma payload_keys_witness :
  (dict_get [("page", JStr "/404")] "props" = None ->
   exists n, forall fuel,
     (n < fuel)%nat ->
     scrape_properties Samples.bare_page true fuel
     = Some (inl (KeyError "props"))) /\
  (forall p,
     dict_get [("page", JStr "/404")] "props" = Some (JDict p) ->
     dict_get p "pageProps" = None ->
     exists s',
       iteration Samples.bare_page initial
       = (if (3 <=? retry_count initial + 1)%nat then Break else Continue, s') /\
       page_number s' = page_number initial /\
       retry_count s' = S (retry_count initial) /\
       all_listings s' = all_listings initial).
Proof.
  apply (payload_keys Samples.bare_page true initial
           {| status_code := 200;
              next_data := Some (inr (JDict [("page", JStr "/404")])) |}
           [("page", JStr "/404")]).
  - apply reach_initial.
  - reflexivity.
  - reflexivity.
  - reflexivity.
Defined.

End CrawlFacts.

(* ===================================================================== *)
(** * PropertyFinder: what is saved *)
(* ===================================================================== *)

Module SaveFacts.
Import Py Pandas PropertyFinder Views PandasFacts.

Lemma as_records_map (records : list dict) :
  as_records (map JDict records) = inr records.
Proof.
  induction records as [| d records IH]; cbn; [reflexivity |].
  rewrite IH. reflexivity.
Qed.

Lemma filter_rows_DataFrame (rows : list dict) (p : dict -> bool) :
  filter_rows (DataFrame rows) (map p rows)
  = map (fun k => (k, map (entry k) (List.filter p rows)))
      (columns (DataFrame rows)).
Proof.
  unfold filter_rows, DataFrame, columns. rewrite !map_map. apply map_ext.
  intros k. cbn [fst snd]. f_equal. apply RowFacts.keep_map.
Qed.

Lemma nrows_tabulate (f : string -> series) ks k n :
  In k ks -> (forall k', List.length (f k') = n) ->
  nrows (map (fun k => (k, f k)) ks) = n.
Proof.
  destruct ks as [| k0 ks]; [contradiction |]. intros _ H. cbn. apply H.
Qed.

(** The frame that [save] builds, as the model holds it. *)
Lemma saved_frame
    (s : state) (records : list dict) :
  all_listings s = map JDict records ->
  records <> [] ->
  let rows := map normalise_record records in
  (has_column rows "property.id" = true ->
   save true s
   = inr (Some (map (fun k => (k, map (entry k) (List.filter has_id rows)))
                  (columns (DataFrame rows))),
          [Filtered (List.length (List.filter has_id rows));
           DataSaved csv_file_path])) /\
  (has_column rows "property.id" = false ->
   save true s = inr (Some (DataFrame rows), [DataSaved csv_file_path])) /\
  save false s = inl (IOError csv_file_path).
Proof.
  intros Hall Hne. cbv zeta. unfold save. rewrite Hall.
  destruct records as [| d records]; [congruence |].
  change (map JDict (d :: records)) with (JDict d :: map JDict records).
  cbv iota. change (JDict d :: map JDict records) with (map JDict (d :: records)).
  unfold json_normalize. rewrite as_records_map. cbn [bind]. cbv zeta.
  set (rows := map normalise_record (d :: records)).
  unfold drop_null_ids. rewrite getitem_DataFrame.
  split; [| split].
  - intros Hcol. rewrite Hcol.
    change (map notnull (map (entry "property.id") rows))
      with (map notnull (map (entry "property.id") rows)).
    rewrite map_map. change (fun x => notnull (entry "property.id" x)) with has_id.
    rewrite filter_rows_DataFrame.
    apply f_equal. apply f_equal. cbn [app].
    apply (f_equal (fun n => [Filtered n; DataSaved csv_file_path])).
    apply (nrows_tabulate (fun k => map (entry k) (List.filter has_id rows))
             (columns (DataFrame rows)) "property.id"
             (List.length (List.filter has_id rows))).
    + unfold DataFrame, columns. rewrite map_map. cbn [fst]. rewrite map_id.
      apply In_first_seen. rewrite has_column_keys in Hcol.
      apply mem_In in Hcol. auto.
    + intros k'. apply length_map.
  - intros Hcol. rewrite Hcol. reflexivity.
  - reflexivity.
Qed.

Lemma has_column_length (rows : list dict) k col :
  getitem (DataFrame rows) k = inr col -> List.length col = List.length rows.
Proof.
  rewrite getitem_DataFrame. destruct (has_column rows k); [| discriminate].
  intros [= <-]. apply length_map.
Qed.

(** X16. What [scrape_properties] saves.  Once the loop has gathered
    listings that are mappings, none of them with an entry literally
    named [property.id], the flattened records are filtered on
    [property.id] only when at least one of them has that column: the
    frame written then has one row for each record whose [property.id] is
    not null, and the line printed counts exactly those records.  When no
    record has the column, nothing is filtered, no count is printed, and
    every column written has an entry for every record.  When the file
    cannot be written the error is raised out of the function. *)
Theorem saved_rows_have_an_id (s : state) (records : list dict) :
  all_listings s = map JDict records ->
  records <> [] ->
  Forall (fun d => dict_get d "property.id" = None) records ->
  let rows := map normalise_record records in
  let kept := List.length (List.filter has_id rows) in
  (has_column rows "property.id" = true ->
   exists out,
     save true s = inr (Some out, [Filtered kept; DataSaved csv_file_path]) /\
     nrows out = kept /\
     (kept <= List.length records)%nat /\
     exists ids,
       getitem out "property.id" = inr ids /\
       List.length ids = kept /\
       Forall (fun c => notnull c = true) ids) /\
  (has_column rows "property.id" = false ->
   exists out,
     save true s = inr (Some out, [DataSaved csv_file_path]) /\
     forall k col,
       getitem out k = inr col -> List.length col = List.length records) /\
  save false s = inl (IOError csv_file_path).
Proof.
  intros Hall Hne _. cbv zeta.
  destruct (saved_frame s records Hall Hne) as (Hyes & Hno & Hfail).
  split; [| split; [| exact Hfail]].
  - intros Hcol. eexists. split; [apply Hyes; exact Hcol |].
    split; [| split].
    + apply (nrows_tabulate
               (fun k => map (entry k)
                           (List.filter has_id (map normalise_record records)))
               (columns (DataFrame (map normalise_record records)))
               "property.id").
      * unfold DataFrame, columns. rewrite map_map. cbn [fst]. rewrite map_id.
        apply In_first_seen. rewrite has_column_keys in Hcol.
        apply mem_In in Hcol. auto.
      * intros k'. apply length_map.
    + rewrite <- (length_map normalise_record records).
      apply filter_length_le.
    + rewrite (getitem_tabulate
                 (fun k => map (entry k)
                             (List.filter has_id (map normalise_record records)))).
      assert (Hmem : mem "property.id"
                       (columns (DataFrame (map normalise_record records)))
                     = true).
      { unfold DataFrame, columns. rewrite map_map. cbn [fst]. rewrite map_id.
        rewrite mem_first_seen, <- has_column_keys. exact Hcol. }
      rewrite Hmem. eexists. split; [reflexivity |].
      split; [apply length_map |].
      apply Forall_map. apply Forall_forall. intros d Hd.
      apply filter_In in Hd. exact (proj2 Hd).
  - intros Hcol. eexists. split; [apply Hno; exact Hcol |].
    intros k col Hk. rewrite (has_column_length _ _ _ Hk).
    apply length_map.
Qed.

Lemma append_assoc (a b c : string) : (a ++ b) ++ c = a ++ (b ++ c).
Proof. induction a as [| x a IH]; cbn; [reflexivity | rewrite IH; reflexivity]. Qed.

(** The names that flattening a value under [name] produces: the name
    itself for a plain value, dotted names below it for a mapping. *)
Lemma flat_keys :
  forall (v : json) (name key : string),
    In key (map fst (flat name v)) ->
    match v with
    | JDict _ => exists rest, key = name ++ "." ++ rest
    | _ => key = name
    end.
Proof.
  fix IH 1. intros v name key.
  destruct v as [| b | z | m e | s | l | d];
    try (cbn; intros [<- | []]; reflexivity).
  cbn [flat].
  induction d as [| [k' v'] d' IHd]; [intros [] |].
  rewrite map_app, in_app_iff. intros [H | H]; [| apply IHd; exact H].
  apply IH in H. destruct v';
    try (exists k'; exact H).
  destruct H as [rest ->]. exists (k' ++ "." ++ rest).
  rewrite !append_assoc. reflexivity.
Qed.

Lemma dict_get_In (d : dict) k v : dict_get d k = Some v -> In k (map fst d).
Proof.
  induction d as [| [k' v'] d IH]; cbn; [discriminate |].
  destruct (String.eqb_spec k' k); [auto | intros H; right; apply IH; exact H].
Qed.

Lemma dict_get_app (d d' : dict) k :
  dict_get (d ++ d')%list k
  = match dict_get d k with Some v => Some v | None => dict_get d' k end.
Proof.
  induction d as [| [k' v'] d IH]; cbn; [reflexivity |].
  destruct (String.eqb k' k); [reflexivity | exact IH].
Qed.

Lemma dict_get_filter (f : string * json -> bool) (d : dict) k :
  dict_get d k = None -> dict_get (List.filter f d) k = None.
Proof.
  induction d as [| [k' v'] d IH]; cbn; [reflexivity |].
  destruct (String.eqb k' k) eqn:E; [discriminate |].
  intros H. destruct (f (k', v')); cbn; rewrite ?E; apply IH; exact H.
Qed.

Lemma no_dot_in_id k rest : "id" = k ++ "." ++ rest -> False.
Proof.
  destruct k as [| c1 [| c2 [| c3 k]]]; cbn; intros H; discriminate H.
Qed.

Lemma dotted_property k rest :
  "property.id" = k ++ "." ++ rest -> k = "property".
Proof.
  intros H.
  do 8 (destruct k as [| ? k]; cbn in H; [discriminate H |];
        injection H as <- H).
  destruct k as [| c k]; [reflexivity |].
  cbn in H. injection H as _ H. exfalso. apply (no_dot_in_id k rest H).
Qed.

Lemma flat_elsewhere k x :
  is_mapping x = true -> k <> "property" ->
  dict_get (flat k x) "property.id" = None.
Proof.
  intros Hx Hk.
  destruct (dict_get (flat k x) "property.id") as [v |] eqn:E; [| reflexivity].
  apply dict_get_In, flat_keys in E.
  destruct x; try discriminate Hx.
  destruct E as [rest E]. apply dotted_property in E. contradiction.
Qed.

Lemma flat_property (p : dict) v :
  dict_get p "id" = Some v -> is_mapping v = false ->
  dict_get (flat "property" (JDict p)) "property.id" = Some v.
Proof.
  intros Hget Hv. cbn [flat].
  induction p as [| [k' v'] p IH]; [discriminate Hget |].
  cbn [dict_get] in Hget. rewrite dict_get_app.
  destruct (String.eqb_spec k' "id") as [-> | Hne].
  - injection Hget as ->.
    destruct v; try discriminate Hv; reflexivity.
  - destruct (dict_get (flat ("property" ++ "." ++ k') v') "property.id")
      as [w |] eqn:E; [exfalso | apply IH; exact Hget].
    apply dict_get_In, flat_keys in E.
    destruct v';
      try (cbn in E; injection E as E; congruence).
    destruct E as [rest E]. cbn in E. injection E as E.
    rewrite ?append_assoc in E. apply (no_dot_in_id k' rest E).
Qed.

Lemma nested_property (d p : dict) v :
  dict_get d "property" = Some (JDict p) ->
  dict_get d "property.id" = None ->
  dict_get p "id" = Some v -> is_mapping v = false ->
  dict_get (flat_map (fun kv => flat (fst kv) (snd kv))
              (List.filter (fun kv => is_mapping (snd kv)) d)) "property.id"
  = Some v.
Proof.
  intros Hp Hnone Hid Hv.
  induction d as [| [k x] d IH]; [discriminate Hp |].
  cbn [dict_get List.filter snd] in *.
  destruct (String.eqb_spec k "property.id"); [discriminate Hnone |].
  destruct (String.eqb_spec k "property") as [-> | Hk].
  - injection Hp as ->. cbn [is_mapping flat_map fst snd].
    rewrite dict_get_app, (flat_property p v Hid Hv). reflexivity.
  - destruct (is_mapping x) eqn:Hx; [| apply IH; assumption].
    cbn [flat_map fst snd].
    rewrite dict_get_app, (flat_elsewhere k x Hx Hk). apply IH; assumption.
Qed.

(** X17. Where the column [property.id] comes from: flattening gives a
    listing the entry [id] of its [property] mapping under the dotted
    name, so a listing is kept by the filter exactly when that entry is
    not null.  (Plain value under [id], and no entry of the listing
    already named [property.id].) *)
Theorem property_id_is_the_nested_id (d p : dict) (v : json) :
  dict_get d "property" = Some (JDict p) ->
  dict_get p "id" = Some v ->
  is_mapping v = false ->
  dict_get d "property.id" = None ->
  entry "property.id" (normalise_record d) = Obj v /\
  has_id (normalise_record d)
  = match v with JNull => false | _ => true end.
Proof.
  intros Hp Hid Hv Hnone.
  assert (E : entry "property.id" (normalise_record d) = Obj v).
  { unfold entry, normalise_record.
    rewrite dict_get_app, (dict_get_filter _ d _ Hnone).
    rewrite (nested_property d p v Hp Hnone Hid Hv). reflexivity. }
  split; [exact E |].
  unfold has_id. rewrite E. destruct v; reflexivity.
Qed.

Lemma saved_rows_have_an_id_witness :
  (has_column (map normalise_record [Samples.advert; Samples.banner]) "property.id" = true ->
   exists out,
     save true Samples.gathered
     = inr (Some out, [Filtered (List.length (List.filter has_id (map normalise_record [Samples.advert; Samples.banner]))); DataSaved csv_file_path]) /\
     nrows out = (List.length (List.filter has_id (map normalise_record [Samples.advert; Samples.banner]))) /\
     ((List.length (List.filter has_id (map normalise_record [Samples.advert; Samples.banner]))) <= List.length [Samples.advert; Samples.banner])%nat /\
     exists ids,
       getitem out "property.id" = inr ids /\
       List.length ids = (List.length (List.filter has_id (map normalise_record [Samples.advert; Samples.banner]))) /\
       Forall (fun c => notnull c = true) ids) /\
  (has_column (map normalise_record [Samples.advert; Samples.banner]) "property.id" = false ->
   exists out,
     save true Samples.gathered = inr (Some out, [DataSaved csv_file_path]) /\
     forall k col,
       getitem out k = inr col ->
       List.length col = List.length [Samples.advert; Samples.banner]) /\
  save false Samples.gathered = inl (IOError csv_file_path).
Proof.
  apply (saved_rows_have_an_id Samples.gathered
           [Samples.advert; Samples.banner]).
  - reflexivity.
  - discriminate.
  - repeat constructor.
Defined.

Lemma property_id_is_the_nested_id_witness :
  entry "property.id" (normalise_record Samples.advert) = Obj (JStr "1234") /\
  has_id (normalise_record Samples.advert) = true.
Proof.
  apply (property_id_is_the_nested_id Samples.advert
           [ ("id", JStr "1234"); ("title", JStr "Studio in JLT");
             ("price", JDict [("value", JInt 95000);
                              ("period", JStr "yearly")]) ]
           (JStr "1234")); reflexivity.
Defined.

End SaveFacts.

(* ===================================================================== *)
(** * PropertyFinder: the URL of a page *)
(* ===================================================================== *)

Module UrlFacts.
Import Py Url.

Lemma keys_add_value d k v :
  map fst (add_value d k v)
  = if existsb (String.eqb k) (map fst d) then map fst d
    else (map fst d ++ [k])%list.
Proof.
  induction d as [| [k' vs] d IH]; cbn; [reflexivity |].
  rewrite (String.eqb_sym k k').
  destruct (String.eqb k' k); cbn; [reflexivity |].
  rewrite IH. destruct (existsb (String.eqb k) (map fst d)); reflexivity.
Qed.

Lemma existsb_eqb_In k (l : list string) :
  existsb (String.eqb k) l = true <-> In k l.
Proof.
  rewrite existsb_exists. split.
  - intros [x [Hx E]]. apply String.eqb_eq in E. subst. exact Hx.
  - intros H. exists k. split; [exact H | apply String.eqb_refl].
Qed.

Lemma well_formed_add_value d k v :
  well_formed d -> v <> "" -> well_formed (add_value d k v).
Proof.
  intros [Hnd Hall] Hv. split.
  - rewrite keys_add_value.
    destruct (existsb (String.eqb k) (map fst d)) eqn:E; [exact Hnd |].
    apply NoDup_app; [exact Hnd | repeat constructor; intros [] |].
    intros x Hx [<- | []].
    apply existsb_eqb_In in Hx. congruence.
  - clear Hnd. induction Hall as [| [k' vs] d [Hne Hvs] Hd IH]; cbn.
    + repeat constructor; [discriminate | exact Hv].
    + destruct (String.eqb k' k).
      * constructor; [| assumption]. cbn. split.
        -- destruct vs; discriminate.
        -- apply Forall_app. split; [exact Hvs | repeat constructor; exact Hv].
      * constructor; [split; assumption | exact IH].
Qed.

Lemma well_formed_collect d fields :
  well_formed d -> well_formed (collect d fields).
Proof.
  revert d. induction fields as [| [k v] fields IH]; intros d Hd; cbn;
    [exact Hd |].
  destruct (String.eqb_spec v ""); [apply IH; exact Hd |].
  apply IH. apply well_formed_add_value; assumption.
Qed.

Lemma well_formed_parse_qs fields : well_formed (parse_qs fields).
Proof.
  apply well_formed_collect. split; constructor.
Qed.

Lemma keys_assign d k vs :
  map fst (assign d k vs)
  = if existsb (String.eqb k) (map fst d) then map fst d
    else (map fst d ++ [k])%list.
Proof.
  induction d as [| [k' vs'] d IH]; cbn; [reflexivity |].
  rewrite (String.eqb_sym k k').
  destruct (String.eqb_spec k' k) as [-> | Hne]; cbn; [reflexivity |].
  rewrite IH. destruct (existsb (String.eqb k) (map fst d)); reflexivity.
Qed.

Lemma well_formed_assign d k vs :
  well_formed d -> vs <> [] -> Forall (fun v => v <> "") vs ->
  well_formed (assign d k vs).
Proof.
  intros [Hnd Hall] Hne Hvs. split.
  - rewrite keys_assign.
    destruct (existsb (String.eqb k) (map fst d)) eqn:E; [exact Hnd |].
    apply NoDup_app; [exact Hnd | repeat constructor; intros [] |].
    intros x Hx [<- | []].
    apply existsb_eqb_In in Hx. congruence.
  - clear Hnd. induction Hall as [| [k' vs'] d Hk Hd IH]; cbn.
    + repeat constructor; assumption.
    + destruct (String.eqb k' k); constructor; auto.
Qed.

Lemma add_value_new d k v :
  ~ In k (map fst d) -> add_value d k v = (d ++ [(k, [v])])%list.
Proof.
  induction d as [| [k' vs] d IH]; cbn; [reflexivity |].
  intros H. destruct (String.eqb_spec k' k) as [-> | _]; [tauto |].
  rewrite IH by tauto. reflexivity.
Qed.

Lemma add_value_last d k ws v :
  ~ In k (map fst d) ->
  add_value (d ++ [(k, ws)])%list k v = (d ++ [(k, (ws ++ [v])%list)])%list.
Proof.
  induction d as [| [k' vs] d IH]; cbn.
  - rewrite String.eqb_refl. reflexivity.
  - intros H. destruct (String.eqb_spec k' k) as [-> | _]; [tauto |].
    rewrite IH by tauto. reflexivity.
Qed.

Lemma collect_values d k ws vs rest :
  ~ In k (map fst d) -> Forall (fun v => v <> "") vs ->
  collect (d ++ [(k, ws)])%list (map (fun v => (k, v)) vs ++ rest)%list
  = collect (d ++ [(k, (ws ++ vs)%list)])%list rest.
Proof.
  intros Hk. revert ws. induction vs as [| v vs IH]; intros ws Hvs; cbn.
  - rewrite app_nil_r. reflexivity.
  - inversion Hvs as [| ? ? Hv Hvs']; subst.
    destruct (String.eqb_spec v ""); [contradiction |].
    rewrite (add_value_last d k ws v Hk), IH by exact Hvs'.
    rewrite <- app_assoc. reflexivity.
Qed.

(** Encoding a parsed query and parsing it again gives it back. *)
Lemma collect_urlencode acc d :
  well_formed (acc ++ d)%list -> collect acc (urlencode d) = (acc ++ d)%list.
Proof.
  revert acc. induction d as [| [k vs] d IH]; intros acc Hwf.
  - cbn. rewrite app_nil_r. reflexivity.
  - pose proof Hwf as [Hnd Hall].
    rewrite map_app in Hnd. cbn [map fst] in Hnd.
    pose proof (NoDup_remove_2 _ _ _ Hnd) as Hk.
    apply Forall_app in Hall. destruct Hall as [_ Hall].
    inversion Hall as [| ? ? [Hne Hvs] _]; subst. cbn [snd] in Hne, Hvs.
    destruct vs as [| v vs]; [congruence |].
    inversion Hvs as [| ? ? Hv Hvs']; subst.
    unfold urlencode. cbn [flat_map fst snd map app collect].
    destruct (String.eqb_spec v ""); [contradiction |].
    rewrite add_value_new by (intros Hin; apply Hk, in_or_app; auto).
    fold (urlencode d).
    rewrite (collect_values acc k [v] vs (urlencode d))
      by (try exact Hvs'; intros Hin; apply Hk, in_or_app; auto).
    cbn [app]. rewrite IH.
    + rewrite <- app_assoc. reflexivity.
    + rewrite <- app_assoc. exact Hwf.
Qed.

Lemma parse_urlencode d : well_formed d -> parse_qs (urlencode d) = d.
Proof. intros H. apply (collect_urlencode [] d H). Qed.

Lemma values_assign_same d k vs : values (assign d k vs) k = Some vs.
Proof.
  induction d as [| [k' vs'] d IH]; cbn.
  - rewrite String.eqb_refl. reflexivity.
  - destruct (String.eqb_spec k' k) as [-> | Hne]; cbn.
    + rewrite String.eqb_refl. reflexivity.
    + destruct (String.eqb_spec k' k); [contradiction | exact IH].
Qed.

Lemma values_assign_other d k vs k' :
  k' <> k -> values (assign d k vs) k' = values d k'.
Proof.
  intros Hk. induction d as [| [k0 vs0] d IH]; cbn.
  - destruct (String.eqb_spec k k'); [congruence | reflexivity].
  - destruct (String.eqb_spec k0 k) as [-> | Hne]; cbn.
    + destruct (String.eqb_spec k k'); [congruence | reflexivity].
    + destruct (String.eqb k0 k'); [reflexivity | exact IH].
Qed.

Lemma assign_assign d k vs ws : assign (assign d k vs) k ws = assign d k ws.
Proof.
  induction d as [| [k' vs'] d IH]; cbn.
  - rewrite String.eqb_refl. reflexivity.
  - destruct (String.eqb_spec k' k) as [-> | Hne]; cbn.
    + rewrite String.eqb_refl. reflexivity.
    + destruct (String.eqb_spec k' k); [contradiction |]. rewrite IH.
      reflexivity.
Qed.

Lemma str_of_nat_not_blank n : str_of_nat n <> "".
Proof.
  unfold str_of_nat, str_of_Z.
  destruct (Z.of_nat n) as [| p | p] eqn:E; [discriminate | | lia].
  cbn. destruct (Pos.to_uint p) eqn:U; cbn; try discriminate.
Qed.

Lemma to_int_digits n :
  Z.to_int (Z.of_nat n) <> Decimal.Pos Decimal.Nil /\
  Z.to_int (Z.of_nat n) <> Decimal.Neg Decimal.Nil.
Proof.
  destruct (Z.of_nat n) as [| p | p] eqn:E; [split; discriminate | | lia].
  cbn. split; [| discriminate].
  intros [= H]. apply (DecimalPos.Unsigned.to_uint_nonnil p H).
Qed.

Lemma str_of_nat_inj m n : str_of_nat m = str_of_nat n -> m = n.
Proof.
  unfold str_of_nat, str_of_Z. intros H.
  apply Nat2Z.inj. apply DecimalZ.to_int_inj.
  assert (E : NilZero.int_of_string (NilZero.string_of_int (Z.to_int (Z.of_nat m)))
              = NilZero.int_of_string (NilZero.string_of_int (Z.to_int (Z.of_nat n))))
    by (rewrite H; reflexivity).
  rewrite !NilZero.isi in E by apply to_int_digits.
  injection E as E. exact E.
Qed.

Lemma well_formed_page base n :
  well_formed (assign (parse_qs (query base)) "page" [str_of_nat n]).
Proof.
  apply well_formed_assign.
  - apply well_formed_parse_qs.
  - discriminate.
  - repeat constructor. apply str_of_nat_not_blank.
Qed.

(** X18. The URL of a page.  [adjust_url_for_pagination] changes the
    query and nothing else; read back, the new query gives [page] the
    number asked as its only value, whatever the base URL said about
    [page], and gives every other name the values it had; no field with
    a blank value is left; and adjusting an adjusted URL is the same as
    adjusting the base URL. *)
Theorem page_parameter_is_set (base : url) (n : nat) :
  let u := adjust_url_for_pagination base n in
  (scheme u = scheme base /\ netloc u = netloc base /\ path u = path base /\
   params u = params base /\ fragment u = fragment base) /\
  values (parse_qs (query u)) "page" = Some [str_of_nat n] /\
  (forall k, k <> "page" ->
     values (parse_qs (query u)) k = values (parse_qs (query base)) k) /\
  Forall (fun field => snd field <> "") (query u) /\
  (forall m,
     adjust_url_for_pagination u m = adjust_url_for_pagination base m).
Proof.
  cbv zeta. pose proof (well_formed_page base n) as Hwf.
  split; [repeat split |].
  unfold adjust_url_for_pagination.
  cbn [scheme netloc path params query fragment].
  rewrite (parse_urlencode _ Hwf).
  split; [apply values_assign_same |].
  split; [intros k Hk; apply values_assign_other; exact Hk |].
  split.
  - destruct Hwf as [_ Hall]. unfold urlencode.
    apply Forall_forall. intros [k v] Hin. apply in_flat_map in Hin.
    destruct Hin as [[k' vs] [Hkv Hin]]. cbn [fst snd] in Hin.
    apply in_map_iff in Hin. destruct Hin as [v' [E Hv]]. injection E as E1 E2. subst k' v'.
    rewrite Forall_forall in Hall. destruct (Hall _ Hkv) as [_ Hvs].
    rewrite Forall_forall in Hvs. apply (Hvs v Hv).
  - intros m. rewrite assign_assign. reflexivity.
Qed.

(** X19. Two page numbers never give the same URL: each move of the
    cursor asks the site for another address. *)
Theorem page_urls_are_distinct (base : url) (m n : nat) :
  adjust_url_for_pagination base m = adjust_url_for_pagination base n ->
  m = n.
Proof.
  intros H. apply (f_equal (fun u => values (parse_qs (query u)) "page")) in H.
  unfold adjust_url_for_pagination in H. cbn [query] in H.
  rewrite !parse_urlencode in H by apply well_formed_page.
  rewrite !values_assign_same in H. injection H as H.
  apply str_of_nat_inj. exact H.
Qed.

Lemma page_urls_are_distinct_witness : 7%nat = 7%nat.
Proof.
  apply (page_urls_are_distinct base_url 7 7). reflexivity.
Defined.

(** The second page of the search the script starts from. *)
Example second_page_of_the_search :
  query (adjust_url_for_pagination base_url 2)
  = [("c", "4"); ("fu", "0"); ("rp", "y"); ("ob", "mr"); ("page", "2")].
Proof. vm_compute. reflexivity. Qed.

End UrlFacts.

(* ===================================================================== *)
(** * Bayut: what a failure costs *)
(* ===================================================================== *)

Module FailureFacts.
Import Py Pandas Plan Bayut Row Views PandasFacts NormalizerFacts.

Section Missing.

Variable py_str : json -> string.
Variable scrape_date : string.

Ltac look :=
  repeat (rewrite getitem_setitem; cbn [String.eqb Ascii.eqb Bool.eqb]);
  rewrite ?getitem_DataFrame.

(** The block fails with [KeyError] at the first column it reads that no
    listing of the batch carries. *)
Lemma flatten_missing (hits : list json) (records : list dict) (k : string) :
  as_records hits = inr records ->
  Forall (fun d => well_typed d = true) records ->
  first_missing records = Some k ->
  flatten py_str scrape_date hits = inl (KeyError k).
Proof.
  intros Hrec Hwt. unfold flatten. rewrite Hrec. cbn [bind].
  assert (Hloc : forall level,
    Forall (fun v => extract_location_details v level
                     = inr (value (none, none) (extract_location_details v level)))
      (map (entry "location") records)).
  { intros level. apply Forall_entries. revert Hwt. apply Forall_impl.
    intros d Hd. apply extract_location_total. apply well_typed_parts in Hd. tauto. }
  assert (Hcat : forall level,
    Forall (fun v => extract_category_details v level
                     = inr (value (none, none) (extract_category_details v level)))
      (map (entry "category") records)).
  { intros level. apply Forall_entries. revert Hwt. apply Forall_impl.
    intros d Hd. apply extract_category_total. apply well_typed_parts in Hd. tauto. }
  assert (Hcreated :
    Forall (fun v => to_datetime v = inr (value NaT (to_datetime v)))
      (map (entry "createdAt") records)).
  { apply Forall_entries. revert Hwt. apply Forall_impl.
    intros d Hd. apply to_datetime_total. apply well_typed_parts in Hd. tauto. }
  assert (Hupdated :
    Forall (fun v => to_datetime v = inr (value NaT (to_datetime v)))
      (map (entry "updatedAt") records)).
  { apply Forall_entries. revert Hwt. apply Forall_impl.
    intros d Hd. apply to_datetime_total. apply well_typed_parts in Hd. tauto. }
  unfold first_missing, read_order. cbn [find].
  destruct (has_column records "geography") eqn:G; cbn [negb].
  2:{ intros [= <-]. unfold apply_into at 1. look. rewrite G. reflexivity. }
  rewrite (apply_into_ok _ "geography" "latitude" _ (map (entry "geography") records))
    by (look; rewrite G; reflexivity).
  cbn [bind].
  rewrite (apply_into_ok _ "geography" "longitude" _ (map (entry "geography") records))
    by (look; rewrite G; reflexivity).
  cbn [bind].
  destruct (has_column records "location") eqn:L; cbn [negb].
  2:{ intros [= <-]. unfold unzip_into at 1. look. rewrite L. reflexivity. }
  rewrite (unzip_into_ok _ _ "location" 1 _ _ _ _ (Hloc 1))
    by (look; rewrite L; reflexivity).
  cbn [bind].
  rewrite (unzip_into_ok _ _ "location" 2 _ _ _ _ (Hloc 2))
    by (look; rewrite L; reflexivity).
  cbn [bind].
  rewrite (unzip_into_ok _ _ "location" 3 _ _ _ _ (Hloc 3))
    by (look; rewrite L; reflexivity).
  cbn [bind].
  rewrite (unzip_into_ok _ _ "location" 4 _ _ _ _ (Hloc 4))
    by (look; rewrite L; reflexivity).
  cbn [bind].
  destruct (has_column records "category") eqn:C; cbn [negb].
  2:{ intros [= <-]. unfold unzip_into at 1. look. rewrite C. reflexivity. }
  rewrite (unzip_into_ok _ _ "category" 0 _ _ _ _ (Hcat 0))
    by (look; rewrite C; reflexivity).
  cbn [bind].
  rewrite (unzip_into_ok _ _ "category" 1 _ _ _ _ (Hcat 1))
    by (look; rewrite C; reflexivity).
  cbn [bind].
  destruct (has_column records "agency") eqn:A; cbn [negb].
  2:{ intros [= <-]. unfold apply_into at 1. look. rewrite A. reflexivity. }
  rewrite (apply_into_ok _ "agency" "AgencyName" _ (map (entry "agency") records))
    by (look; rewrite A; reflexivity).
  cbn [bind].
  destruct (has_column records "extraFields") eqn:X; cbn [negb].
  2:{ intros [= <-]. unfold apply_into at 1. look. rewrite X. reflexivity. }
  rewrite (apply_into_ok _ "extraFields" "DldBuildingNK" _
             (map (entry "extraFields") records))
    by (look; rewrite X; reflexivity).
  cbn [bind].
  rewrite (apply_into_ok _ "extraFields" "DldPropertySK" _
             (map (entry "extraFields") records))
    by (look; rewrite X; reflexivity).
  cbn [bind].
  destruct (has_column records "createdAt") eqn:T1; cbn [negb].
  2:{ intros [= <-]. unfold try_apply_into at 1. look. rewrite T1. reflexivity. }
  rewrite (try_apply_into_ok _ _ "createdAt" "createdAt" _ _ Hcreated)
    by (look; rewrite T1; reflexivity).
  cbn [bind].
  destruct (has_column records "updatedAt") eqn:T2; cbn [negb].
  2:{ intros [= <-]. unfold try_apply_into at 1. look. rewrite T2. reflexivity. }
  rewrite (try_apply_into_ok _ _ "updatedAt" "updatedAt" _ _ Hupdated)
    by (look; rewrite T2; reflexivity).
  cbn [bind].
  destruct (has_column records "externalID") eqn:E; cbn [negb];
    [discriminate |].
  intros [= <-]. unfold try_apply_into at 1. look. rewrite E. reflexivity.
Qed.

End Missing.

(** X20. The guard of a band is all or nothing.  Run against a source
    that serves the pages [contents], with well-typed mappings as
    listings: when no listing of the band carries one of the columns the
    block reads, normalisation fails with [KeyError] at the first such
    column; when the batch is complete but the file of the band cannot be
    written, writing fails.  Either way the band has read the clock
    once, writes nothing at all, logs the exception with its label as
    its last line, and returns normally, so the next band is scraped. *)
Theorem failed_band_writes_nothing
    (now : nat -> datetime) (writable : string -> bool)
    (py_str : json -> string) (contents : list (list json))
    (base : string) (max_pages hpp : nat) (r : Plan.price_range) (s : state)
    (records : list dict) (e : exn) :
  as_records (List.concat (leading (firstn max_pages contents))) = inr records ->
  records <> [] ->
  Forall (fun d => well_typed d = true) records ->
  (exists k, first_missing records = Some k /\ e = KeyError k) \/
  (complete records = true /\
   writable (output_path (label r) max_pages) = false /\
   e = IOError (output_path (label r) max_pages)) ->
  let run := scrape_range_guarded (Samples.paged contents) now writable py_str
               base max_pages hpp r s in
  fst run = inr tt /\
  files (snd run) = files s /\
  clock_reads (snd run) = S (clock_reads s) /\
  exists evs,
    log (snd run)
    = (log s ++ ScrapingRange (label r) :: evs
       ++ [ErrorScraping (label r) e])%list /\
    started evs = [].
Proof.
  intros Hrec Hne Hwt Hfail. cbv zeta.
  remember (scrape_range_guarded (Samples.paged contents) now writable py_str
              base max_pages hpp r s) as run eqn:Hrun.
  unfold scrape_range_guarded, try_except, scrape_range in Hrun.
  rewrite FetcherFacts.info_then in Hrun. unfold mbind at 1 in Hrun.
  destruct (RowFacts.as_records_cons _ _ Hrec Hne) as (x & rest & Hhits & _).
  match type of Hrun with
  | context [page_loop ?po ?l ?cf ?mp ?h ?pages ?acc ?st] =>
      destruct (RunFacts.page_loop_effects po l cf mp h pages acc st)
        as (_ & _ & _ & _ & _ & _ & _ & _ & Hf & _);
      pose proof (RunFacts.page_loop_clock po l cf mp h pages acc st) as Hck;
      destruct (FetcherFacts.quiet_page_loop po l cf mp h pages acc st)
        as [evs [Hlog Hst]];
      destruct (RunFacts.page_loop_paged contents l cf mp h mp 0 acc st)
        as [s1 [Hloop _]];
      cbn [skipn app] in Hloop;
      rewrite Hloop in Hf, Hck, Hlog, Hrun
  end.
  cbn [fst snd files clock_reads log] in Hf, Hck, Hlog.
  rewrite Hhits in Hrun.
  unfold mbind at 1 in Hrun. unfold read_clock at 1 in Hrun.
  unfold mbind at 1 in Hrun. unfold lift at 1 in Hrun.
  rewrite <- Hhits in Hrun. rewrite Hck in Hrun.
  destruct Hfail as [(k & Hk & ->) | (Hc & Hw & ->)].
  - assert (Hnorm : normalize py_str (now (clock_reads s))
                      (List.concat (leading (firstn max_pages contents)))
                    = inl (KeyError k)).
    { unfold normalize.
      rewrite (flatten_missing py_str _ _ records k Hrec Hwt Hk). reflexivity. }
    rewrite Hnorm in Hrun.
    subst run. cbn [info fst snd files clock_reads log].
    rewrite Hf, Hlog.
    repeat split; auto.
    exists evs. rewrite <- !app_assoc. auto.
  - rewrite (RowFacts.normalize_rows py_str _ _ records Hrec Hc Hwt) in Hrun.
    unfold mbind at 1 in Hrun. unfold to_csv at 1 in Hrun. rewrite Hw in Hrun.
    subst run. cbn [info fst snd files clock_reads log].
    rewrite Hf, Hlog.
    repeat split; auto.
    exists evs. rewrite <- !app_assoc. auto.
Qed.

Lemma failed_band_writes_nothing_witness :
  fst (scrape_range_guarded (Samples.paged [[JDict Samples.no_agency]])
          (fun _ => Samples.noon) (fun _ => true) Samples.sample_str
          "purpose:for-rent" 3 50
          {| label := "budget"; filter := below 20000 |} initial) = inr tt /\
  files (snd (scrape_range_guarded (Samples.paged [[JDict Samples.no_agency]])
          (fun _ => Samples.noon) (fun _ => true) Samples.sample_str
          "purpose:for-rent" 3 50
          {| label := "budget"; filter := below 20000 |} initial)) = [] /\
  clock_reads (snd (scrape_range_guarded (Samples.paged [[JDict Samples.no_agency]])
          (fun _ => Samples.noon) (fun _ => true) Samples.sample_str
          "purpose:for-rent" 3 50
          {| label := "budget"; filter := below 20000 |} initial)) = 1%nat /\
  exists evs,
    log (snd (scrape_range_guarded (Samples.paged [[JDict Samples.no_agency]])
          (fun _ => Samples.noon) (fun _ => true) Samples.sample_str
          "purpose:for-rent" 3 50
          {| label := "budget"; filter := below 20000 |} initial))
    = ([] ++ ScrapingRange "budget" :: evs
       ++ [ErrorScraping "budget" (KeyError "agency")])%list /\
    started evs = [].
Proof.
  apply (failed_band_writes_nothing (fun _ => Samples.noon) (fun _ => true)
           Samples.sample_str [[JDict Samples.no_agency]]
           "purpose:for-rent" 3 50
           {| label := "budget"; filter := below 20000 |} initial
           [Samples.no_agency] (KeyError "agency")).
  - reflexivity.
  - discriminate.
  - repeat constructor.
  - left. exists "agency". split; reflexivity.
Defined.

Lemma read_all_fails s good bad rest frames :
  Forall2 (fun path df => lookup_file (files s) path = Some df /\ df <> [])
    good frames ->
  lookup_file (files s) bad = Some [] ->
  read_all (good ++ bad :: rest) s = (inl EmptyDataError, s).
Proof.
  intros Hgood Hbad.
  induction Hgood as [| path df good frames [Hfile Hdf] _ IH]; cbn [app read_all].
  - unfold mbind, read_csv. rewrite Hbad. reflexivity.
  - unfold mbind at 1. unfold read_csv at 1. rewrite Hfile.
    destruct df as [| c df]; [congruence |].
    unfold mbind at 1. rewrite IH. reflexivity.
Qed.

(** X21. One unit that cannot be parsed spoils the consolidation: when
    the first unit that fails to parse is a file without a header line,
    the files read before it are discarded, nothing is written, and the
    failure is logged; the consolidation still returns normally. *)
Theorem unreadable_unit_spoils_the_consolidation
    (writable : string -> bool) (input_folder output_file : string)
    (s : state) (good : list string) (bad : string) (rest : list string)
    (frames : list frame) :
  List.filter (matches_csv input_folder) (map fst (files s))
  = (good ++ bad :: rest)%list ->
  Forall2 (fun path df => lookup_file (files s) path = Some df /\ df <> [])
    good frames ->
  lookup_file (files s) bad = Some [] ->
  combine_csv_files writable input_folder output_file s
  = (inr tt,
     {| sent := sent s; slept := slept s;
        log := (log s ++ [FoundFiles (List.length (good ++ bad :: rest));
                          FailedToCombine EmptyDataError])%list;
        files := files s; clock_reads := clock_reads s |}).
Proof.
  intros Hglob Hgood Hbad.
  unfold combine_csv_files, try_except. unfold mbind at 1. unfold glob_csv.
  rewrite Hglob.
  destruct (good ++ bad :: rest)%list as [| path paths] eqn:E;
    [destruct good; discriminate E |].
  rewrite FetcherFacts.info_then. unfold mbind at 1.
  rewrite <- E.
  match goal with
  | |- context [read_all _ ?st] =>
      rewrite (read_all_fails st good bad rest frames Hgood Hbad)
  end.
  unfold info. cbn [fst snd log sent slept files clock_reads].
  rewrite <- app_assoc. reflexivity.
Qed.

Lemma unreadable_unit_spoils_the_consolidation_witness :
  combine_csv_files (fun _ => true) "output/Bayut" "output/Bayut/all.csv"
    Samples.with_blank_unit
  = (inr tt,
     {| sent := sent Samples.with_blank_unit;
        slept := slept Samples.with_blank_unit;
        log := (log Samples.with_blank_unit
                ++ [FoundFiles
                      (List.length
                         (["output/Bayut/bayut_listings_budget_pages_1000.csv"]
                          ++ "output/Bayut/notes.csv" :: []));
                    FailedToCombine EmptyDataError])%list;
        files := files Samples.with_blank_unit;
        clock_reads := clock_reads Samples.with_blank_unit |}).
Proof.
  apply (unreadable_unit_spoils_the_consolidation (fun _ => true)
           "output/Bayut" "output/Bayut/all.csv" Samples.with_blank_unit
           ["output/Bayut/bayut_listings_budget_pages_1000.csv"]
           "output/Bayut/notes.csv" []
           [Samples.unit_of [11000; 12000]]).
  - reflexivity.
  - repeat constructor; discriminate.
  - reflexivity.
Defined.

End FailureFacts.
